(** * GroceryConcierge: a shallow embedding of [main.py] and its properties

    The development follows the source file class by class:
    [FridgeInventory], [MealPlanner], [GroceryManager], [CalendarManager]
    and the orchestrating [GroceryConcierge].

    Conventions of the embedding.
    - Python [int] is [Z]; Python [str] is [string] (ASCII code points,
      compared lexicographically as Python compares them).
    - A list attribute mutated in place ([self.items], [self.events]) is
      threaded explicitly: an operation takes the list and returns the new
      one next to its Python return value.
    - A call that may raise returns a [result]; [Raised] carries the
      exception class. *)

From Stdlib Require Import ZArith Lia Bool Ascii String SpecFloat.
From Stdlib Require Import Decimal DecimalString DecimalZ Sorted.
From stdpp Require Import base option list strings gmap.

Local Open Scope Z_scope.

(** ** Python values shared by all classes *)

Inductive py_exn : Type :=
  | ValueError
  | IndexError.

Inductive result (A : Type) : Type :=
  | Returned (a : A)
  | Raised (e : py_exn).

Arguments Returned {A} a.
Arguments Raised {A} e.

(** [str.lower()] on ASCII text: the letters A-Z move to a-z, every other
    code point stays. *)
Definition ascii_lower (c : ascii) : ascii :=
  let n := N_of_ascii c in
  if ((65 <=? n)%N && (n <=? 90)%N)%bool then ascii_of_N (n + 32) else c.

Fixpoint lower (s : string) : string :=
  match s with
  | EmptyString => EmptyString
  | String c s' => String (ascii_lower c) (lower s')
  end.

(** [str(n)] for an [int]. *)
Definition str_of_int (n : Z) : string := NilZero.string_of_int (Z.to_int n).

(** [int(s)] on ASCII text: the white space of C's [isspace] (tab, line
    feed, vertical tab, form feed, carriage return and the blank) is
    dropped at both ends, then an optional sign and a non-empty run of
    decimal digits is read.  (Python also takes single underscores between
    digits; the strings parsed here are pieces of [split('_')] and have
    none.) *)
Definition is_space (c : ascii) : bool :=
  let n := N_of_ascii c in
  (((9 <=? n)%N && (n <=? 13)%N) || (n =? 32)%N)%bool.

Fixpoint lstrip (s : string) : string :=
  match s with
  | EmptyString => EmptyString
  | String c s' => if is_space c then lstrip s' else s
  end.

Fixpoint rstrip (s : string) : string :=
  match s with
  | EmptyString => EmptyString
  | String c s' =>
      match rstrip s' with
      | EmptyString => if is_space c then EmptyString else String c EmptyString
      | r => String c r
      end
  end.

Definition py_int (s : string) : option Z :=
  match rstrip (lstrip s) with
  | String "+" r =>
      match r with
      | String "-" _ => None
      | _ => Z.of_uint <$> NilZero.uint_of_string r
      end
  | s' => Z.of_int <$> NilZero.int_of_string s'
  end.

(** [s.split(sep)] for a one-character separator. *)
Fixpoint split_on (sep : ascii) (s : string) : list string :=
  match s with
  | EmptyString => [EmptyString]
  | String c s' =>
      if Ascii.eqb c sep then EmptyString :: split_on sep s'
      else match split_on sep s' with
           | p :: ps => String c p :: ps
           | [] => [String c EmptyString]
           end
  end.

(** Characters of a printed integer: a digit or the minus sign. *)
Definition numeric (c : ascii) : Prop :=
  is_space c = false /\ c <> "+"%char /\ c <> "_"%char.

Fixpoint all_chars (P : ascii -> Prop) (s : string) : Prop :=
  match s with
  | EmptyString => True
  | String c s' => P c /\ all_chars P s'
  end.

(** [range(a, b)] *)
Definition py_range (a b : Z) : list Z :=
  map (fun i => a + Z.of_nat i) (seq 0 (Z.to_nat (b - a))).

(** A [dict] whose order of insertion matters: [d[k] = v] overwrites the
    entry of [k] in place or appends a new one. *)
Fixpoint dict_set {V : Type} (d : list (string * V)) (k : string) (v : V)
    : list (string * V) :=
  match d with
  | [] => [(k, v)]
  | (k', v') :: d' =>
      if String.eqb k' k then (k, v) :: d' else (k', v') :: dict_set d' k v
  end.

(** [d.get(k)] / [k in d] *)
Fixpoint dict_get {V : Type} (d : list (string * V)) (k : string) : option V :=
  match d with
  | [] => None
  | (k', v) :: d' => if String.eqb k' k then Some v else dict_get d' k
  end.

(** [sorted(xs, key=key)] for string keys: a stable sort.  Each element is
    placed after the elements already there whose key is not greater. *)
Fixpoint insert_by {A : Type} (key : A -> string) (x : A) (l : list A)
    : list A :=
  match l with
  | [] => [x]
  | y :: l' =>
      if String.ltb (key x) (key y) then x :: y :: l'
      else y :: insert_by key x l'
  end.

Definition sorted_by {A : Type} (key : A -> string) (l : list A) : list A :=
  fold_left (fun acc x => insert_by key x acc) l [].

Definition newline : string := String "010"%char EmptyString.

(** [list.remove(x)]: drops the first element equal to [x]; Python raises
    [ValueError] when there is none. *)
Fixpoint list_remove {A : Type} `{EqDecision A} (x : A) (l : list A)
    : option (list A) :=
  match l with
  | [] => None
  | y :: l' => if decide (y = x) then Some l' else cons y <$> list_remove x l'
  end.

(** ** [datetime]

    Naive datetimes on the proleptic Gregorian calendar, as
    [datetime.now()] returns them.  Day arithmetic steps through the
    calendar one day at a time.  Python keeps [year] within
    [MINYEAR..MAXYEAR] and raises [OverflowError] outside; here the
    arithmetic is total and [representable] states the bound where a
    statement depends on it.  [strftime] goes through the C library,
    whose [%Y] does not pad the year; [isoformat] pads it to four
    digits itself.  The two agree from the year 1000 on, which
    [printable] states. *)

Module Datetime.

Record date : Type := mkDate { year : Z; month : Z; day : Z }.

Record t : Type := mk {
  on : date;
  hour : Z;
  minute : Z;
  second : Z;
  microsecond : Z
}.

Definition is_leap (y : Z) : bool :=
  (y mod 4 =? 0) && (negb (y mod 100 =? 0) || (y mod 400 =? 0)).

Definition days_in_month (y m : Z) : Z :=
  if m =? 2 then (if is_leap y then 29 else 28)
  else if (m =? 4) || (m =? 6) || (m =? 9) || (m =? 11) then 30
  else 31.

Definition next_day (d : date) : date :=
  if day d <? days_in_month (year d) (month d)
  then mkDate (year d) (month d) (day d + 1)
  else if month d <? 12 then mkDate (year d) (month d + 1) 1
  else mkDate (year d + 1) 1 1.

Definition prev_day (d : date) : date :=
  if 1 <? day d then mkDate (year d) (month d) (day d - 1)
  else if 1 <? month d
  then mkDate (year d) (month d - 1) (days_in_month (year d) (month d - 1))
  else mkDate (year d - 1) 12 31.

(** [d + timedelta(days=n)] on dates. *)
Definition add_days (d : date) (n : Z) : date :=
  if 0 <=? n then Nat.iter (Z.to_nat n) next_day d
  else Nat.iter (Z.to_nat (- n)) prev_day d.

(** [dt + timedelta(days=days, seconds=seconds)]: the seconds are added to
    the time of day and whole days carried into the date. *)
Definition add_timedelta (dt : t) (days seconds : Z) : t :=
  let s := hour dt * 3600 + minute dt * 60 + second dt + seconds in
  let s' := s mod 86400 in
  mk (add_days (on dt) (days + s / 86400))
     (s' / 3600) (s' mod 3600 / 60) (s' mod 60) (microsecond dt).

(** [dt.replace(hour=h, minute=0, second=0, microsecond=0)] *)
Definition replace_time (dt : t) (h : Z) : t := mk (on dt) h 0 0 0.

(** A date of the calendar, and one Python can hold. *)
Definition valid_date (d : date) : Prop :=
  1 <= month d <= 12 /\ 1 <= day d <= days_in_month (year d) (month d).

Definition MINYEAR : Z := 1.
Definition MAXYEAR : Z := 9999.

Definition representable (d : date) : Prop :=
  valid_date d /\ MINYEAR <= year d <= MAXYEAR.

Definition valid (dt : t) : Prop :=
  representable (on dt) /\ 0 <= hour dt < 24 /\ 0 <= minute dt < 60 /\
  0 <= second dt < 60 /\ 0 <= microsecond dt < 1000000.

(** A date whose fields fill the widths of [%Y-%m-%d]: a year of four
    digits. *)
Definition printable (d : date) : Prop :=
  1000 <= year d < 10000 /\ 0 <= month d < 100 /\ 0 <= day d < 100.

(** A date Python can hold whose year [%Y] prints with four digits. *)
Definition four_digit (d : date) : Prop := representable d /\ 1000 <= year d.

(** Calendar order. *)
Definition date_compare (a b : date) : comparison :=
  match year a ?= year b with
  | Eq => match month a ?= month b with
          | Eq => day a ?= day b
          | c => c
          end
  | c => c
  end.

Definition date_le (a b : date) : Prop := date_compare a b <> Gt.

(** [a <= b] on naive datetimes. *)
Definition compare (a b : t) : comparison :=
  match date_compare (on a) (on b) with
  | Eq => match hour a ?= hour b with
          | Eq => match minute a ?= minute b with
                  | Eq => match second a ?= second b with
                          | Eq => microsecond a ?= microsecond b
                          | c => c
                          end
                  | c => c
                  end
          | c => c
          end
  | c => c
  end.

Definition leb (a b : t) : bool :=
  match compare a b with
  | Gt => false
  | _ => true
  end.

(** Zero-padded decimal fields of [strftime] and [isoformat]: the [w] low
    digits of [n], which is all of [n] for a field within its width. *)
Definition digit (n : Z) : ascii := ascii_of_N (48 + Z.to_N (n mod 10)).

Fixpoint pad (w : nat) (n : Z) : string :=
  match w with
  | O => EmptyString
  | S w' => (pad w' (n / 10) ++ String (digit n) EmptyString)%string
  end.

(** [%Y]: the year as a plain decimal number, without padding (glibc). *)
Definition strftime_year (y : Z) : string := str_of_int y.

(** [strftime("%Y-%m-%d")] *)
Definition strftime_date (d : date) : string :=
  (strftime_year (year d) ++ "-" ++ pad 2 (month d) ++ "-" ++ pad 2 (day d))%string.

(** [strftime("%H:%M")] and [strftime("%H:%M:%S")] pieces *)
Definition strftime_hm (dt : t) : string :=
  (pad 2 (hour dt) ++ ":" ++ pad 2 (minute dt))%string.

(** [strftime("%Y-%m-%d %H:%M")] *)
Definition strftime_minutes (dt : t) : string :=
  (strftime_date (on dt) ++ " " ++ strftime_hm dt)%string.

(** [strftime("%Y%m%d_%H%M%S")] *)
Definition strftime_stamp (dt : t) : string :=
  (strftime_year (year (on dt)) ++ pad 2 (month (on dt)) ++ pad 2 (day (on dt))
   ++ "_" ++ pad 2 (hour dt) ++ pad 2 (minute dt) ++ pad 2 (second dt))%string.

(** The date of [isoformat()]: [%04d-%02d-%02d]. *)
Definition isoformat_date (d : date) : string :=
  (pad 4 (year d) ++ "-" ++ pad 2 (month d) ++ "-" ++ pad 2 (day d))%string.

(** [isoformat()]: the fraction is printed only when it is not zero. *)
Definition isoformat (dt : t) : string :=
  (isoformat_date (on dt) ++ "T" ++ strftime_hm dt ++ ":" ++ pad 2 (second dt)
   ++ (if (microsecond dt =? 0)%Z then "" else "." ++ pad 6 (microsecond dt)))%string.

(** [datetime.fromisoformat] on the texts this program makes:
    [YYYY-MM-DD] and [YYYY-MM-DD?HH[:MM[:SS[.ffffff]]]] ([?] any one
    character), read as a naive datetime.  [None] is Python's
    [ValueError] on these and on malformed text.  Other texts that newer
    Python versions also read (a UTC offset, the basic format without
    dashes, a fraction of another length) are not covered: the embedding
    gives [None] for them, and statements about parsing are made for
    texts on which it gives a value. *)
Definition digit_value (c : ascii) : option Z :=
  let n := N_of_ascii c in
  if ((48 <=? n)%N && (n <=? 57)%N)%bool then Some (Z.of_N n - 48) else None.

Fixpoint take_digits (w : nat) (acc : Z) (s : string) : option (Z * string) :=
  match w with
  | O => Some (acc, s)
  | S w' =>
      match s with
      | String c s' =>
          match digit_value c with
          | Some v => take_digits w' (10 * acc + v) s'
          | None => None
          end
      | EmptyString => None
      end
  end.

Definition expect (c : ascii) (s : string) : option string :=
  match s with
  | String c' s' => if Ascii.eqb c' c then Some s' else None
  | EmptyString => None
  end.

Definition parse_fraction (s : string) : option Z :=
  match s with
  | EmptyString => Some 0
  | _ =>
      s1 ← expect "." s;
      '(us, s2) ← take_digits 6 0 s1;
      match s2 with EmptyString => Some us | _ => None end
  end.

Definition parse_seconds (s : string) : option (Z * Z) :=
  match s with
  | EmptyString => Some (0, 0)
  | _ =>
      s1 ← expect ":" s;
      '(sec, s2) ← take_digits 2 0 s1;
      us ← parse_fraction s2;
      Some (sec, us)
  end.

Definition parse_time (s : string) : option (Z * Z * Z * Z) :=
  '(h, s1) ← take_digits 2 0 s;
  match s1 with
  | EmptyString => Some (h, 0, 0, 0)
  | _ =>
      s2 ← expect ":" s1;
      '(m, s3) ← take_digits 2 0 s2;
      '(sec, us) ← parse_seconds s3;
      Some (h, m, sec, us)
  end.

Definition in_calendar (y m d h mi sec : Z) : bool :=
  (MINYEAR <=? y) && (y <=? MAXYEAR) && (1 <=? m) && (m <=? 12) &&
  (1 <=? d) && (d <=? days_in_month y m) &&
  (h <? 24) && (mi <? 60) && (sec <? 60).

Definition fromisoformat (s : string) : option t :=
  '(y, s1) ← take_digits 4 0 s;
  s2 ← expect "-" s1;
  '(m, s3) ← take_digits 2 0 s2;
  s4 ← expect "-" s3;
  '(d, s5) ← take_digits 2 0 s4;
  '(h, mi, sec, us) ←
    match s5 with
    | EmptyString => Some (0, 0, 0, 0)
    | String _ s6 => parse_time s6
    end;
  if in_calendar y m d h mi sec then Some (mk (mkDate y m d) h mi sec us)
  else None.

End Datetime.

(** ** [FridgeItem] and [FridgeInventory] *)

Module FridgeItem.
Record t : Type := mk {
  name : string;
  quantity : Z;
  unit : string;
  expiry_date : string;
  category : string
}.

Definition set_quantity (it : t) (q : Z) : t :=
  mk (name it) q (unit it) (expiry_date it) (category it).
End FridgeItem.

#[global] Instance FridgeItem_eq_dec : EqDecision FridgeItem.t.
Proof. solve_decision. Defined.

Module FridgeInventory.
Import FridgeItem.

(** [_create_default_inventory] *)
Definition default_items : list FridgeItem.t :=
  [ mk "Milk" 1 "gallon" "2025-07-25" "dairy";
    mk "Eggs" 8 "pieces" "2025-07-30" "dairy";
    mk "Chicken Breast" 2 "lbs" "2025-07-22" "meat";
    mk "Broccoli" 1 "head" "2025-07-21" "vegetable";
    mk "Carrots" 5 "pieces" "2025-07-28" "vegetable";
    mk "Bread" 1 "loaf" "2025-07-20" "grain";
    mk "Cheese" 8 "oz" "2025-08-01" "dairy";
    mk "Tomatoes" 3 "pieces" "2025-07-23" "vegetable";
    mk "Onion" 2 "pieces" "2025-08-05" "vegetable";
    mk "Rice" 2 "cups" "2026-01-01" "grain" ].

(** The test [item.name.lower() == name.lower()] of both loops. *)
Definition same_name (it : FridgeItem.t) (n : string) : bool :=
  bool_decide (lower (name it) = lower n).

(** [get_expiring_soon]: the cutoff is a [%Y-%m-%d] string and the test is
    Python's string comparison. *)
Definition cutoff_day (now : Datetime.t) (days : Z) : Datetime.date :=
  Datetime.on (Datetime.add_timedelta now days 0).

Definition cutoff_date (now : Datetime.t) (days : Z) : string :=
  Datetime.strftime_date (cutoff_day now days).

Definition get_expiring_soon (now : Datetime.t) (items : list FridgeItem.t)
    (days : Z) : list FridgeItem.t :=
  List.filter (fun item => String.leb (expiry_date item) (cutoff_date now days))
    items.

(** [get_low_stock] *)
Definition get_low_stock (items : list FridgeItem.t) (threshold : Z)
    : list FridgeItem.t :=
  List.filter (fun item => quantity item <=? threshold) items.

(** [remove_item].  The [for] loop walks [rest]; [seen] holds the lines
    already passed, so the store is [seen ++ rest] throughout.  On a match
    the line is decremented in place and, at zero, taken out with
    [list.remove].  [save_inventory] only writes the backing file and
    swallows its own errors; it does not touch [self.items]. *)
Fixpoint remove_item_loop (seen rest : list FridgeItem.t)
    (n : string) (q : Z) : result (bool * list FridgeItem.t) :=
  match rest with
  | [] => Returned (false, seen)
  | item :: rest' =>
      if same_name item n then
        if q <=? quantity item then
          let item' := set_quantity item (quantity item - q) in
          let items := seen ++ item' :: rest' in
          if quantity item' =? 0 then
            match list_remove item' items with
            | Some items' => Returned (true, items')
            | None => Raised ValueError
            end
          else Returned (true, items)
        else Returned (false, seen ++ rest)
      else remove_item_loop (seen ++ [item]) rest' n q
  end.

Definition remove_item (items : list FridgeItem.t) (n : string) (q : Z)
    : result (bool * list FridgeItem.t) :=
  remove_item_loop [] items n q.

(** [add_item] *)
Fixpoint add_item_loop (seen rest : list FridgeItem.t) (item : FridgeItem.t)
    : list FridgeItem.t :=
  match rest with
  | [] => seen ++ [item]
  | existing :: rest' =>
      if same_name existing (name item) then
        seen ++ set_quantity existing (quantity existing + quantity item) :: rest'
      else add_item_loop (seen ++ [existing]) rest' item
  end.

Definition add_item (items : list FridgeItem.t) (item : FridgeItem.t)
    : list FridgeItem.t :=
  add_item_loop [] items item.

(** The on-hand quantity of a name: the quantity of the first line the
    loops would stop at. *)
Fixpoint on_hand (items : list FridgeItem.t) (n : string) : option Z :=
  match items with
  | [] => None
  | item :: rest => if same_name item n then Some (quantity item) else on_hand rest n
  end.

(** The first line named [n], with what precedes and what follows it. *)
Definition first_match (n : string) (items pre : list FridgeItem.t)
    (it : FridgeItem.t) (post : list FridgeItem.t) : Prop :=
  items = pre ++ it :: post /\
  Forall (fun y => same_name y n = false) pre /\
  same_name it n = true.

(** Lines of another name, in store order. *)
Definition others (n : string) (items : list FridgeItem.t) : list FridgeItem.t :=
  List.filter (fun y => negb (same_name y n)) items.

(** Calls on the store, for sequences of operations. *)
Inductive op : Type :=
  | Add (item : FridgeItem.t)
  | Remove (n : string) (q : Z).

Definition apply_op (items : list FridgeItem.t) (o : op)
    : option (list FridgeItem.t) :=
  match o with
  | Add item => Some (add_item items item)
  | Remove n q =>
      match remove_item items n q with
      | Returned (_, items') => Some items'
      | Raised _ => None
      end
  end.

Fixpoint run (items : list FridgeItem.t) (ops : list op)
    : option (list FridgeItem.t) :=
  match ops with
  | [] => Some items
  | o :: ops' =>
      match apply_op items o with
      | Some items' => run items' ops'
      | None => None
      end
  end.

(** [get_inventory_summary]: the categories in order of first appearance,
    each with its lines in store order.  ([summary[c].append(item)] finds
    the key the line before it has made sure of.) *)
Definition summary_step (summary : list (string * list FridgeItem.t))
    (item : FridgeItem.t) : list (string * list FridgeItem.t) :=
  let summary1 :=
    match dict_get summary (category item) with
    | None => dict_set summary (category item) []
    | Some _ => summary
    end in
  dict_set summary1 (category item)
    (default [] (dict_get summary1 (category item)) ++ [item]).

Definition get_inventory_summary (items : list FridgeItem.t)
    : list (string * list FridgeItem.t) :=
  fold_left summary_step items [].

(** The test of a category: the category text as it is. *)
Definition in_category (c : string) (it : FridgeItem.t) : bool :=
  String.eqb (category it) c.

(** No two lines under the same name, letter case aside. *)
Definition unique_names (items : list FridgeItem.t) : Prop :=
  NoDup (map (fun it => lower (name it)) items).

(** The stock invariant: every line has a positive quantity, so none is
    negative and none of quantity 0 is kept. *)
Definition positive_stock (items : list FridgeItem.t) : Prop :=
  Forall (fun it => 0 < quantity it) items.

(** The field constraint of the data model on a call: quantity >= 0. *)
Definition op_nonneg (o : op) : Prop :=
  match o with
  | Add item => 0 <= quantity item
  | Remove _ q => 0 <= q
  end.

(** The constraint under which the invariant is kept: as [op_nonneg], and
    a line added under a name the store does not have yet is not empty. *)
Definition op_ok (items : list FridgeItem.t) (o : op) : Prop :=
  match o with
  | Add item =>
      0 <= quantity item /\
      (on_hand items (name item) = None -> 0 < quantity item)
  | Remove _ q => 0 <= q
  end.

Fixpoint ops_ok (items : list FridgeItem.t) (ops : list op) : Prop :=
  match ops with
  | [] => True
  | o :: ops' =>
      op_ok items o /\
      match apply_op items o with
      | Some items' => ops_ok items' ops'
      | None => True
      end
  end.

End FridgeInventory.
(** ** Python [float]: IEEE-754 binary64

    Values are [spec_float] at precision 53; [+] and [*] are the
    round-to-nearest-even operations of the standard library's
    specification.  [of_int] is the conversion Python applies to an [int]
    operand; Python raises [OverflowError] for an [int] beyond the binary64
    range, where [of_int] gives an infinity, and [fits] states the bound
    where a statement depends on it.  [sum] adds from left to right. *)

Module PyFloat.

Definition prec : Z := 53.
Definition emax : Z := 1024.

Definition t : Type := spec_float.

Definition of_int (z : Z) : t := binary_normalize prec emax z 0 false.

(** Whether Python converts the [int] [z] to a float at all: the
    conversion raises [OverflowError] when the nearest binary64 value
    would be beyond the finite range. *)
Definition fits (z : Z) : bool :=
  match of_int z with
  | S754_infinity _ => false
  | _ => true
  end.
Definition add : t -> t -> t := SFadd prec emax.
Definition mul : t -> t -> t := SFmul prec emax.

(** The float nearest to [p / q], for [0 <= p] and [0 < q], signed [s]. *)
Definition of_ratio (s : bool) (p q : Z) : t :=
  let '(mz, ez, lz) := SFdiv_core_binary prec emax p 0 q 0 in
  binary_round_aux prec emax s mz ez lz.

(** The literal [m]e-[k], as [3.99] is [lit 399 2]. *)
Definition lit (m k : Z) : t := of_ratio false m (10 ^ k).

(** [p / q] rounded to the nearest integer, ties to even. *)
Definition rne_div (p q : Z) : Z :=
  let '(d, r) := Z.div_eucl p q in
  match 2 * r ?= q with
  | Lt => d
  | Gt => d + 1
  | Eq => if Z.even d then d else d + 1
  end.

(** [m * 2^e] in hundredths, rounded to the nearest, ties to even. *)
Definition hundredths (m : positive) (e : Z) : Z :=
  if 0 <=? e then Zpos m * 100 * 2 ^ e else rne_div (Zpos m * 100) (2 ^ (- e)).

(** [round(x, 2)]: the float nearest to the correctly rounded two-decimal
    value of [x]. *)
Definition round2 (x : t) : t :=
  match x with
  | S754_finite s m e => if 0 <=? e then x else of_ratio s (hundredths m e) 100
  | _ => x
  end.

(** [f"{x:.2f}"] *)
Definition format_2f (x : t) : string :=
  match x with
  | S754_nan => "nan"
  | S754_infinity s => if s then "-inf" else "inf"
  | S754_zero s => if s then "-0.00" else "0.00"
  | S754_finite s m e =>
      let c := hundredths m e in
      ((if s then "-" else "") ++ str_of_int (c / 100) ++ "."
       ++ String (Datetime.digit (c / 10)) (String (Datetime.digit c) EmptyString))%string
  end.

Definition is_zero (x : t) : bool :=
  match x with
  | S754_zero _ => true
  | _ => false
  end.

End PyFloat.

(** A Python number: [sum] of no floats is the [int] 0. *)
Inductive number : Type :=
  | NInt (z : Z)
  | NFloat (f : PyFloat.t).

Definition to_float (n : number) : PyFloat.t :=
  match n with
  | NInt z => PyFloat.of_int z
  | NFloat f => f
  end.

(** [sum(xs)] over floats: left to right from the [int] 0. *)
Definition py_sum (xs : list PyFloat.t) : number :=
  match xs with
  | [] => NInt 0
  | _ => NFloat (fold_left PyFloat.add xs (PyFloat.of_int 0))
  end.

(** ** [GroceryItem] and [MealPlanner] *)

Module GroceryItem.
Record t : Type := mk {
  name : string;
  quantity : Z;
  unit : string;
  category : string;
  estimated_price : PyFloat.t;
  store_item_id : option string
}.
End GroceryItem.

(** The plan a generator returns: a dict with the keys [meal_plan],
    [grocery_list] and [notes], each of which the callers read with
    [.get] and may find missing.  The days are a dict in insertion order;
    the meals of a day map a meal name to its description. *)
Module MealPlan.
Record t : Type := mk {
  meal_plan : option (list (string * gmap string string));
  grocery_list : option (list GroceryItem.t);
  notes : option (list string)
}.
End MealPlan.

Module MealPlanner.

Definition day_key (day : Z) : string := ("day_" ++ str_of_int day)%string.

Definition mock_meals : gmap string string :=
  <["breakfast" := "Scrambled eggs with cheese"]>
  (<["lunch" := "Chicken and vegetable stir-fry"]>
  (<["dinner" := "Grilled salmon with rice and broccoli"]> ∅)).

Definition mock_grocery_list : list GroceryItem.t :=
  [ GroceryItem.mk "Spinach" 1 "bag" "vegetable" (PyFloat.lit 299 2) None;
    GroceryItem.mk "Salmon" 1 "lb" "seafood" (PyFloat.lit 1299 2) None;
    GroceryItem.mk "Pasta" 1 "box" "grain" (PyFloat.lit 149 2) None;
    GroceryItem.mk "Olive Oil" 1 "bottle" "condiment" (PyFloat.lit 499 2) None ].

Definition mock_notes : list string :=
  [ "This is a mock meal plan. Connect OpenAI API for personalized planning.";
    "Use ingredients expiring soon first.";
    "Consider batch cooking for efficiency." ]%string.

(** [_generate_mock_meal_plan]: the loop assigns
    [mock_plan["meal_plan"][f"day_{day}"]] for [day] in
    [range(1, days + 1)]. *)
Definition _generate_mock_meal_plan (inventory : list FridgeItem.t) (days : Z)
    : MealPlan.t :=
  MealPlan.mk
    (Some (fold_left (fun d day => dict_set d (day_key day) mock_meals)
                     (py_range 1 (days + 1)) []))
    (Some mock_grocery_list)
    (Some mock_notes).

(** [generate_meal_plan].  Without a key ([None] or the empty string) the
    mock plan is returned.  With one, the request to the external model and
    the parsing of its answer happen inside a [try]; [response] is what
    that block produced, [None] standing for any exception in it. *)
Definition generate_meal_plan (api_key : option string)
    (response : option MealPlan.t)
    (inventory : list FridgeItem.t) (days : Z) : MealPlan.t :=
  match api_key with
  | None => _generate_mock_meal_plan inventory days
  | Some key =>
      if String.eqb key "" then _generate_mock_meal_plan inventory days
      else match response with
           | Some plan => plan
           | None => _generate_mock_meal_plan inventory days
           end
  end.

End MealPlanner.

(** ** [GroceryManager] *)

Module GroceryManager.

(** An entry of [store_catalog]. *)
Record catalog_entry : Type := mkEntry {
  price : PyFloat.t;
  entry_unit : string;
  available : bool;
  store_id : string
}.

(** The [store_item] dict of a search result. *)
Record store_item_t : Type := mkStoreItem {
  si_name : string;
  si_store_id : string;
  si_price : PyFloat.t;
  si_unit : string;
  si_available : bool;
  total_cost : PyFloat.t
}.

(** A search result: [store_item] is [None] for a miss, which carries
    [error]. *)
Record product : Type := mkProduct {
  requested_item : GroceryItem.t;
  store_item : option store_item_t;
  error : option string
}.

(** The catalog [__init__] installs. *)
Definition store_catalog : gmap string catalog_entry :=
  list_to_map
    [ ("milk", mkEntry (PyFloat.lit 399 2) "gallon" true "MILK001");
      ("eggs", mkEntry (PyFloat.lit 249 2) "dozen" true "EGG001");
      ("chicken breast", mkEntry (PyFloat.lit 899 2) "lb" true "CHKN001");
      ("broccoli", mkEntry (PyFloat.lit 199 2) "head" true "BROC001");
      ("spinach", mkEntry (PyFloat.lit 299 2) "bag" true "SPIN001");
      ("salmon", mkEntry (PyFloat.lit 1299 2) "lb" true "SALM001");
      ("pasta", mkEntry (PyFloat.lit 149 2) "box" true "PAST001");
      ("olive oil", mkEntry (PyFloat.lit 499 2) "bottle" true "OIL001") ].

Definition not_found : string := "Product not found in store catalog".

(** One turn of the loop of [search_products]. *)
Definition search_product (catalog : gmap string catalog_entry)
    (item : GroceryItem.t) : product :=
  match catalog !! lower (GroceryItem.name item) with
  | Some entry =>
      mkProduct item
        (Some (mkStoreItem (GroceryItem.name item) (store_id entry)
                 (price entry) (entry_unit entry) (available entry)
                 (PyFloat.mul (price entry)
                    (PyFloat.of_int (GroceryItem.quantity item)))))
        None
  | None => mkProduct item None (Some not_found)
  end.

(** [search_products]: [found_products] grows by one entry per item. *)
Definition search_products (catalog : gmap string catalog_entry)
    (grocery_list : list GroceryItem.t) : list product :=
  fold_left (fun found item => found ++ [search_product catalog item])
    grocery_list [].

(** [p.get('store_item')] as a truth value, and the filter of
    [create_order]. *)
Definition matched (p : product) : bool :=
  match store_item p with
  | Some _ => true
  | None => false
  end.

Definition matched_and_available (p : product) : bool :=
  match store_item p with
  | Some si => si_available si
  | None => false
  end.

(** [p['store_item']['total_cost']] of a matched line. *)
Definition line_total (p : product) : PyFloat.t :=
  match store_item p with
  | Some si => total_cost si
  | None => PyFloat.of_int 0
  end.

Record order_t : Type := mkOrder {
  order_id : string;
  status : string;
  items : list product;
  subtotal : PyFloat.t;
  delivery_fee : PyFloat.t;
  tip : PyFloat.t;
  total : PyFloat.t;
  estimated_delivery : string;
  store : string;
  created_at : string
}.

(** What [create_order] returns: the dict with the single key [error], or
    an order. *)
Inductive order_result : Type :=
  | OrderError (message : string)
  | Order (o : order_t).

(** [create_order] *)
Definition create_order (now : Datetime.t) (products : list product)
    (delivery_time : option string) : order_result :=
  let available_products := List.filter matched_and_available products in
  match available_products with
  | [] => OrderError "No available products to order"
  | _ =>
      let total_cost := to_float (py_sum (map line_total available_products)) in
      let delivery_fee := PyFloat.lit 599 2 in
      let tip := PyFloat.mul total_cost (PyFloat.lit 15 2) in
      let total_with_fees :=
        PyFloat.add (PyFloat.add total_cost delivery_fee) tip in
      Order (mkOrder
        ("ORD_" ++ Datetime.strftime_stamp now)%string
        "confirmed"
        available_products
        (PyFloat.round2 total_cost)
        delivery_fee
        (PyFloat.round2 tip)
        (PyFloat.round2 total_with_fees)
        (match delivery_time with
         | Some s => if String.eqb s "" then
                       Datetime.strftime_minutes (Datetime.add_timedelta now 0 7200)
                     else s
         | None => Datetime.strftime_minutes (Datetime.add_timedelta now 0 7200)
         end)
        "Mock Grocery Store"
        (Datetime.isoformat now))
  end.

(** [get_order_status] *)
Record order_status : Type := mkStatus {
  os_order_id : string;
  os_status : string;
  os_estimated_delivery : string;
  driver : string;
  tracking_url : string
}.

Definition get_order_status (now : Datetime.t) (order_id : string)
    : order_status :=
  mkStatus order_id "in_progress"
    (Datetime.strftime_minutes (Datetime.add_timedelta now 0 3600))
    "Mock Driver"
    ("https://mockstore.com/track/" ++ order_id)%string.

End GroceryManager.

(** ** [CalendarManager] *)

Module CalendarManager.

(** An event dict: a delivery reminder carries [reminder_time], a meal
    preparation reminder [duration_minutes]. *)
Record event : Type := mkEvent {
  event_id : string;
  title : string;
  description : string;
  start_time : string;
  reminder_time : option string;
  duration_minutes : option Z;
  type : string;
  status : string
}.

(** [s.replace('Z', '+00:00')] *)
Fixpoint replace_Z (s : string) : string :=
  match s with
  | EmptyString => EmptyString
  | String c s' =>
      if Ascii.eqb c "Z" then ("+00:00" ++ replace_Z s')%string
      else String c (replace_Z s')
  end.

(** [schedule_delivery_reminder]: returns the event and the event log with
    the event appended; a delivery time that does not parse raises before
    anything is appended. *)
Definition schedule_delivery_reminder (events : list event)
    (order : GroceryManager.order_t) : result event * list event :=
  match Datetime.fromisoformat
          (replace_Z (GroceryManager.estimated_delivery order)) with
  | None => (Raised ValueError, events)
  | Some delivery_time =>
      let reminder := Datetime.add_timedelta delivery_time 0 (- 1800) in
      let ev :=
        mkEvent
          ("DELIVERY_" ++ GroceryManager.order_id order)%string
          ("Grocery Delivery Arriving - Order "
             ++ GroceryManager.order_id order)%string
          ("Grocery delivery from " ++ GroceryManager.store order ++ newline
             ++ "Total: $" ++ PyFloat.format_2f (GroceryManager.total order)
             ++ newline ++ "Items: "
             ++ str_of_int (Z.of_nat (length (GroceryManager.items order)))
             ++ " items")%string
          (Datetime.isoformat delivery_time)
          (Some (Datetime.isoformat reminder))
          None
          "delivery_reminder"
          "scheduled" in
      (Returned ev, events ++ [ev])
  end.

(** [int(day_key.split('_')[1]) - 1] *)
Definition day_number (day_key : string) : result Z :=
  match split_on "_" day_key !! 1%nat with
  | None => Raised IndexError
  | Some piece =>
      match py_int piece with
      | None => Raised ValueError
      | Some n => Returned (n - 1)
      end
  end.

Definition meal_of (meals : gmap string string) (k : string) : string :=
  default "TBD" (meals !! k).

(** The event built for one day of the plan. *)
Definition meal_prep_event (base_date : Datetime.t) (day_key : string)
    (day_num : Z) (meals : gmap string string) : event :=
  mkEvent
    ("MEAL_PREP_" ++ day_key)%string
    ("Meal Prep - Day " ++ str_of_int (day_num + 1))%string
    ("Tonight's dinner: " ++ meal_of meals "dinner" ++ newline
       ++ "Tomorrow's breakfast: " ++ meal_of meals "breakfast")%string
    (Datetime.isoformat (Datetime.add_timedelta base_date day_num 0))
    None
    (Some 60)
    "meal_prep"
    "scheduled".

(** The loop of [schedule_meal_prep_reminders]: [scheduled] is the local
    list [events], [log] is [self.events]; both grow by the same event at
    each turn, and a key that does not parse raises with the log as far as
    it was written. *)
Fixpoint meal_prep_loop (base_date : Datetime.t)
    (days : list (string * gmap string string))
    (scheduled log : list event) : result (list event) * list event :=
  match days with
  | [] => (Returned scheduled, log)
  | (day_key, meals) :: rest =>
      match day_number day_key with
      | Raised e => (Raised e, log)
      | Returned day_num =>
          let ev := meal_prep_event base_date day_key day_num meals in
          meal_prep_loop base_date rest (scheduled ++ [ev]) (log ++ [ev])
      end
  end.

(** [schedule_meal_prep_reminders] *)
Definition schedule_meal_prep_reminders (now : Datetime.t)
    (events : list event) (meal_plan : MealPlan.t)
    : result (list event) * list event :=
  let base_date := Datetime.replace_time now 18 in
  meal_prep_loop base_date (default [] (MealPlan.meal_plan meal_plan)) [] events.

(** [get_upcoming_events]: the comprehension parses the start of every
    logged event, so one start that does not parse raises; the events
    kept are sorted by their start text. *)
Fixpoint upcoming (cutoff_date : Datetime.t) (events : list event)
    : result (list event) :=
  match events with
  | [] => Returned []
  | ev :: rest =>
      match Datetime.fromisoformat (start_time ev) with
      | None => Raised ValueError
      | Some start =>
          match upcoming cutoff_date rest with
          | Raised e => Raised e
          | Returned kept =>
              Returned (if Datetime.leb start cutoff_date then ev :: kept
                        else kept)
          end
      end
  end.

Definition get_upcoming_events (now : Datetime.t) (events : list event)
    (days : Z) : result (list event) :=
  let cutoff_date := Datetime.add_timedelta now days 0 in
  match upcoming cutoff_date events with
  | Raised e => Raised e
  | Returned kept => Returned (sorted_by start_time kept)
  end.

(** A day of a plan given by its number, and the event scheduled for it
    when today is the day of [now]. *)
Definition day_entry (entry : Z * gmap string string)
    : string * gmap string string :=
  (MealPlanner.day_key entry.1, entry.2).

Definition day_event (now : Datetime.t) (entry : Z * gmap string string)
    : event :=
  meal_prep_event (Datetime.replace_time now 18)
    (MealPlanner.day_key entry.1) (entry.1 - 1) entry.2.

End CalendarManager.

(** ** [GroceryConcierge] *)

Module GroceryConcierge.

(** The object: the fridge items, the planner's key, the store catalog of
    the grocery manager and the event log of the calendar.  [init] is
    [__init__] on a given inventory. *)
Record t : Type := mk {
  fridge : list FridgeItem.t;
  api_key : option string;
  store_catalog : gmap string GroceryManager.catalog_entry;
  events : list CalendarManager.event
}.

Definition init (items : list FridgeItem.t) (key : option string) : t :=
  mk items key GroceryManager.store_catalog [].

Record workflow_result : Type := mkResult {
  meal_plan : MealPlan.t;
  grocery_search_results : list GroceryManager.product;
  total_estimated_cost : number;
  order : option GroceryManager.order_result;
  calendar_events : list CalendarManager.event
}.

(** Step 5 of [plan_and_order]. *)
Definition schedule_events (now : Datetime.t)
    (events : list CalendarManager.event) (plan : MealPlan.t)
    (o : GroceryManager.order_t)
    : result (list CalendarManager.event) * list CalendarManager.event :=
  match CalendarManager.schedule_delivery_reminder events o with
  | (Raised e, events1) => (Raised e, events1)
  | (Returned delivery_event, events1) =>
      match CalendarManager.schedule_meal_prep_reminders now events1 plan with
      | (Raised e, events2) => (Raised e, events2)
      | (Returned meal_events, events2) =>
          (Returned (delivery_event :: meal_events), events2)
      end
  end.

(** [plan_and_order].  [now] is the clock and [response] the outcome of
    the external generator (see [MealPlanner.generate_meal_plan]).  The
    result comes with the event log of the calendar after the call. *)
Definition plan_and_order (self : t) (now : Datetime.t)
    (response : option MealPlan.t) (days : Z) (auto_order : bool)
    : result workflow_result * list CalendarManager.event :=
  let plan :=
    MealPlanner.generate_meal_plan (api_key self) response (fridge self) days in
  let grocery_items := default [] (MealPlan.grocery_list plan) in
  let products :=
    GroceryManager.search_products (store_catalog self) grocery_items in
  let available_products := List.filter GroceryManager.matched products in
  let estimate :=
    match available_products with
    | [] => NInt 0
    | _ => py_sum (map GroceryManager.line_total available_products)
    end in
  match auto_order, available_products with
  | true, _ :: _ =>
      let preferred_delivery :=
        (Datetime.strftime_date (Datetime.on (Datetime.add_timedelta now 1 0))
           ++ " 16:00")%string in
      let o := GroceryManager.create_order now available_products
                 (Some preferred_delivery) in
      match o with
      | GroceryManager.OrderError _ =>
          (Returned (mkResult plan products estimate (Some o) []), events self)
      | GroceryManager.Order ord =>
          match schedule_events now (events self) plan ord with
          | (Raised e, events') => (Raised e, events')
          | (Returned evs, events') =>
              (Returned (mkResult plan products estimate (Some o) evs), events')
          end
      end
  | _, _ => (Returned (mkResult plan products estimate None []), events self)
  end.

(** [daily_check] *)
Record insights : Type := mkInsights {
  date : string;
  expiring_soon : list FridgeItem.t;
  low_stock : list FridgeItem.t;
  total_items : Z;
  recommendations : list string
}.

Definition count {A : Type} (l : list A) : Z := Z.of_nat (length l).

Definition all_clear : string := "Your fridge is well-stocked and organized!".

Definition daily_check (self : t) (now : Datetime.t) : insights :=
  let expiring_items := FridgeInventory.get_expiring_soon now (fridge self) 3 in
  let low_stock_items := FridgeInventory.get_low_stock (fridge self) 2 in
  let r1 :=
    match expiring_items with
    | [] => []
    | _ => [("Use " ++ str_of_int (count expiring_items)
               ++ " expiring items in today's meals")%string]
    end in
  let r2 :=
    match low_stock_items with
    | [] => r1
    | _ => r1 ++ [("Consider restocking " ++ str_of_int (count low_stock_items)
                     ++ " low-stock items")%string]
    end in
  let r3 :=
    match expiring_items, low_stock_items with
    | [], [] => r2 ++ [all_clear]
    | _, _ => r2
    end in
  mkInsights (Datetime.strftime_date (Datetime.on now))
    expiring_items low_stock_items (count (fridge self)) r3.

(** [get_system_status].  The count of upcoming events comes from
    [get_upcoming_events], whose exception passes through. *)
Record fridge_status_t : Type := mkFridgeStatus {
  fs_total_items : Z;
  categories : list string;
  fs_expiring_soon : Z;
  fs_low_stock : Z
}.

Record components_t : Type := mkComponents {
  c_fridge : string;
  c_meal_planner : string;
  c_grocery_manager : string;
  c_calendar : string
}.

Record system_status : Type := mkSystemStatus {
  fridge_status : fridge_status_t;
  upcoming_events : Z;
  system_time : string;
  components : components_t
}.

(** The truth value of [self.meal_planner.api_key]. *)
Definition has_key (self : t) : bool :=
  match api_key self with
  | None => false
  | Some key => negb (String.eqb key "")
  end.

Definition get_system_status (self : t) (now : Datetime.t)
    : result system_status :=
  let fs :=
    mkFridgeStatus
      (count (fridge self))
      (FridgeInventory.get_inventory_summary (fridge self)).*1
      (count (FridgeInventory.get_expiring_soon now (fridge self) 3))
      (count (FridgeInventory.get_low_stock (fridge self) 2)) in
  match CalendarManager.get_upcoming_events now (events self) 7 with
  | Raised e => Raised e
  | Returned upcoming =>
      Returned (mkSystemStatus fs (count upcoming) (Datetime.isoformat now)
                  (mkComponents "operational"
                     (if has_key self then "operational" else "mock_mode")
                     "operational" "operational"))
  end.

(** The plan and the resolved lines of a call. *)
Definition plan_of (self : t) (response : option MealPlan.t) (days : Z)
    : MealPlan.t :=
  MealPlanner.generate_meal_plan (api_key self) response (fridge self) days.

Definition resolved (self : t) (response : option MealPlan.t) (days : Z)
    : list GroceryManager.product :=
  GroceryManager.search_products (store_catalog self)
    (default [] (MealPlan.grocery_list (plan_of self response days))).

Definition estimate_of (products : list GroceryManager.product) : number :=
  py_sum (map GroceryManager.line_total
            (List.filter GroceryManager.matched products)).

End GroceryConcierge.

(** * Properties *)

(** ** The inventory store *)

Module FridgeInventoryFacts.
Import FridgeItem FridgeInventory.

Lemma on_hand_None items n :
  on_hand items n = None <-> Forall (fun y => same_name y n = false) items.
Proof.
  induction items as [|it items IH]; simpl.
  - split; [constructor | reflexivity].
  - destruct (same_name it n) eqn:E.
    + split; [discriminate | intros H; inversion H; congruence].
    + rewrite IH. split; [by constructor | by inversion 1].
Qed.

Lemma on_hand_Some items n h :
  on_hand items n = Some h <->
  exists pre it post, first_match n items pre it post /\ quantity it = h.
Proof.
  unfold first_match. induction items as [|it items IH]; simpl.
  - split; [discriminate|].
    intros (pre & x & post & (Heq & _) & _). destruct pre; discriminate.
  - destruct (same_name it n) eqn:E.
    + split.
      * intros [= <-]. exists [], it, items. repeat split; [constructor | done].
      * intros (pre & x & post & (Heq & Hpre & Hx) & Hq).
        destruct pre as [|y pre]; simpl in Heq; injection Heq as -> ->; [congruence|].
        inversion Hpre; congruence.
    + rewrite IH. split.
      * intros (pre & x & post & (Heq & Hpre & Hx) & Hq). subst items.
        exists (it :: pre), x, post. repeat split; [by constructor | done | done].
      * intros (pre & x & post & (Heq & Hpre & Hx) & Hq).
        destruct pre as [|y pre]; simpl in Heq; injection Heq as -> ->; [congruence|].
        exists pre, x, post. repeat split; [by inversion Hpre | done | done].
Qed.

Lemma on_hand_app_skip pre rest n :
  Forall (fun y => same_name y n = false) pre ->
  on_hand (pre ++ rest) n = on_hand rest n.
Proof.
  induction 1 as [|y pre Hy _ IH]; simpl; [done|]. by rewrite Hy.
Qed.

Lemma same_name_set_quantity it q n :
  same_name (set_quantity it q) n = same_name it n.
Proof. done. Qed.

Lemma list_remove_first (x : FridgeItem.t) pre post :
  Forall (fun y => y <> x) pre ->
  list_remove x (pre ++ x :: post) = Some (pre ++ post).
Proof.
  induction 1 as [|y pre Hy _ IH]; simpl.
  - by rewrite decide_True.
  - rewrite decide_False by done. by rewrite IH.
Qed.

Lemma other_name_differs pre it n :
  Forall (fun y => same_name y n = false) pre ->
  same_name it n = true ->
  Forall (fun y => y <> it) pre.
Proof.
  intros Hpre Hit. eapply Forall_impl; [exact Hpre|].
  simpl. intros y Hy ->. congruence.
Qed.

(** What the loop of [remove_item] computes, by the shape of the store. *)
Lemma remove_item_loop_miss seen rest n q :
  Forall (fun y => same_name y n = false) rest ->
  remove_item_loop seen rest n q = Returned (false, seen ++ rest).
Proof.
  intros H. revert seen.
  induction H as [|y rest Hy _ IH]; intros seen; simpl.
  - by rewrite app_nil_r.
  - rewrite Hy, IH. by rewrite <- app_assoc.
Qed.

Lemma remove_item_loop_hit seen pre it post n q :
  Forall (fun y => same_name y n = false) seen ->
  Forall (fun y => same_name y n = false) pre ->
  same_name it n = true ->
  remove_item_loop seen (pre ++ it :: post) n q =
    if q <=? quantity it then
      Returned (true,
        if quantity it - q =? 0 then seen ++ pre ++ post
        else seen ++ pre ++ set_quantity it (quantity it - q) :: post)
    else Returned (false, seen ++ pre ++ it :: post).
Proof.
  intros Hseen Hpre Hit. revert seen Hseen.
  induction Hpre as [|y pre Hy _ IH]; intros seen Hseen; simpl.
  - rewrite Hit. destruct (q <=? quantity it); [|done].
    destruct (quantity it - q =? 0); [|done].
    rewrite list_remove_first; [done|].
    apply (other_name_differs _ _ n); [done|].
    by rewrite same_name_set_quantity.
  - rewrite Hy, IH.
    + by rewrite <- !app_assoc.
    + apply Forall_app. split; [done | by constructor].
Qed.

Lemma remove_item_miss items n q :
  on_hand items n = None ->
  remove_item items n q = Returned (false, items).
Proof.
  intros H. apply on_hand_None in H. unfold remove_item.
  by rewrite remove_item_loop_miss.
Qed.

Lemma remove_item_hit pre it post n q :
  first_match n (pre ++ it :: post) pre it post ->
  remove_item (pre ++ it :: post) n q =
    if q <=? quantity it then
      Returned (true,
        if quantity it - q =? 0 then pre ++ post
        else pre ++ set_quantity it (quantity it - q) :: post)
    else Returned (false, pre ++ it :: post).
Proof.
  intros (_ & Hpre & Hit).
  unfold remove_item. by rewrite remove_item_loop_hit.
Qed.

(** [remove_item] never raises: the [list.remove] it performs always finds
    the line it has just decremented. *)
Lemma remove_item_returns items n q :
  exists b items', remove_item items n q = Returned (b, items').
Proof.
  destruct (on_hand items n) as [h|] eqn:E.
  - apply on_hand_Some in E as (pre & it & post & H & _).
    pose proof H as (-> & _ & _).
    rewrite remove_item_hit by done.
    destruct (q <=? quantity it); eauto.
  - rewrite remove_item_miss by done. eauto.
Qed.

(** The same for [add_item]. *)
Lemma add_item_loop_miss seen rest item :
  Forall (fun y => same_name y (name item) = false) rest ->
  add_item_loop seen rest item = seen ++ rest ++ [item].
Proof.
  intros H. revert seen.
  induction H as [|y rest Hy _ IH]; intros seen; simpl; [done|].
  rewrite Hy, IH. by rewrite <- app_assoc.
Qed.

Lemma add_item_loop_hit seen pre it post item :
  Forall (fun y => same_name y (name item) = false) pre ->
  same_name it (name item) = true ->
  add_item_loop seen (pre ++ it :: post) item =
    seen ++ pre ++ set_quantity it (quantity it + quantity item) :: post.
Proof.
  intros Hpre Hit. revert seen.
  induction Hpre as [|y pre Hy _ IH]; intros seen; simpl.
  - by rewrite Hit.
  - rewrite Hy, IH. by rewrite <- app_assoc.
Qed.

Lemma add_item_miss items item :
  on_hand items (name item) = None ->
  add_item items item = items ++ [item].
Proof.
  intros H. apply on_hand_None in H. unfold add_item.
  by rewrite add_item_loop_miss.
Qed.

Lemma add_item_hit items pre it post item :
  first_match (name item) items pre it post ->
  add_item items item =
    pre ++ set_quantity it (quantity it + quantity item) :: post.
Proof.
  intros (-> & Hpre & Hit). unfold add_item. by rewrite add_item_loop_hit.
Qed.

Lemma others_app n l1 l2 : others n (l1 ++ l2) = others n l1 ++ others n l2.
Proof. apply List.filter_app. Qed.

Lemma others_cons_same n it l :
  same_name it n = true -> others n (it :: l) = others n l.
Proof. intros H. unfold others. simpl. by rewrite H. Qed.

(** In a store without two lines of the same name, nothing after the
    first line named [n] is named [n]. *)
Lemma unique_names_post pre it post n :
  unique_names (pre ++ it :: post) -> same_name it n = true ->
  Forall (fun y => same_name y n = false) post.
Proof.
  unfold unique_names. rewrite map_app. simpl. intros Hu Hsame.
  apply NoDup_app in Hu as (_ & _ & Hu). apply NoDup_cons in Hu as [Hnot _].
  apply Forall_forall. intros y Hy.
  unfold same_name in *. apply bool_decide_eq_true in Hsame.
  apply bool_decide_eq_false. intros Heq. apply Hnot.
  apply list_elem_of_fmap. exists y. split; [congruence | done].
Qed.

(** C1, as the code has it. Removing [q] of [n]: when the first line
    named [n] (case-insensitively) holds [h >= q], the call returns
    [True], that line holds [h - q] afterwards and is taken out of the
    store exactly when [h - q = 0]; what is on hand under [n] afterwards
    is [h - q] when that is not 0, and on exact depletion it is whatever
    the rest of the store holds under [n].  In a store without two lines
    of the same name (letter case aside) that is nothing: there the
    quantity on hand after the call is [h - q] in both cases, no line
    named [n] being left exactly when it is 0.  When no line is named [n]
    or [q] exceeds [h], the call returns [False] (it does not raise) and
    the store is unchanged. *)
Theorem remove_item_correct (items : list FridgeItem.t) (n : string) (q : Z) :
  (forall h, on_hand items n = Some h -> q <= h ->
     exists pre it post,
       first_match n items pre it post /\ quantity it = h /\
       (h - q <> 0 ->
          remove_item items n q =
            Returned (true, pre ++ set_quantity it (h - q) :: post) /\
          on_hand (pre ++ set_quantity it (h - q) :: post) n = Some (h - q)) /\
       (h - q = 0 ->
          remove_item items n q = Returned (true, pre ++ post) /\
          on_hand (pre ++ post) n = on_hand post n)) /\
  (forall h, unique_names items -> on_hand items n = Some h -> q <= h ->
     exists items',
       remove_item items n q = Returned (true, items') /\
       default 0 (on_hand items' n) = h - q /\
       (on_hand items' n = None <-> h - q = 0) /\
       length items' = (if h - q =? 0 then pred (length items)
                        else length items)) /\
  (on_hand items n = None \/ (exists h, on_hand items n = Some h /\ h < q) ->
     remove_item items n q = Returned (false, items)).
Proof.
  assert (Hhit : forall h, on_hand items n = Some h -> q <= h ->
     exists pre it post,
       first_match n items pre it post /\ quantity it = h /\
       (h - q <> 0 ->
          remove_item items n q =
            Returned (true, pre ++ set_quantity it (h - q) :: post) /\
          on_hand (pre ++ set_quantity it (h - q) :: post) n = Some (h - q)) /\
       (h - q = 0 ->
          remove_item items n q = Returned (true, pre ++ post) /\
          on_hand (pre ++ post) n = on_hand post n)).
  { intros h Hh Hq.
    apply on_hand_Some in Hh as (pre & it & post & Hfm & Hit).
    exists pre, it, post. split; [done|]. split; [done|].
    pose proof Hfm as (-> & Hpre & Hsame).
    rewrite (remove_item_hit pre it post n q Hfm), Hit.
    replace (q <=? h) with true by (symmetry; apply Z.leb_le; lia).
    split; intros Hz.
    + replace (h - q =? 0) with false by (symmetry; apply Z.eqb_neq; lia).
      split; [done|].
      rewrite on_hand_app_skip by done. simpl.
      by rewrite same_name_set_quantity, Hsame.
    + replace (h - q =? 0) with true by (symmetry; apply Z.eqb_eq; lia).
      split; [done|]. by rewrite on_hand_app_skip. }
  split; [exact Hhit|]. split.
  - intros h Hu Hh Hq.
    destruct (Hhit h Hh Hq) as (pre & it & post & Hfm & Hit & Hnz & Hz).
    destruct Hfm as (-> & Hpre & Hsame).
    destruct (Z.eqb_spec (h - q) 0) as [E|E].
    + destruct (Hz E) as [-> Hpost]. eexists. split; [reflexivity|].
      rewrite Hpost.
      rewrite (proj2 (on_hand_None post n) (unique_names_post _ _ _ _ Hu Hsame)).
      simpl. split; [lia|]. split; [done|].
      rewrite !length_app. simpl. lia.
    + destruct (Hnz E) as [-> Hpost]. eexists. split; [reflexivity|].
      rewrite Hpost. simpl. split; [done|]. split; [by split|].
      by rewrite !length_app.
  - intros [Hnone | (h & Hh & Hlt)].
    + by apply remove_item_miss.
    + apply on_hand_Some in Hh as (pre & it & post & Hfm & Hit).
      pose proof Hfm as (-> & _ & _).
      rewrite (remove_item_hit pre it post n q Hfm), Hit.
      by replace (q <=? h) with false by (symmetry; apply Z.leb_gt; lia).
Qed.

Lemma remove_item_correct_witness :
  unique_names default_items /\
  on_hand default_items "BREAD" = Some 1 /\ 1 <= 1 /\
  exists items',
    remove_item default_items "BREAD" 1 = Returned (true, items') /\
    default 0 (on_hand items' "BREAD") = 1 - 1 /\
    (on_hand items' "BREAD" = None <-> 1 - 1 = 0) /\
    length items' = (if 1 - 1 =? 0 then pred (length default_items)
                     else length default_items).
Proof.
  assert (Hu : unique_names default_items).
  { unfold unique_names.
    apply (bool_decide_unpack
             (NoDup (map (fun it => lower (name it)) default_items))).
    by vm_compute. }
  split; [exact Hu|]. split; [reflexivity|]. split; [lia|].
  exact (proj1 (proj2 (remove_item_correct default_items "BREAD" 1)) 1 Hu
           eq_refl ltac:(lia)).
Defined.

(** C1, as stated, fails: the quantity on hand under a name is that of
    its first line, and when that line is used up a later line of the
    same name takes its place. *)
Lemma remove_item_uncovers_duplicate :
  ~ (forall (items : list FridgeItem.t) (n : string) (q h : Z),
       on_hand items n = Some h -> q <= h ->
       exists items',
         remove_item items n q = Returned (true, items') /\
         default 0 (on_hand items' n) = h - q).
Proof.
  intros H.
  destruct (H [mk "Milk" 1 "gallon" "2025-07-25" "dairy";
               mk "milk" 5 "gallon" "2025-07-30" "dairy"]
              "Milk"%string 1 1 eq_refl ltac:(lia))
    as (items' & Hrun & Hleft).
  vm_compute in Hrun. injection Hrun as <-. vm_compute in Hleft. discriminate.
Qed.

(** C10. Frame of [remove_item] and [add_item]: the lines of another name
    keep their fields and their relative order, and of the lines named like
    the argument only the first in list order can change (or leave the
    store); whatever follows it, later duplicates included, is untouched. *)
Theorem store_frame (items : list FridgeItem.t) :
  (forall n q b items',
     remove_item items n q = Returned (b, items') ->
     others n items' = others n items /\
     forall pre it post, first_match n items pre it post ->
       items' = pre ++ post \/
       exists q', items' = pre ++ set_quantity it q' :: post) /\
  (forall item,
     others (name item) (add_item items item) = others (name item) items /\
     forall pre it post, first_match (name item) items pre it post ->
       add_item items item =
         pre ++ set_quantity it (quantity it + quantity item) :: post).
Proof.
  split.
  - intros n q b items' Hrun.
    destruct (on_hand items n) as [h|] eqn:E.
    + apply on_hand_Some in E as (pre & it & post & Hfm & Hit).
      pose proof Hfm as (Heq & Hpre & Hsame). subst items.
      rewrite (remove_item_hit pre it post n q Hfm) in Hrun.
      assert (Hcases : items' = pre ++ post \/
                exists q', items' = pre ++ set_quantity it q' :: post).
      { destruct (q <=? quantity it); injection Hrun as <- <-.
        - destruct (quantity it - q =? 0); eauto.
        - right. exists (quantity it). by destruct it. }
      split.
      * rewrite !others_app, others_cons_same by done.
        destruct Hcases as [-> | [q' ->]]; rewrite !others_app; [done|].
        by rewrite others_cons_same.
      * intros pre' it' post' (Heq' & Hpre' & Hsame').
        assert (pre' = pre /\ it' = it /\ post' = post) as (-> & -> & ->);
          [|done].
        clear -Heq' Hpre Hpre' Hsame Hsame'.
        revert pre' Heq' Hpre'.
        induction Hpre as [|y pre Hy _ IH]; intros pre' Heq' Hpre'.
        -- destruct pre' as [|y' pre']; simpl in Heq'.
           ++ by injection Heq' as -> ->.
           ++ injection Heq' as -> _. inversion Hpre'; congruence.
        -- destruct pre' as [|y' pre']; simpl in Heq'.
           ++ injection Heq' as -> _. congruence.
           ++ injection Heq' as -> Heq'. inversion Hpre'; subst.
              destruct (IH pre' Heq') as (-> & -> & ->); done.
    + rewrite remove_item_miss in Hrun by done. injection Hrun as <- <-.
      split; [done|]. intros pre it post (-> & Hpre & Hsame).
      rewrite on_hand_app_skip in E by done. simpl in E.
      by rewrite Hsame in E.
  - intros item. split.
    + destruct (on_hand items (name item)) as [h|] eqn:E.
      * apply on_hand_Some in E as (pre & it & post & Hfm & _).
        rewrite (add_item_hit _ _ _ _ _ Hfm).
        destruct Hfm as (-> & _ & Hsame).
        rewrite !others_app. by rewrite !others_cons_same.
      * rewrite add_item_miss by done. rewrite others_app.
        rewrite others_cons_same; [by rewrite app_nil_r|].
        unfold same_name. by apply bool_decide_eq_true.
    + intros pre it post Hfm. by apply add_item_hit.
Qed.

Lemma store_frame_witness :
  others "rice" (add_item default_items (mk "RICE" 3 "cups" "2026-02-01" "grain"))
    = others "rice" default_items /\
  exists b items',
    remove_item default_items "bread" 1 = Returned (b, items') /\
    others "bread" items' = others "bread" default_items.
Proof.
  split.
  - exact (proj1 (proj2 (store_frame default_items)
                    (mk "RICE" 3 "cups" "2026-02-01" "grain"))).
  - eexists _, _. split; [reflexivity|].
    apply (proj1 (store_frame default_items)) with (q := 1) (b := true).
    reflexivity.
Defined.

(** The invariant survives every call that respects [op_ok]. *)
Lemma add_item_positive items item :
  positive_stock items -> op_ok items (Add item) ->
  positive_stock (add_item items item).
Proof.
  unfold positive_stock. intros Hpos [Hq Hnew].
  destruct (on_hand items (name item)) as [h|] eqn:E.
  - apply on_hand_Some in E as (pre & it & post & Hfm & _).
    rewrite (add_item_hit _ _ _ _ _ Hfm). destruct Hfm as (-> & _ & _).
    apply Forall_app in Hpos as [Hpre Hpost]. inversion Hpost; subst.
    apply Forall_app. split; [done|]. constructor; [simpl; lia | done].
  - rewrite add_item_miss by done. apply Forall_app. split; [done|].
    constructor; [by apply Hnew | constructor].
Qed.

Lemma remove_item_positive items n q :
  positive_stock items -> op_ok items (Remove n q) ->
  exists b items',
    remove_item items n q = Returned (b, items') /\ positive_stock items'.
Proof.
  unfold positive_stock. simpl. intros Hpos Hq.
  destruct (on_hand items n) as [h|] eqn:E.
  - apply on_hand_Some in E as (pre & it & post & Hfm & _).
    pose proof Hfm as (-> & _ & _).
    rewrite (remove_item_hit pre it post n q Hfm).
    apply Forall_app in Hpos as [Hpre Hpost]. inversion Hpost; subst.
    destruct (q <=? quantity it) eqn:Hle.
    + apply Z.leb_le in Hle. eexists _, _. split; [reflexivity|].
      destruct (quantity it - q =? 0) eqn:Hz.
      * apply Forall_app. by split.
      * apply Z.eqb_neq in Hz. apply Forall_app. split; [done|].
        constructor; [simpl; lia | done].
    + eexists _, _. split; [reflexivity|]. apply Forall_app. by split.
  - rewrite remove_item_miss by done. eauto.
Qed.

(** C2, as the code has it. From a store whose lines all have a positive
    quantity, every sequence of [add_item]/[remove_item] calls with
    quantities >= 0, in which a line added under a name not yet stored has
    quantity >= 1, runs without raising and ends in a store whose lines all
    have a positive quantity: none is 0 and none is negative. *)
Theorem stock_stays_positive (ops : list op) (items : list FridgeItem.t) :
  positive_stock items -> ops_ok items ops ->
  exists items', run items ops = Some items' /\ positive_stock items'.
Proof.
  revert items. induction ops as [|o ops IH]; intros items Hpos Hok; simpl.
  - eauto.
  - destruct Hok as [Ho Hrest]. destruct o as [item | n q]; simpl in *.
    + apply IH; [by apply add_item_positive | done].
    + destruct (remove_item_positive items n q Hpos Ho)
        as (b & items1 & Hrun & Hpos1).
      rewrite Hrun in *. by apply IH.
Qed.

Lemma stock_stays_positive_witness :
  exists items',
    run default_items
      [ Remove "bread" 1; Add (mk "Butter" 2 "sticks" "2025-08-10" "dairy");
        Add (mk "EGGS" 0 "pieces" "2025-07-30" "dairy"); Remove "milk" 0 ]
      = Some items' /\
    positive_stock items'.
Proof.
  apply stock_stays_positive.
  - unfold positive_stock, default_items. repeat constructor.
  - simpl. repeat split; try lia; try discriminate.
Defined.

(** C2, as stated, fails: quantity >= 0 admits 0, and [add_item] appends a
    line of quantity 0 under a new name as it is. *)
Lemma add_item_keeps_zero_line :
  ~ (forall (items : list FridgeItem.t) (ops : list op),
       positive_stock items -> Forall op_nonneg ops ->
       forall items', run items ops = Some items' ->
       Forall (fun it => quantity it <> 0) items').
Proof.
  intros H.
  specialize (H default_items
                [Add (mk "Butter" 0 "sticks" "2025-08-10" "dairy")]).
  assert (Hpos : positive_stock default_items)
    by (unfold positive_stock, default_items; repeat constructor).
  assert (Hops : Forall op_nonneg
                   [Add (mk "Butter" 0 "sticks" "2025-08-10" "dairy")])
    by (repeat constructor; simpl; lia).
  specialize (H Hpos Hops _ eq_refl).
  apply Forall_app in H as [_ H]. inversion H as [|? ? Hz _]. by apply Hz.
Qed.

End FridgeInventoryFacts.

(** ** Strings and dates *)

Module StringOrder.

Lemma compare_refl (s : string) : String.compare s s = Eq.
Proof.
  induction s as [|c s IH]; simpl; [done|].
  unfold Ascii.compare. by rewrite N.compare_refl.
Qed.

Lemma compare_lt_trans (a b c : string) :
  String.compare a b = Lt -> String.compare b c = Lt -> String.compare a c = Lt.
Proof.
  revert b c. induction a as [|x a IH]; intros [|y b] [|z c]; simpl; try done.
  unfold Ascii.compare.
  destruct (N.compare_spec (N_of_ascii x) (N_of_ascii y)) as [Hxy|Hxy|Hxy];
    destruct (N.compare_spec (N_of_ascii y) (N_of_ascii z)) as [Hyz|Hyz|Hyz];
    try done; intros Hab Hbc.
  - rewrite Hxy, Hyz, N.compare_refl. by apply (IH b).
  - replace (N_of_ascii x ?= N_of_ascii z)%N with Lt; [done|].
    symmetry. apply N.compare_lt_iff. lia.
  - replace (N_of_ascii x ?= N_of_ascii z)%N with Lt; [done|].
    symmetry. apply N.compare_lt_iff. lia.
  - replace (N_of_ascii x ?= N_of_ascii z)%N with Lt; [done|].
    symmetry. apply N.compare_lt_iff. lia.
Qed.

Lemma leb_trans (a b c : string) :
  String.leb a b = true -> String.leb b c = true -> String.leb a c = true.
Proof.
  unfold String.leb.
  destruct (String.compare a b) eqn:Hab; [| |done];
    destruct (String.compare b c) eqn:Hbc; try done; intros _ _.
  - apply String.compare_eq_iff in Hab as ->. by rewrite Hbc.
  - apply String.compare_eq_iff in Hab as ->. by rewrite Hbc.
  - apply String.compare_eq_iff in Hbc as <-. by rewrite Hab.
  - by rewrite (compare_lt_trans a b c).
Qed.

Lemma length_app (a b : string) :
  String.length (a ++ b) = (String.length a + String.length b)%nat.
Proof. induction a as [|x a IH]; simpl; [done | by rewrite IH]. Qed.

(** Comparing two strings that start with fields of the same width. *)
Lemma compare_app (a b x y : string) :
  String.length a = String.length b ->
  String.compare (a ++ x) (b ++ y) =
    match String.compare a b with
    | Eq => String.compare x y
    | c => c
    end.
Proof.
  revert b. induction a as [|c a IH]; intros [|d b]; simpl; try done.
  intros [= Hlen]. destruct (Ascii.compare c d); [by apply IH | done | done].
Qed.

End StringOrder.

Module DatetimeFacts.
Import Datetime StringOrder.

Lemma length_pad w n : String.length (pad w n) = w.
Proof.
  revert n. induction w as [|w IH]; intros n; simpl; [done|].
  rewrite length_app, IH. simpl. lia.
Qed.

Lemma digit_compare x y :
  0 <= x < 10 -> 0 <= y < 10 ->
  Ascii.compare (digit x) (digit y) = (x ?= y).
Proof.
  intros Hx Hy. unfold Ascii.compare, digit.
  rewrite !Z.mod_small by lia.
  rewrite !N_ascii_embedding by lia.
  rewrite <- N2Z.inj_compare, !N2Z.inj_add, !Z2N.id by lia.
  apply Z.add_compare_mono_l.
Qed.

Lemma digit_compare_mod x y :
  Ascii.compare (digit x) (digit y) = (x mod 10 ?= y mod 10).
Proof.
  rewrite <- (digit_compare (x mod 10) (y mod 10)) by (apply Z.mod_pos_bound; lia).
  unfold digit. by rewrite !Z.mod_mod by lia.
Qed.

Lemma compare_by_digits a b :
  (a ?= b) =
    match a / 10 ?= b / 10 with
    | Eq => a mod 10 ?= b mod 10
    | c => c
    end.
Proof.
  pose proof (Z.div_mod a 10 ltac:(lia)) as Ha.
  pose proof (Z.div_mod b 10 ltac:(lia)) as Hb.
  pose proof (Z.mod_pos_bound a 10 ltac:(lia)) as Ha'.
  pose proof (Z.mod_pos_bound b 10 ltac:(lia)) as Hb'.
  destruct (Z.compare_spec (a / 10) (b / 10)) as [H|H|H].
  - destruct (Z.compare_spec (a mod 10) (b mod 10)) as [H'|H'|H'].
    + apply Z.compare_eq_iff. lia.
    + apply Z.compare_lt_iff. lia.
    + apply Z.compare_gt_iff. lia.
  - apply Z.compare_lt_iff. lia.
  - apply Z.compare_gt_iff. lia.
Qed.

(** Fields within their width compare as the numbers they print. *)
Lemma compare_pad w a b :
  0 <= a < 10 ^ Z.of_nat w -> 0 <= b < 10 ^ Z.of_nat w ->
  String.compare (pad w a) (pad w b) = (a ?= b).
Proof.
  revert a b. induction w as [|w IH]; intros a b Ha Hb.
  - simpl in *. symmetry. apply Z.compare_eq_iff. lia.
  - rewrite Nat2Z.inj_succ, Z.pow_succ_r in Ha, Hb by lia.
    simpl. rewrite compare_app by (by rewrite !length_pad).
    rewrite IH.
    + rewrite (compare_by_digits a b). destruct (a / 10 ?= b / 10); try done.
      simpl. rewrite digit_compare_mod. by destruct (a mod 10 ?= b mod 10).
    + split; [apply Z.div_pos; lia | apply Z.div_lt_upper_bound; lia].
    + split; [apply Z.div_pos; lia | apply Z.div_lt_upper_bound; lia].
Qed.

(** From the year 1000 on, [%Y] prints the four digits [isoformat] prints. *)
Lemma strftime_year_pad y : 1000 <= y < 10000 -> strftime_year y = pad 4 y.
Proof.
  intros Hy.
  assert (H : forallb (fun i => String.eqb (strftime_year (1000 + Z.of_nat i))
                                  (pad 4 (1000 + Z.of_nat i)))
                (seq 0 (Z.to_nat 9000)) = true) by (vm_compute; reflexivity).
  rewrite List.forallb_forall in H. specialize (H (Z.to_nat (y - 1000))).
  replace (1000 + Z.of_nat (Z.to_nat (y - 1000))) with y in H by lia.
  apply String.eqb_eq, H, in_seq. lia.
Qed.

Lemma strftime_date_iso d : printable d -> strftime_date d = isoformat_date d.
Proof.
  intros (Hy & _). unfold strftime_date, isoformat_date.
  by rewrite strftime_year_pad.
Qed.

(** ISO dates compare as the dates they print. *)
Lemma isoformat_date_compare a b :
  0 <= year a < 10000 /\ 0 <= month a < 100 /\ 0 <= day a < 100 ->
  0 <= year b < 10000 /\ 0 <= month b < 100 /\ 0 <= day b < 100 ->
  String.compare (isoformat_date a) (isoformat_date b) = date_compare a b.
Proof.
  intros (Hya & Hma & Hda) (Hyb & Hmb & Hdb).
  unfold isoformat_date, date_compare.
  rewrite compare_app by (by rewrite !length_pad).
  rewrite compare_pad by (simpl; lia).
  destruct (year a ?= year b); try done.
  rewrite (compare_app "-" "-") by done. simpl (String.compare "-" "-").
  rewrite compare_app by (by rewrite !length_pad).
  rewrite compare_pad by (simpl; lia).
  destruct (month a ?= month b); try done.
  rewrite (compare_app "-" "-") by done. simpl (String.compare "-" "-").
  apply compare_pad; simpl; lia.
Qed.

(** With four-digit years, [%Y-%m-%d] strings compare as the dates. *)
Lemma strftime_date_compare a b :
  printable a -> printable b ->
  String.compare (strftime_date a) (strftime_date b) = date_compare a b.
Proof.
  intros Ha Hb. rewrite !strftime_date_iso by done.
  unfold printable in *. apply isoformat_date_compare; lia.
Qed.

Lemma days_in_month_bounds y m : 28 <= days_in_month y m <= 31.
Proof.
  unfold days_in_month.
  destruct (m =? 2); [destruct (is_leap y); lia|].
  destruct ((m =? 4) || (m =? 6) || (m =? 9) || (m =? 11)); lia.
Qed.

Lemma representable_widths d :
  representable d ->
  0 <= year d < 10000 /\ 0 <= month d < 100 /\ 0 <= day d < 100.
Proof.
  unfold representable, valid_date, MINYEAR, MAXYEAR.
  pose proof (days_in_month_bounds (year d) (month d)). lia.
Qed.

Lemma four_digit_printable d : four_digit d -> printable d.
Proof.
  intros [H Hy]. pose proof (representable_widths d H). unfold printable. lia.
Qed.

Lemma valid_next_day d : valid_date d -> valid_date (next_day d).
Proof.
  unfold valid_date, next_day. intros [Hm Hd].
  destruct (day d <? days_in_month (year d) (month d)) eqn:E; simpl.
  - apply Z.ltb_lt in E. lia.
  - destruct (month d <? 12) eqn:E'; simpl.
    + apply Z.ltb_lt in E'.
      pose proof (days_in_month_bounds (year d) (month d + 1)). lia.
    + pose proof (days_in_month_bounds (year d + 1) 1). lia.
Qed.

Lemma valid_prev_day d : valid_date d -> valid_date (prev_day d).
Proof.
  unfold valid_date, prev_day. intros [Hm Hd].
  destruct (1 <? day d) eqn:E; simpl.
  - apply Z.ltb_lt in E. lia.
  - destruct (1 <? month d) eqn:E'; simpl.
    + apply Z.ltb_lt in E'.
      pose proof (days_in_month_bounds (year d) (month d - 1)). lia.
    + split; [lia|]. done.
Qed.

Lemma valid_add_days d n : valid_date d -> valid_date (add_days d n).
Proof.
  intros H. unfold add_days. destruct (0 <=? n).
  - induction (Z.to_nat n) as [|k IH]; simpl; [done | by apply valid_next_day].
  - induction (Z.to_nat (- n)) as [|k IH]; simpl; [done | by apply valid_prev_day].
Qed.

(** The calendar order, spelled out for arithmetic. *)
Lemma date_le_iff a b :
  date_le a b <->
  year a < year b \/
  (year a = year b /\
   (month a < month b \/ (month a = month b /\ day a <= day b))).
Proof.
  unfold date_le, date_compare.
  destruct (Z.compare_spec (year a) (year b));
    destruct (Z.compare_spec (month a) (month b));
    destruct (Z.compare_spec (day a) (day b)); split; try done; try lia.
Qed.

Lemma date_le_year a b : date_le a b -> year a <= year b.
Proof. rewrite date_le_iff. lia. Qed.

Lemma date_le_refl a : date_le a a.
Proof. apply date_le_iff. lia. Qed.

Lemma date_le_trans a b c : date_le a b -> date_le b c -> date_le a c.
Proof. rewrite !date_le_iff. lia. Qed.

Lemma date_le_next_day d : date_le d (next_day d).
Proof.
  apply date_le_iff. unfold next_day.
  destruct (day d <? days_in_month (year d) (month d)); simpl; [lia|].
  destruct (month d <? 12) eqn:E; simpl; [apply Z.ltb_lt in E|]; lia.
Qed.

Lemma date_le_prev_day d : date_le (prev_day d) d.
Proof.
  apply date_le_iff. unfold prev_day.
  destruct (1 <? day d); simpl; [lia|].
  destruct (1 <? month d) eqn:E; simpl; [apply Z.ltb_lt in E|]; lia.
Qed.

Lemma date_le_iter_next d (j k : nat) :
  (j <= k)%nat -> date_le (Nat.iter j next_day d) (Nat.iter k next_day d).
Proof.
  induction 1 as [|k _ IH]; [apply date_le_refl|].
  simpl. eapply date_le_trans; [exact IH | apply date_le_next_day].
Qed.

Lemma date_le_iter_prev d (j k : nat) :
  (j <= k)%nat -> date_le (Nat.iter k prev_day d) (Nat.iter j prev_day d).
Proof.
  induction 1 as [|k _ IH]; [apply date_le_refl|].
  simpl. eapply date_le_trans; [apply date_le_prev_day | exact IH].
Qed.

(** Adding more days never gives an earlier date. *)
Lemma add_days_mono d n1 n2 :
  n1 <= n2 -> date_le (add_days d n1) (add_days d n2).
Proof.
  intros H. unfold add_days.
  destruct (0 <=? n1) eqn:E1; destruct (0 <=? n2) eqn:E2;
    try apply Z.leb_le in E1; try apply Z.leb_le in E2;
    try apply Z.leb_gt in E1; try apply Z.leb_gt in E2.
  - apply date_le_iter_next. lia.
  - lia.
  - eapply date_le_trans.
    + apply (date_le_iter_prev d 0). lia.
    + apply (date_le_iter_next d 0). lia.
  - apply date_le_iter_prev. lia.
Qed.

Lemma add_timedelta_days (now : Datetime.t) (d : Z) :
  valid now -> on (add_timedelta now d 0) = add_days (on now) d.
Proof.
  intros (_ & Hh & Hm & Hs & _). unfold add_timedelta. simpl.
  rewrite Z.div_small by lia. by rewrite Z.add_0_r.
Qed.

End DatetimeFacts.

(** ** The stock queries *)

Module QueryFacts.
Import FridgeItem FridgeInventory.

Lemma filter_sublist_mono {A : Type} (f g : A -> bool) (l : list A) :
  (forall x, f x = true -> g x = true) ->
  sublist (List.filter f l) (List.filter g l).
Proof.
  intros Hfg. induction l as [|x l IH]; simpl; [constructor|].
  destruct (f x) eqn:Ef.
  - rewrite (Hfg x Ef). by constructor.
  - destruct (g x); [by constructor | done].
Qed.

Lemma cutoff_day_add_days now d :
  Datetime.valid now ->
  cutoff_day now d = Datetime.add_days (Datetime.on now) d.
Proof. apply DatetimeFacts.add_timedelta_days. Qed.

Lemma cutoff_date_mono now d1 d2 :
  Datetime.valid now -> d1 <= d2 ->
  Datetime.four_digit (cutoff_day now d1) ->
  Datetime.representable (cutoff_day now d2) ->
  forall s, String.leb s (cutoff_date now d1) = true ->
            String.leb s (cutoff_date now d2) = true.
Proof.
  intros Hnow Hd H1 H2 s Hs.
  pose proof (DatetimeFacts.add_days_mono (Datetime.on now) d1 d2 Hd) as Hle.
  rewrite <- !cutoff_day_add_days in Hle by done.
  assert (H2' : Datetime.four_digit (cutoff_day now d2)).
  { split; [done|]. destruct H1 as [_ Hy]. apply DatetimeFacts.date_le_year in Hle. lia. }
  apply (StringOrder.leb_trans s (cutoff_date now d1)); [done|].
  unfold cutoff_date, String.leb.
  rewrite DatetimeFacts.strftime_date_compare
    by (by apply DatetimeFacts.four_digit_printable).
  unfold Datetime.date_le in Hle.
  by destruct (Datetime.date_compare _ _).
Qed.

(** C8. [get_expiring_soon now items d] holds exactly the lines whose expiry
    text is at or before the [%Y-%m-%d] text of the day [d] days from
    [now]; for a line whose expiry is an ISO date that is exactly the
    lines whose expiry day is at or before that day (the boundary day
    included).  [get_low_stock items t] holds exactly the lines with
    quantity <= t.  Both grow with their argument: for d1 <= d2 and
    t1 <= t2 the smaller result is a sub-list, hence a subset, of the
    larger.  The cutoff days are days Python can hold, in years of four
    digits (1000 to 9999), where the C library's [%Y] prints the year as
    the ISO date has it. *)
Theorem queries_exact_and_monotone
    (now : Datetime.t) (items : list FridgeItem.t) :
  Datetime.valid now ->
  (forall d item,
     Datetime.representable (cutoff_day now d) ->
     (In item (get_expiring_soon now items d) <->
      In item items /\
      String.leb (expiry_date item) (cutoff_date now d) = true)) /\
  (forall d item e,
     Datetime.representable e ->
     Datetime.four_digit (cutoff_day now d) ->
     expiry_date item = Datetime.isoformat_date e ->
     (In item (get_expiring_soon now items d) <->
      In item items /\ Datetime.date_le e (Datetime.add_days (Datetime.on now) d))) /\
  (forall t item,
     In item (get_low_stock items t) <-> In item items /\ quantity item <= t) /\
  (forall d1 d2,
     d1 <= d2 ->
     Datetime.four_digit (cutoff_day now d1) ->
     Datetime.representable (cutoff_day now d2) ->
     sublist (get_expiring_soon now items d1) (get_expiring_soon now items d2) /\
     forall item, In item (get_expiring_soon now items d1) ->
                  In item (get_expiring_soon now items d2)) /\
  (forall t1 t2,
     t1 <= t2 ->
     sublist (get_low_stock items t1) (get_low_stock items t2) /\
     forall item, In item (get_low_stock items t1) ->
                  In item (get_low_stock items t2)).
Proof.
  intros Hnow.
  assert (Hexp : forall d item,
     In item (get_expiring_soon now items d) <->
     In item items /\ String.leb (expiry_date item) (cutoff_date now d) = true)
    by (intros; apply List.filter_In).
  assert (Hlow : forall t item,
     In item (get_low_stock items t) <-> In item items /\ quantity item <= t).
  { intros t item. unfold get_low_stock. rewrite List.filter_In.
    by rewrite Z.leb_le. }
  split; [intros d item _; apply Hexp|]. split; [|split; [exact Hlow|split]].
  - intros d item e He Hc Heq. rewrite Hexp, Heq.
    unfold cutoff_date, String.leb.
    rewrite DatetimeFacts.strftime_date_iso
      by (by apply DatetimeFacts.four_digit_printable).
    rewrite DatetimeFacts.isoformat_date_compare
      by (apply DatetimeFacts.representable_widths; (done || apply Hc)).
    rewrite cutoff_day_add_days by done. unfold Datetime.date_le.
    destruct (Datetime.date_compare _ _); split; intros [? ?]; split; done.
  - intros d1 d2 Hd H1 H2. split.
    + apply filter_sublist_mono. intros x. by apply cutoff_date_mono.
    + intros item. rewrite !Hexp. intros [? ?]. split; [done|].
      by apply (cutoff_date_mono now d1 d2).
  - intros t1 t2 Ht. split.
    + apply filter_sublist_mono. intros x. rewrite !Z.leb_le. lia.
    + intros item. rewrite !Hlow. intros [? ?]. split; [done | lia].
Qed.

Lemma queries_exact_and_monotone_witness :
  let now := Datetime.mk (Datetime.mkDate 2025 7 20) 9 30 0 0 in
  let bread := mk "Bread" 1 "loaf" "2025-07-20" "grain" in
  let milk := mk "Milk" 1 "gallon" "2025-07-25" "dairy" in
  Datetime.valid now /\
  Datetime.four_digit (cutoff_day now 0) /\
  Datetime.four_digit (cutoff_day now 3) /\
  (In bread (get_expiring_soon now default_items 0) <->
   In bread default_items /\
   Datetime.date_le (Datetime.mkDate 2025 7 20)
     (Datetime.add_days (Datetime.on now) 0)) /\
  ~ In milk (get_expiring_soon now default_items 3) /\
  sublist (get_expiring_soon now default_items 0)
          (get_expiring_soon now default_items 3) /\
  map name (get_expiring_soon now default_items 0) = ["Bread"]%string /\
  map name (get_expiring_soon now default_items 3)
    = ["Chicken Breast"; "Broccoli"; "Bread"; "Tomatoes"]%string.
Proof.
  intros now bread milk.
  assert (Hnow : Datetime.valid now) by (vm_compute; intuition discriminate).
  assert (H0 : Datetime.four_digit (cutoff_day now 0))
    by (vm_compute; intuition discriminate).
  assert (H3 : Datetime.four_digit (cutoff_day now 3))
    by (vm_compute; intuition discriminate).
  assert (Hb : Datetime.representable (Datetime.mkDate 2025 7 20))
    by (vm_compute; intuition discriminate).
  destruct (queries_exact_and_monotone now default_items Hnow)
    as (_ & Hday & _ & Hmono & _).
  split; [exact Hnow|]. split; [exact H0|]. split; [exact H3|].
  split; [exact (Hday 0 bread (Datetime.mkDate 2025 7 20) Hb H0 eq_refl)|].
  split.
  { intros Hin.
    assert (Hm : Datetime.representable (Datetime.mkDate 2025 7 25))
      by (vm_compute; intuition discriminate).
    apply (Hday 3 milk (Datetime.mkDate 2025 7 25) Hm H3 eq_refl) in Hin
      as [_ Hle].
    apply Hle. vm_compute. reflexivity. }
  assert (H03 : 0 <= 3) by lia.
  split; [exact (proj1 (Hmono 0 3 H03 H0 (proj1 H3)))|].
  split; vm_compute; reflexivity.
Defined.

(** Why the cutoff needs a year of four digits: 374575 days before
    2025-07-20 is 999-12-31, which [%Y-%m-%d] prints with three digits
    for the year; as text it is above every ISO date of this millennium,
    so every line counts as expiring, and the day after, 1000-01-01,
    none does. *)
Example expiring_before_year_1000 :
  let now := Datetime.mk (Datetime.mkDate 2025 7 20) 9 30 0 0 in
  cutoff_date now (- 374575) = "999-12-31"%string /\
  get_expiring_soon now default_items (- 374575) = default_items /\
  cutoff_date now (- 374574) = "1000-01-01"%string /\
  get_expiring_soon now default_items (- 374574) = [].
Proof. vm_compute. repeat split; reflexivity. Qed.

End QueryFacts.

(** ** Decimal text, [split] and dicts *)

Module PyFacts.

Lemma numeric_uint (d : uint) : all_chars numeric (NilEmpty.string_of_uint d).
Proof.
  induction d; simpl; try done; (split; [|done]); repeat split; done.
Qed.

Lemma numeric_str_of_int z : all_chars numeric (str_of_int z).
Proof.
  unfold str_of_int, NilZero.string_of_int, NilZero.string_of_uint.
  destruct z as [|p|p]; simpl.
  - repeat split; done.
  - destruct (Pos.to_uint p) eqn:E; try apply numeric_uint.
    repeat split; done.
  - split; [repeat split; done|].
    destruct (Pos.to_uint p) eqn:E; try apply numeric_uint.
    repeat split; done.
Qed.

Lemma str_of_int_nonempty z : str_of_int z <> EmptyString.
Proof.
  unfold str_of_int, NilZero.string_of_int, NilZero.string_of_uint.
  destruct z as [|p|p]; simpl; try done.
  pose proof (DecimalPos.Unsigned.to_uint_nonnil p).
  destruct (Pos.to_uint p); done.
Qed.

Lemma lstrip_numeric s : all_chars numeric s -> lstrip s = s.
Proof. destruct s as [|c s]; simpl; [done|]. intros [[-> _] _]. done. Qed.

Lemma rstrip_numeric s : all_chars numeric s -> rstrip s = s.
Proof.
  induction s as [|c s IH]; simpl; [done|]. intros [[Hc _] Hs].
  rewrite IH by done. rewrite Hc. by destruct s.
Qed.

(** [int(str(n)) == n] *)
Lemma py_int_str_of_int z : py_int (str_of_int z) = Some z.
Proof.
  pose proof (numeric_str_of_int z) as Hnum.
  pose proof (str_of_int_nonempty z) as Hne.
  unfold py_int. rewrite lstrip_numeric, rstrip_numeric by done.
  assert (Hparse : NilZero.int_of_string (str_of_int z) = Some (Z.to_int z)).
  { unfold str_of_int. apply NilZero.isi.
    - destruct z; simpl; try done.
      intros [= H]. by apply (DecimalPos.Unsigned.to_uint_nonnil p).
    - destruct z; simpl; try done.
      intros [= H]. by apply (DecimalPos.Unsigned.to_uint_nonnil p). }
  destruct (str_of_int z) as [|c s] eqn:E; [done|].
  destruct Hnum as [(_ & Hplus & _) _].
  assert (Hgo : (Z.of_int <$> NilZero.int_of_string (String c s)) = Some z).
  { rewrite Hparse. simpl. by rewrite DecimalZ.of_to. }
  destruct c as [[] [] [] [] [] [] [] []]; try exact Hgo.
  by destruct Hplus.
Qed.

Lemma str_of_int_inj a b : str_of_int a = str_of_int b -> a = b.
Proof.
  intros H. pose proof (py_int_str_of_int a) as Ha.
  rewrite H, py_int_str_of_int in Ha. by injection Ha.
Qed.

Lemma split_on_numeric s :
  all_chars numeric s -> split_on "_" s = [s].
Proof.
  induction s as [|c s IH]; simpl; [done|]. intros [(_ & _ & Hc) Hs].
  rewrite IH by done.
  destruct (Ascii.eqb_spec c "_"); [done | done].
Qed.

(** Appending a key the dict does not have. *)
Lemma dict_set_fresh {V : Type} (d : list (string * V)) k v :
  k ∉ d.*1 -> dict_set d k v = d ++ [(k, v)].
Proof.
  induction d as [|[k' v'] d IH]; simpl; [done|].
  intros Hk. apply not_elem_of_cons in Hk as [Hne Hk].
  destruct (String.eqb_spec k' k); [congruence|]. by rewrite IH.
Qed.

Lemma fold_dict_set_fresh {A V : Type} (f : A -> string) (v : V)
    (l : list A) (d : list (string * V)) :
  NoDup (d.*1 ++ map f l) ->
  fold_left (fun d x => dict_set d (f x) v) l d = d ++ map (fun x => (f x, v)) l.
Proof.
  revert d. induction l as [|x l IH]; intros d Hnd; simpl.
  - by rewrite app_nil_r.
  - simpl in Hnd. apply NoDup_app in Hnd as (Hd & Hdis & Hl).
    apply NoDup_cons in Hl as [Hx Hl].
    rewrite dict_set_fresh.
    + rewrite IH.
      * by rewrite <- app_assoc.
      * rewrite fmap_app. simpl. rewrite <- app_assoc. simpl.
        apply NoDup_app. split; [done|]. split.
        -- intros y Hy. specialize (Hdis y Hy). done.
        -- by apply NoDup_cons.
    + intros Hin. apply (Hdis _ Hin). apply elem_of_cons. by left.
Qed.

Lemma py_range_length a b : length (py_range a b) = Z.to_nat (b - a).
Proof. unfold py_range. by rewrite length_map, length_seq. Qed.

Lemma py_range_NoDup a b : NoDup (py_range a b).
Proof.
  unfold py_range. apply NoDup_fmap_2.
  - intros i j. lia.
  - apply NoDup_seq.
Qed.

Lemma py_range_elem a b k : k ∈ py_range a b <-> a <= k < b.
Proof.
  unfold py_range. rewrite list_elem_of_fmap. split.
  - intros (i & -> & Hi). apply elem_of_seq in Hi. lia.
  - intros Hk. exists (Z.to_nat (k - a)). split; [lia|].
    apply elem_of_seq. lia.
Qed.

End PyFacts.

(** ** The fallback plan generator *)

Module MealPlannerFacts.
Import MealPlanner.

Lemma day_key_inj a b : day_key a = day_key b -> a = b.
Proof.
  unfold day_key. simpl. intros [= H]. by apply PyFacts.str_of_int_inj.
Qed.

Lemma mock_days (days : Z) :
  fold_left (fun d day => dict_set d (day_key day) mock_meals)
    (py_range 1 (days + 1)) [] =
  map (fun day => (day_key day, mock_meals)) (py_range 1 (days + 1)).
Proof.
  rewrite (PyFacts.fold_dict_set_fresh day_key mock_meals); [done|].
  simpl. apply NoDup_fmap_2; [|apply PyFacts.py_range_NoDup].
  intros a b. apply day_key_inj.
Qed.

(** C9. The fallback generator is a function of the horizon alone: two
    calls with the same [days], whatever the inventory, return the same
    plan.  Its days are [day_1] .. [day_N] in order, each with the same
    three fixed meals; its grocery list is the fixed list of four staples,
    not empty, each with an estimated price other than zero; its notes are
    the fixed three. *)
Theorem mock_plan_deterministic (days : Z) (inv1 inv2 : list FridgeItem.t) :
  _generate_mock_meal_plan inv1 days = _generate_mock_meal_plan inv2 days /\
  MealPlan.meal_plan (_generate_mock_meal_plan inv1 days) =
    Some (map (fun day => (day_key day, mock_meals)) (py_range 1 (days + 1))) /\
  length (py_range 1 (days + 1)) = Z.to_nat days /\
  (forall day, day ∈ py_range 1 (days + 1) <-> 1 <= day <= days) /\
  (mock_meals !! "breakfast" = Some "Scrambled eggs with cheese" /\
   mock_meals !! "lunch" = Some "Chicken and vegetable stir-fry" /\
   mock_meals !! "dinner" = Some "Grilled salmon with rice and broccoli") /\
  MealPlan.grocery_list (_generate_mock_meal_plan inv1 days) =
    Some mock_grocery_list /\
  mock_grocery_list <> [] /\
  Forall (fun g => PyFloat.is_zero (GroceryItem.estimated_price g) = false)
    mock_grocery_list /\
  MealPlan.notes (_generate_mock_meal_plan inv1 days) = Some mock_notes.
Proof.
  split; [done|]. split; [simpl; by rewrite mock_days|].
  split; [rewrite PyFacts.py_range_length; f_equal; lia|].
  split; [intros day; rewrite PyFacts.py_range_elem; lia|].
  split; [by vm_compute|]. split; [done|]. split; [done|].
  split; [|done]. unfold mock_grocery_list.
  repeat constructor.
Qed.

End MealPlannerFacts.

(** ** Catalog resolution and order creation *)

Module GroceryManagerFacts.
Import GroceryManager.

Lemma search_products_map catalog grocery_list :
  search_products catalog grocery_list = map (search_product catalog) grocery_list.
Proof.
  unfold search_products.
  assert (H : forall found,
    fold_left (fun found item => found ++ [search_product catalog item])
      grocery_list found = found ++ map (search_product catalog) grocery_list).
  { induction grocery_list as [|item l IH]; intros found; simpl.
    - by rewrite app_nil_r.
    - rewrite IH. by rewrite <- app_assoc. }
  apply (H []).
Qed.

(** C6. [search_products] returns one result per requested item, in the
    order of the request: the result at position [i] is for the item at
    position [i]; when the lower-cased name is a key of the catalog its
    line total is the catalog price times the requested quantity (price
    and availability copied from the entry), and when it is not the result
    has no [store_item] and carries the not-found message.  A miss is a
    returned value: no arithmetic is done for it, whatever its quantity.
    The quantity of an item that is matched is an [int] that Python
    converts to a float. *)
Theorem search_products_resolves
    (catalog : gmap string catalog_entry) (gap_list : list GroceryItem.t) :
  Forall (fun item =>
            catalog !! lower (GroceryItem.name item) <> None ->
            PyFloat.fits (GroceryItem.quantity item) = true) gap_list ->
  length (search_products catalog gap_list) = length gap_list /\
  forall (i : nat) (item : GroceryItem.t),
    gap_list !! i = Some item ->
    exists p,
      search_products catalog gap_list !! i = Some p /\
      requested_item p = item /\
      match catalog !! lower (GroceryItem.name item) with
      | Some entry =>
          exists si,
            store_item p = Some si /\ error p = None /\
            si_price si = price entry /\
            si_available si = available entry /\
            total_cost si =
              PyFloat.mul (price entry)
                (PyFloat.of_int (GroceryItem.quantity item))
      | None => store_item p = None /\ error p = Some not_found
      end.
Proof.
  intros _.
  rewrite search_products_map. split; [apply length_map|].
  intros i item Hi. exists (search_product catalog item).
  split; [by rewrite list_lookup_fmap, Hi|].
  unfold search_product.
  destruct (catalog !! lower (GroceryItem.name item)) as [entry|]; simpl.
  - split; [done|]. eexists. repeat split; done.
  - done.
Qed.

Lemma search_products_resolves_witness :
  let salmon :=
    GroceryItem.mk "SALMON" 3 "lb" "seafood" (PyFloat.lit 1299 2) None in
  let saffron :=
    GroceryItem.mk "Saffron" (10 ^ 400) "jar" "spice" (PyFloat.lit 999 2) None in
  let found := search_products store_catalog [salmon; saffron] in
  PyFloat.fits (GroceryItem.quantity salmon) = true /\
  PyFloat.fits (GroceryItem.quantity saffron) = false /\
  length found = 2%nat /\
  found !! 0%nat =
    Some (mkProduct salmon
            (Some (mkStoreItem "SALMON" "SALM001" (PyFloat.lit 1299 2) "lb" true
                     (PyFloat.lit 3897 2)))
            None) /\
  found !! 1%nat =
    Some (mkProduct saffron None (Some "Product not found in store catalog")).
Proof.
  intros salmon saffron found.
  assert (Hfit : Forall (fun item =>
            store_catalog !! lower (GroceryItem.name item) <> None ->
            PyFloat.fits (GroceryItem.quantity item) = true) [salmon; saffron]).
  { constructor; [intros _; vm_compute; reflexivity|].
    constructor; [|constructor]. intros H. exfalso. apply H.
    vm_compute. reflexivity. }
  destruct (search_products_resolves store_catalog [salmon; saffron] Hfit)
    as [Hlen Hat].
  split; [vm_compute; reflexivity|]. split; [vm_compute; reflexivity|].
  split; [exact Hlen|].
  destruct (Hat 0%nat salmon eq_refl) as (p0 & Hp0 & _).
  destruct (Hat 1%nat saffron eq_refl) as (p1 & Hp1 & _).
  split.
  - unfold found. rewrite Hp0. f_equal.
    pose proof (eq_sym Hp0) as E.
    vm_compute in E. injection E as ->. vm_compute. reflexivity.
  - unfold found. rewrite Hp1. f_equal.
    pose proof (eq_sym Hp1) as E.
    vm_compute in E. injection E as ->. vm_compute. reflexivity.
Defined.


Lemma create_order_ok now products delivery_time :
  List.filter matched_and_available products <> [] ->
  exists o, create_order now products delivery_time = Order o /\
            items o = List.filter matched_and_available products.
Proof.
  unfold create_order. intros H.
  destruct (List.filter matched_and_available products) as [|p l] eqn:E; [done|].
  eexists. split; [reflexivity|]. done.
Qed.

Lemma available_is_matched p : matched_and_available p = true -> matched p = true.
Proof. unfold matched_and_available, matched. by destruct (store_item p). Qed.

Lemma filter_available_of_matched products :
  List.filter matched_and_available (List.filter matched products)
    = List.filter matched_and_available products.
Proof.
  induction products as [|p l IH]; simpl; [done|].
  destruct (matched p) eqn:Em; simpl.
  - by rewrite IH.
  - rewrite IH. destruct (matched_and_available p) eqn:Ea; [|done].
    apply available_is_matched in Ea. congruence.
Qed.

(** Every entry of the installed catalog is available. *)
Lemma store_catalog_available k entry :
  store_catalog !! k = Some entry -> available entry = true.
Proof.
  unfold store_catalog. intros H.
  apply elem_of_list_to_map_2 in H.
  repeat (apply elem_of_cons in H as [[= -> ->] | H]; [done|]).
  by apply elem_of_nil in H.
Qed.

Lemma search_product_available catalog item :
  (forall k entry, catalog !! k = Some entry -> available entry = true) ->
  matched_and_available (search_product catalog item)
    = matched (search_product catalog item).
Proof.
  intros Hall. unfold search_product, matched_and_available, matched.
  destruct (catalog !! lower (GroceryItem.name item)) as [entry|] eqn:E; simpl;
    [by apply (Hall _ _ E) | done].
Qed.

Lemma filter_matched_available catalog gap_list :
  (forall k entry, catalog !! k = Some entry -> available entry = true) ->
  List.filter matched_and_available (search_products catalog gap_list)
    = List.filter matched (search_products catalog gap_list).
Proof.
  intros Hall. rewrite search_products_map.
  induction gap_list as [|item l IH]; simpl; [done|].
  rewrite (search_product_available _ _ Hall), IH. done.
Qed.

(** C3, as the code has it. For every product list with a matched and
    available line, the created order has: [subtotal] the binary64 sum of
    the line totals of those lines, added from left to right, rounded to
    two decimals; [delivery_fee] 5.99; [tip] that unrounded sum times
    0.15, rounded to two decimals; [total] the unrounded sum plus 5.99
    plus the unrounded tip, rounded to two decimals.  Tip and total are
    computed from the unrounded sum, not from the subtotal the order
    shows, and the arithmetic is floating point throughout.  The time two
    hours from now, which the order takes as its delivery time when none
    is given, is one Python can hold. *)
Theorem create_order_amounts (now : Datetime.t) (products : list product)
    (delivery_time : option string) :
  Datetime.valid now ->
  Datetime.representable (Datetime.on (Datetime.add_timedelta now 0 7200)) ->
  List.filter matched_and_available products <> [] ->
  let lines := List.filter matched_and_available products in
  let raw := fold_left PyFloat.add (map line_total lines) (PyFloat.of_int 0) in
  exists o,
    create_order now products delivery_time = Order o /\
    items o = lines /\
    subtotal o = PyFloat.round2 raw /\
    delivery_fee o = PyFloat.lit 599 2 /\
    tip o = PyFloat.round2 (PyFloat.mul raw (PyFloat.lit 15 2)) /\
    total o =
      PyFloat.round2
        (PyFloat.add (PyFloat.add raw (PyFloat.lit 599 2))
           (PyFloat.mul raw (PyFloat.lit 15 2))).
Proof.
  intros _ _ H. cbv zeta. unfold create_order.
  destruct (List.filter matched_and_available products) as [|p l] eqn:E; [done|].
  eexists. split; [reflexivity|]. done.
Qed.

Lemma create_order_amounts_witness :
  let now := Datetime.mk (Datetime.mkDate 2025 7 20) 9 30 15 0 in
  let products :=
    search_products store_catalog
      [GroceryItem.mk "Milk" 1 "gallon" "dairy" (PyFloat.lit 399 2) None;
       GroceryItem.mk "Chicken Breast" 9 "lb" "meat" (PyFloat.lit 899 2) None] in
  exists o,
    create_order now products None = Order o /\
    map line_total (items o) = [PyFloat.lit 399 2; PyFloat.lit 8091 2] /\
    subtotal o = PyFloat.lit 849 1 /\
    delivery_fee o = PyFloat.lit 599 2 /\
    tip o = PyFloat.lit 1273 2 /\
    total o = PyFloat.lit 10362 2.
Proof.
  intros now products.
  assert (Hnow : Datetime.valid now) by (vm_compute; intuition discriminate).
  assert (Hdue : Datetime.representable
                   (Datetime.on (Datetime.add_timedelta now 0 7200)))
    by (vm_compute; intuition discriminate).
  assert (Hne : List.filter matched_and_available products <> [])
    by (vm_compute; discriminate).
  destruct (create_order_amounts now products None Hnow Hdue Hne)
    as (o & Ho & Hitems & Hsub & Hfee & Htip & Htotal).
  exists o. split; [exact Ho|].
  rewrite Hitems, Hsub, Hfee, Htip, Htotal.
  repeat split; vm_compute; reflexivity.
Defined.

(** C3, as stated, fails: the tip is 15% of the unrounded sum.  One milk
    and nine chicken breasts add up to 84.89999999999999, shown as 84.9;
    the tip is 12.73, and 15% of 84.9 rounds to 12.74. *)
Lemma create_order_tip_of_unrounded_sum :
  ~ (forall (now : Datetime.t) (products : list product)
            (delivery_time : option string) (o : order_t),
       create_order now products delivery_time = Order o ->
       tip o = PyFloat.round2 (PyFloat.mul (subtotal o) (PyFloat.lit 15 2))).
Proof.
  intros H.
  pose (now := Datetime.mk (Datetime.mkDate 2025 7 20) 9 30 15 0).
  pose (products :=
    search_products store_catalog
      [GroceryItem.mk "Milk" 1 "gallon" "dairy" (PyFloat.lit 399 2) None;
       GroceryItem.mk "Chicken Breast" 9 "lb" "meat" (PyFloat.lit 899 2) None]).
  destruct (create_order now products None) as [msg|o] eqn:E;
    [vm_compute in E; discriminate|].
  specialize (H now products None o E).
  pose proof (eq_sym E) as Ho. clear E.
  vm_compute in Ho. injection Ho as ->. vm_compute in H. discriminate.
Qed.

End GroceryManagerFacts.

(** ** Meal preparation reminders *)

Module CalendarManagerFacts.
Import CalendarManager.

Lemma split_on_day_key k :
  split_on "_" (MealPlanner.day_key k) = ["day"; str_of_int k]%string.
Proof.
  unfold MealPlanner.day_key.
  change ("day_" ++ str_of_int k)%string
    with (String "d" (String "a" (String "y" (String "_" (str_of_int k))))).
  cbn [split_on Ascii.eqb Bool.eqb].
  by rewrite PyFacts.split_on_numeric by apply PyFacts.numeric_str_of_int.
Qed.

Lemma day_number_day_key k :
  day_number (MealPlanner.day_key k) = Returned (k - 1).
Proof.
  unfold day_number. rewrite split_on_day_key. simpl.
  by rewrite PyFacts.py_int_str_of_int.
Qed.

(** The anchor: 18:00 of the day of [now], moved by whole days. *)
Lemma anchor_offset now d :
  Datetime.add_timedelta (Datetime.replace_time now 18) d 0
    = Datetime.mk (Datetime.add_days (Datetime.on now) d) 18 0 0 0.
Proof.
  unfold Datetime.add_timedelta, Datetime.replace_time. simpl.
  by rewrite Z.add_0_r.
Qed.

Lemma meal_prep_loop_days now entries scheduled log :
  meal_prep_loop (Datetime.replace_time now 18) (map day_entry entries)
    scheduled log =
  (Returned (scheduled ++ map (day_event now) entries),
   log ++ map (day_event now) entries).
Proof.
  revert scheduled log.
  induction entries as [|[k m] entries IH]; intros scheduled log; simpl.
  - by rewrite !app_nil_r.
  - rewrite day_number_day_key, IH. by rewrite <- !app_assoc.
Qed.

(** C7. For a plan whose days are [day_k] keys (in particular [day_1] ..
    [day_N]), [schedule_meal_prep_reminders] appends one event per day to
    the event log and returns exactly the appended events, as many as the
    plan has days; the event of [day_k] starts at 18:00:00 of the day
    [k - 1] days after today and its description carries the dinner and
    the breakfast of that day ([TBD] for a meal the day does not name).
    The days of the events are days Python can hold. *)
Theorem meal_prep_schedule (now : Datetime.t) (log : list event)
    (plan : MealPlan.t) (entries : list (Z * gmap string string)) :
  Datetime.valid now ->
  Forall (fun entry =>
            Datetime.representable
              (Datetime.add_days (Datetime.on now) (entry.1 - 1))) entries ->
  MealPlan.meal_plan plan = Some (map day_entry entries) ->
  exists evs,
    schedule_meal_prep_reminders now log plan = (Returned evs, log ++ evs) /\
    length evs = length entries /\
    forall (i : nat) (k : Z) (meals : gmap string string),
      entries !! i = Some (k, meals) ->
      exists ev,
        evs !! i = Some ev /\
        event_id ev = ("MEAL_PREP_" ++ MealPlanner.day_key k)%string /\
        title ev = ("Meal Prep - Day " ++ str_of_int k)%string /\
        type ev = "meal_prep" /\
        duration_minutes ev = Some 60 /\
        start_time ev =
          Datetime.isoformat
            (Datetime.mk (Datetime.add_days (Datetime.on now) (k - 1)) 18 0 0 0) /\
        description ev =
          ("Tonight's dinner: " ++ default "TBD" (meals !! "dinner") ++ newline
             ++ "Tomorrow's breakfast: "
             ++ default "TBD" (meals !! "breakfast"))%string.
Proof.
  intros _ _ Hplan. exists (map (day_event now) entries).
  unfold schedule_meal_prep_reminders. rewrite Hplan. simpl.
  rewrite meal_prep_loop_days. split; [done|]. split; [apply length_map|].
  intros i k meals Hi. exists (day_event now (k, meals)).
  split; [by rewrite list_lookup_fmap, Hi|].
  unfold day_event, meal_prep_event, meal_of. simpl.
  split; [done|].
  split; [by replace (k - 1 + 1) with k by lia|].
  split; [done|]. split; [done|]. split; [|done].
  by rewrite anchor_offset.
Qed.

Lemma meal_prep_schedule_witness :
  let now := Datetime.mk (Datetime.mkDate 2025 12 30) 9 30 0 0 in
  let plan :=
    MealPlan.mk
      (Some [("day_1", MealPlanner.mock_meals);
             ("day_2", <["dinner" := "Leftover soup"]> ∅);
             ("day_3", MealPlanner.mock_meals)]%string) None None in
  exists evs,
    schedule_meal_prep_reminders now [] plan = (Returned evs, evs) /\
    map start_time evs =
      ["2025-12-30T18:00:00"; "2025-12-31T18:00:00";
       "2026-01-01T18:00:00"]%string /\
    map title evs =
      ["Meal Prep - Day 1"; "Meal Prep - Day 2"; "Meal Prep - Day 3"]%string /\
    map description evs =
      [("Tonight's dinner: Grilled salmon with rice and broccoli" ++ newline
          ++ "Tomorrow's breakfast: Scrambled eggs with cheese");
       ("Tonight's dinner: Leftover soup" ++ newline
          ++ "Tomorrow's breakfast: TBD");
       ("Tonight's dinner: Grilled salmon with rice and broccoli" ++ newline
          ++ "Tomorrow's breakfast: Scrambled eggs with cheese")]%string.
Proof.
  intros now plan.
  pose (entries := [(1, MealPlanner.mock_meals);
                    (2, <["dinner" := "Leftover soup"%string]>
                          (∅ : gmap string string));
                    (3, MealPlanner.mock_meals)]).
  assert (Hnow : Datetime.valid now) by (vm_compute; intuition discriminate).
  assert (Hdays : Forall (fun entry =>
            Datetime.representable
              (Datetime.add_days (Datetime.on now) (entry.1 - 1))) entries)
    by (repeat constructor; vm_compute; intuition discriminate).
  assert (Hplan : MealPlan.meal_plan plan = Some (map day_entry entries))
    by (vm_compute; reflexivity).
  destruct (meal_prep_schedule now [] plan entries Hnow Hdays Hplan)
    as (evs & Hrun & _).
  exists evs. split; [exact Hrun|].
  pose proof (eq_sym Hrun) as E. clear Hrun.
  vm_compute in E. injection E as -> _.
  repeat split; vm_compute; reflexivity.
Defined.

End CalendarManagerFacts.

(** ** The workflow *)

Module GroceryConciergeFacts.
Import GroceryManager GroceryConcierge.

Lemma estimate_of_eq products :
  match List.filter matched products with
  | [] => NInt 0
  | _ => py_sum (map line_total (List.filter matched products))
  end = estimate_of products.
Proof. unfold estimate_of. by destruct (List.filter matched products). Qed.


(** With [auto_order] and a matched line, [create_order] is called on the
    matched lines. *)
Lemma plan_and_order_active self now response days :
  List.filter matched (resolved self response days) <> [] ->
  plan_and_order self now response days true =
    let plan := plan_of self response days in
    let products := resolved self response days in
    let o := create_order now (List.filter matched products)
               (Some (Datetime.strftime_date
                        (Datetime.on (Datetime.add_timedelta now 1 0))
                      ++ " 16:00")%string) in
    match o with
    | OrderError _ =>
        (Returned (mkResult plan products (estimate_of products) (Some o) []),
         events self)
    | Order ord =>
        match schedule_events now (events self) plan ord with
        | (Raised e, events') => (Raised e, events')
        | (Returned evs, events') =>
            (Returned (mkResult plan products (estimate_of products) (Some o) evs),
             events')
        end
    end.
Proof.
  intros H. unfold plan_and_order. fold (plan_of self response days).
  fold (resolved self response days). rewrite estimate_of_eq.
  by destruct (List.filter matched (resolved self response days)).
Qed.


Lemma resolved_available self response days :
  store_catalog self = GroceryManager.store_catalog ->
  List.filter matched_and_available (resolved self response days)
    = List.filter matched (resolved self response days).
Proof.
  intros Hcat. unfold resolved. rewrite Hcat.
  apply GroceryManagerFacts.filter_matched_available.
  apply GroceryManagerFacts.store_catalog_available.
Qed.




(** With [auto_order] and an available line an order is created; the
    bundle, when the scheduling returns, carries it. *)
Lemma plan_and_order_ordered self now response days outcome events' :
  List.filter matched_and_available (resolved self response days) <> [] ->
  plan_and_order self now response days true = (outcome, events') ->
  match outcome with
  | Returned r => exists o, order r = Some (Order o)
  | Raised _ => True
  end.
Proof.
  intros Ha. rewrite plan_and_order_active.
  - cbv zeta.
    destruct (GroceryManagerFacts.create_order_ok now
                (List.filter matched (resolved self response days))
                (Some (Datetime.strftime_date
                         (Datetime.on (Datetime.add_timedelta now 1 0))
                       ++ " 16:00")%string)) as (o & -> & _).
    { by rewrite GroceryManagerFacts.filter_available_of_matched. }
    destruct (schedule_events _ _ _ _) as [[evs|e] ev']; intros [= <- _];
      [by exists o | done].
  - intros Hm. apply Ha.
    rewrite <- GroceryManagerFacts.filter_available_of_matched. by rewrite Hm.
Qed.






(** The scenario of the default store: three days planned by the fallback
    generator and ordered.  The four staples are matched; the order totals
    22.46 + 5.99 + 3.37 = 31.82 and one delivery reminder and three meal
    preparation reminders enter the log. *)
Example plan_and_order_default_scenario :
  let self := init FridgeInventory.default_items None in
  let now := Datetime.mk (Datetime.mkDate 2025 7 20) 9 30 15 0 in
  exists r ord log,
    plan_and_order self now None 3 true = (Returned r, log) /\
    order r = Some (Order ord) /\
    subtotal ord = PyFloat.lit 2246 2 /\
    tip ord = PyFloat.lit 337 2 /\
    total ord = PyFloat.lit 3182 2 /\
    total_estimated_cost r = NFloat (PyFloat.lit 2246 2) /\
    log = calendar_events r /\
    map CalendarManager.type log
      = ["delivery_reminder"; "meal_prep"; "meal_prep"; "meal_prep"]%string /\
    map CalendarManager.start_time log
      = ["2025-07-21T16:00:00"; "2025-07-20T18:00:00";
         "2025-07-21T18:00:00"; "2025-07-22T18:00:00"]%string.
Proof.
  intros self now.
  destruct (plan_and_order self now None 3 true) as [[r|e] log] eqn:E;
    [|vm_compute in E; discriminate].
  destruct (order r) as [[msg|ord]|] eqn:Eo;
    try (apply (f_equal (fun x => match x.1 with
                                  | Returned r => order r
                                  | Raised _ => None
                                  end)) in E;
         simpl in E; rewrite Eo in E; vm_compute in E; discriminate).
  exists r, ord, log. split; [done|]. split; [done|].
  assert (Hr : (Returned r, log) = plan_and_order self now None 3 true)
    by done.
  clear E.
  assert (Ho : Some (Order ord) =
               match (plan_and_order self now None 3 true).1 with
               | Returned r => order r
               | Raised _ => None
               end) by (by rewrite <- Hr).
  vm_compute in Ho. injection Ho as ->.
  assert (Hc : total_estimated_cost r =
               match (plan_and_order self now None 3 true).1 with
               | Returned r => total_estimated_cost r
               | Raised _ => NInt 0
               end) by (by rewrite <- Hr).
  assert (Hl : log = (plan_and_order self now None 3 true).2)
    by (by rewrite <- Hr).
  assert (He : calendar_events r =
               match (plan_and_order self now None 3 true).1 with
               | Returned r => calendar_events r
               | Raised _ => []
               end) by (by rewrite <- Hr).
  rewrite Hc, He, Hl. vm_compute. repeat split; reflexivity.
Qed.

End GroceryConciergeFacts.

(** ** More on the inventory store *)

Module FridgeInventoryMore.
Import FridgeItem FridgeInventory FridgeInventoryFacts.

Lemma set_quantity_same it : set_quantity it (quantity it) = it.
Proof. by destruct it. Qed.

Lemma set_quantity_twice it q1 q2 :
  set_quantity (set_quantity it q1) q2 = set_quantity it q2.
Proof. done. Qed.

Lemma same_name_refl it : same_name it (name it) = true.
Proof. unfold same_name. by apply bool_decide_eq_true. Qed.

(** X1. Adding a line and then removing the same quantity under the same name
    gives the store back as it was, when the name is new or its first
    line holds a positive quantity; the removal reports success. *)
Theorem add_then_remove_restores (items : list FridgeItem.t) (item : FridgeItem.t) :
  on_hand items (name item) = None \/
  (exists h, on_hand items (name item) = Some h /\ 0 < h) ->
  remove_item (add_item items item) (name item) (quantity item)
    = Returned (true, items).
Proof.
  intros [Hnone | (h & Hh & Hpos)].
  - rewrite add_item_miss by done.
    apply on_hand_None in Hnone.
    assert (Hfm : first_match (name item) (items ++ [item]) items item []).
    { repeat split; [done | apply same_name_refl]. }
    rewrite (remove_item_hit items item [] (name item) (quantity item) Hfm).
    rewrite Z.leb_refl, Z.sub_diag. simpl. by rewrite app_nil_r.
  - apply on_hand_Some in Hh as (pre & it & post & Hfm & Hq).
    rewrite (add_item_hit _ _ _ _ _ Hfm).
    destruct Hfm as (-> & Hpre & Hsame).
    assert (Hfm' : first_match (name item)
                     (pre ++ set_quantity it (quantity it + quantity item) :: post)
                     pre (set_quantity it (quantity it + quantity item)) post).
    { repeat split; [done | by rewrite same_name_set_quantity]. }
    rewrite (remove_item_hit _ _ _ _ (quantity item) Hfm'). simpl.
    replace (quantity item <=? quantity it + quantity item) with true
      by (symmetry; apply Z.leb_le; lia).
    replace (quantity it + quantity item - quantity item) with (quantity it)
      by lia.
    replace (quantity it =? 0) with false by (symmetry; apply Z.eqb_neq; lia).
    by rewrite set_quantity_twice, set_quantity_same.
Qed.

Lemma add_then_remove_restores_witness :
  on_hand default_items "Butter" = None /\
  remove_item
    (add_item default_items (mk "Butter" 2 "sticks" "2025-08-10" "dairy"))
    "Butter" 2 = Returned (true, default_items).
Proof.
  split; [reflexivity|].
  apply (add_then_remove_restores default_items
           (mk "Butter" 2 "sticks" "2025-08-10" "dairy")).
  left. reflexivity.
Defined.

(** X2. What [add_item] does to the stock by name: the quantity on hand under
    the name of the added line grows by its quantity (from nothing when the
    name is new, which is the only case in which the store gets longer),
    and the quantity on hand under any other name is what it was. *)
Theorem add_item_on_hand (items : list FridgeItem.t) (item : FridgeItem.t) :
  on_hand (add_item items item) (name item)
    = Some (default 0 (on_hand items (name item)) + quantity item) /\
  length (add_item items item)
    = (match on_hand items (name item) with
       | Some _ => length items
       | None => S (length items)
       end) /\
  forall n, lower n <> lower (name item) ->
    on_hand (add_item items item) n = on_hand items n.
Proof.
  assert (Hother : forall n l1 (x y : FridgeItem.t) l2,
            lower n <> lower (name x) -> name y = name x ->
            on_hand (l1 ++ y :: l2) n = on_hand (l1 ++ x :: l2) n).
  { intros n l1 x y l2 Hn Hy. induction l1 as [|z l1 IH]; simpl.
    - unfold same_name. rewrite Hy.
      by rewrite !bool_decide_eq_false_2 by congruence.
    - by rewrite IH. }
  destruct (on_hand items (name item)) as [h|] eqn:E.
  - apply on_hand_Some in E as (pre & it & post & Hfm & Hq).
    rewrite (add_item_hit _ _ _ _ _ Hfm).
    destruct Hfm as (-> & Hpre & Hsame). split; [|split].
    + rewrite on_hand_app_skip by done. simpl.
      rewrite same_name_set_quantity, Hsame. simpl. by rewrite Hq.
    + by rewrite !length_app.
    + intros n Hn. apply Hother; [|done].
      unfold same_name in Hsame. apply bool_decide_eq_true in Hsame.
      congruence.
  - rewrite add_item_miss by done. apply on_hand_None in E. split; [|split].
    + rewrite on_hand_app_skip by done. simpl. by rewrite same_name_refl.
    + rewrite length_app. simpl. lia.
    + intros n Hn. induction items as [|z l IH]; simpl.
      * unfold same_name. by rewrite bool_decide_eq_false_2 by congruence.
      * inversion E; subst. by rewrite IH.
Qed.

Lemma add_item_on_hand_witness :
  let item := mk "MILK" 2 "gallon" "2025-08-01" "dairy" in
  on_hand (add_item default_items item) "milk" = Some 3 /\
  length (add_item default_items item) = 10%nat /\
  lower "Eggs" <> lower (name item) /\
  on_hand (add_item default_items item) "Eggs" = on_hand default_items "Eggs".
Proof.
  intros item.
  assert (Hne : lower "Eggs" <> lower (name item)) by (vm_compute; discriminate).
  split; [reflexivity|]. split; [reflexivity|]. split; [exact Hne|].
  exact (proj2 (proj2 (add_item_on_hand default_items item)) "Eggs" Hne).
Defined.

(** The lower-cased names of a store. *)
Lemma unique_names_app_cons pre it post :
  unique_names (pre ++ it :: post) ->
  unique_names (pre ++ post).
Proof.
  unfold unique_names. rewrite !map_app. simpl. intros H.
  apply NoDup_app in H as (H1 & H2 & H3). apply NoDup_cons in H3 as [_ H3].
  apply NoDup_app. split; [done|]. split; [|done].
  intros x Hx Hx'. apply (H2 x Hx). apply elem_of_cons. by right.
Qed.

Lemma names_set_quantity pre it q post :
  map (fun y => lower (name y)) (pre ++ set_quantity it q :: post)
    = map (fun y => lower (name y)) (pre ++ it :: post).
Proof. by rewrite !map_app. Qed.

Lemma add_item_unique items item :
  unique_names items -> unique_names (add_item items item).
Proof.
  intros Hu. destruct (on_hand items (name item)) as [h|] eqn:E.
  - apply on_hand_Some in E as (pre & it & post & Hfm & _).
    rewrite (add_item_hit _ _ _ _ _ Hfm). destruct Hfm as (-> & _ & _).
    unfold unique_names. by rewrite names_set_quantity.
  - rewrite add_item_miss by done. apply on_hand_None in E.
    unfold unique_names. rewrite map_app. simpl.
    apply NoDup_app. split; [done|]. split; [|apply NoDup_singleton].
    intros x Hx Hx'. apply list_elem_of_singleton in Hx'. subst x.
    apply list_elem_of_fmap in Hx as (y & Hy & Hin).
    rewrite Forall_forall in E. specialize (E y Hin).
    unfold same_name in E. apply bool_decide_eq_false in E. congruence.
Qed.

Lemma remove_item_unique items n q b items' :
  unique_names items ->
  remove_item items n q = Returned (b, items') ->
  unique_names items'.
Proof.
  intros Hu Hrun. destruct (on_hand items n) as [h|] eqn:E.
  - apply on_hand_Some in E as (pre & it & post & Hfm & _).
    pose proof Hfm as (-> & _ & _).
    rewrite (remove_item_hit pre it post n q Hfm) in Hrun.
    destruct (q <=? quantity it); [|by injection Hrun as <- <-].
    destruct (quantity it - q =? 0); injection Hrun as <- <-.
    + by apply unique_names_app_cons in Hu.
    + unfold unique_names. by rewrite names_set_quantity.
  - rewrite remove_item_miss in Hrun by done. by injection Hrun as <- <-.
Qed.

(** X3. The store never holds two lines under the same name, letter case
    aside: the default inventory does not, and no sequence of [add_item]
    and [remove_item] calls creates such a pair.  In a store of that kind
    a line removed on exact depletion leaves no stock under its name. *)
Theorem unique_names_invariant :
  unique_names default_items /\
  (forall ops items items',
     unique_names items -> run items ops = Some items' ->
     unique_names items') /\
  (forall items n h items',
     unique_names items -> on_hand items n = Some h ->
     remove_item items n h = Returned (true, items') ->
     on_hand items' n = None).
Proof.
  split; [|split].
  - unfold unique_names.
    apply (bool_decide_unpack (NoDup (map (fun it => lower (name it)) default_items))).
    by vm_compute.
  - induction ops as [|o ops IH]; intros items items' Hu; simpl.
    + by intros [= <-].
    + destruct o as [item | n q]; simpl.
      * apply IH. by apply add_item_unique.
      * destruct (remove_item items n q) as [[b items1]|e] eqn:E; [|done].
        apply IH. by apply (remove_item_unique items n q b).
  - intros items n h items' Hu Hh Hrun.
    apply on_hand_Some in Hh as (pre & it & post & Hfm & Hq).
    pose proof Hfm as (-> & Hpre & Hsame).
    rewrite (remove_item_hit pre it post n h Hfm), Hq in Hrun.
    rewrite Z.leb_refl, Z.sub_diag in Hrun. simpl in Hrun.
    injection Hrun as <-.
    apply on_hand_None. apply Forall_app. split; [done|].
    unfold unique_names in Hu. rewrite map_app in Hu. simpl in Hu.
    apply NoDup_app in Hu as (_ & _ & Hu). apply NoDup_cons in Hu as [Hnot _].
    apply Forall_forall. intros y Hy.
    unfold same_name in *. apply bool_decide_eq_true in Hsame.
    apply bool_decide_eq_false. intros Heq. apply Hnot.
    apply list_elem_of_fmap. exists y. split; [congruence | done].
Qed.

Lemma unique_names_invariant_witness :
  exists items',
    run default_items
      [Add (mk "MILK" 2 "gallon" "2025-08-01" "dairy"); Remove "bread" 1]
      = Some items' /\
    unique_names items'.
Proof.
  eexists. split; [reflexivity|].
  apply (proj1 (proj2 unique_names_invariant)
           [Add (mk "MILK" 2 "gallon" "2025-08-01" "dairy"); Remove "bread" 1]
           default_items);
    [exact (proj1 unique_names_invariant) | reflexivity].
Defined.

Lemma lower_idempotent s : lower (lower s) = lower s.
Proof.
  induction s as [|c s IH]; simpl; [done|]. rewrite IH. f_equal.
  by destruct c as [[] [] [] [] [] [] [] []].
Qed.

Lemma same_name_lower_eq it n1 n2 :
  lower n1 = lower n2 -> same_name it n1 = same_name it n2.
Proof. unfold same_name. by intros ->. Qed.

Lemma remove_item_loop_lower_eq seen rest n1 n2 q :
  lower n1 = lower n2 ->
  remove_item_loop seen rest n1 q = remove_item_loop seen rest n2 q.
Proof.
  intros H. revert seen. induction rest as [|it rest IH]; intros seen; simpl;
    [done|].
  rewrite (same_name_lower_eq it n1 n2 H). by rewrite IH.
Qed.

(** X4. Names are matched without regard to letter case: [remove_item] gives
    the same answer and the same store for two names that differ only in
    the case of their letters (so for a name and its lower-cased form),
    and [on_hand] likewise. *)
Theorem remove_item_ignores_case (items : list FridgeItem.t) (n1 n2 : string) (q : Z) :
  lower n1 = lower n2 ->
  remove_item items n1 q = remove_item items n2 q /\
  on_hand items n1 = on_hand items n2 /\
  remove_item items (lower n1) q = remove_item items n1 q.
Proof.
  intros H. split; [|split].
  - by apply remove_item_loop_lower_eq.
  - induction items as [|it items IH]; simpl; [done|].
    by rewrite (same_name_lower_eq it n1 n2 H), IH.
  - apply remove_item_loop_lower_eq. apply lower_idempotent.
Qed.

Lemma remove_item_ignores_case_witness :
  lower "BrEaD" = lower "bread" /\
  remove_item default_items "BrEaD" 1 = remove_item default_items "bread" 1.
Proof.
  split; [reflexivity|].
  exact (proj1 (remove_item_ignores_case default_items "BrEaD" "bread" 1
                  eq_refl)).
Defined.

End FridgeInventoryMore.

(** ** The summary by category *)

Module SummaryFacts.
Import FridgeItem FridgeInventory.

Lemma dict_get_set_eq {V : Type} (d : list (string * V)) k v :
  dict_get (dict_set d k v) k = Some v.
Proof.
  induction d as [|[k' v'] d IH]; simpl.
  - by rewrite String.eqb_refl.
  - destruct (String.eqb_spec k' k) as [->|Hne]; simpl.
    + by rewrite String.eqb_refl.
    + destruct (String.eqb_spec k' k); [done | exact IH].
Qed.

Lemma dict_get_set_ne {V : Type} (d : list (string * V)) k k' v :
  k <> k' -> dict_get (dict_set d k v) k' = dict_get d k'.
Proof.
  intros Hne. induction d as [|[k0 v0] d IH]; simpl.
  - destruct (String.eqb_spec k k'); [done | done].
  - destruct (String.eqb_spec k0 k) as [->|Hne0]; simpl.
    + destruct (String.eqb_spec k k'); [done | done].
    + by rewrite IH.
Qed.

Lemma dict_set_twice {V : Type} (d : list (string * V)) k v1 v2 :
  dict_set (dict_set d k v1) k v2 = dict_set d k v2.
Proof.
  induction d as [|[k' v'] d IH]; simpl.
  - by rewrite String.eqb_refl.
  - destruct (String.eqb_spec k' k) as [->|Hne]; simpl.
    + by rewrite String.eqb_refl.
    + destruct (String.eqb_spec k' k); [done | by rewrite IH].
Qed.

Lemma dict_get_None_keys {V : Type} (d : list (string * V)) k :
  dict_get d k = None <-> k ∉ d.*1.
Proof.
  induction d as [|[k' v'] d IH]; simpl.
  - split; [intros _; apply not_elem_of_nil | done].
  - rewrite not_elem_of_cons. destruct (String.eqb_spec k' k) as [->|Hne].
    + split; [done | intros [? _]; done].
    + rewrite IH. split; [intros ?; split; [congruence | done] | by intros [_ ?]].
Qed.

Lemma dict_set_keys {V : Type} (d : list (string * V)) k v :
  (dict_set d k v).*1 =
    match dict_get d k with
    | Some _ => d.*1
    | None => d.*1 ++ [k]
    end.
Proof.
  induction d as [|[k' v'] d IH]; [done|].
  cbn [dict_set dict_get].
  destruct (String.eqb_spec k' k) as [->|Hne]; [done|].
  rewrite !fmap_cons, IH. by destruct (dict_get d k).
Qed.

(** One turn of the loop, in one assignment. *)
Lemma summary_step_alt summary item :
  summary_step summary item =
    dict_set summary (category item)
      (default [] (dict_get summary (category item)) ++ [item]).
Proof.
  unfold summary_step.
  destruct (dict_get summary (category item)) as [l|] eqn:E.
  - by rewrite E.
  - by rewrite dict_get_set_eq, dict_set_twice.
Qed.

Lemma summary_fold_get items summary c :
  dict_get (fold_left summary_step items summary) c =
    match dict_get summary c, List.filter (in_category c) items with
    | None, [] => None
    | o, l => Some (default [] o ++ l)
    end.
Proof.
  revert summary. induction items as [|it items IH]; intros summary; simpl.
  - destruct (dict_get summary c); simpl; [by rewrite app_nil_r | done].
  - rewrite IH, summary_step_alt.
    change (in_category c it) with (String.eqb (category it) c).
    destruct (String.eqb_spec (category it) c) as [Heq|Hne].
    + rewrite Heq, dict_get_set_eq.
      destruct (dict_get summary c); simpl; by rewrite <- ?app_assoc.
    + by rewrite dict_get_set_ne.
Qed.

Lemma summary_fold_keys items summary :
  NoDup summary.*1 -> NoDup (fold_left summary_step items summary).*1.
Proof.
  revert summary. induction items as [|it items IH]; intros summary Hnd; simpl;
    [done|].
  apply IH. rewrite summary_step_alt, dict_set_keys.
  destruct (dict_get summary (category it)) eqn:E; [done|].
  apply dict_get_None_keys in E.
  apply NoDup_app. split; [done|]. split; [|apply NoDup_singleton].
  intros x Hx Hx'. apply list_elem_of_singleton in Hx'. by subst.
Qed.

Lemma concat_dict_append (d : list (string * list FridgeItem.t)) k x :
  concat (dict_set d k (default [] (dict_get d k) ++ [x])).*2
    ≡ₚ x :: concat d.*2.
Proof.
  induction d as [|[k' v'] d IH]; simpl; [done|].
  destruct (String.eqb_spec k' k) as [->|Hne]; simpl.
  - rewrite <- app_assoc. simpl. by rewrite <- Permutation_middle.
  - rewrite IH. by rewrite <- Permutation_middle.
Qed.

Lemma summary_fold_concat items summary :
  concat (fold_left summary_step items summary).*2
    ≡ₚ concat summary.*2 ++ items.
Proof.
  revert summary. induction items as [|it items IH]; intros summary; simpl.
  - by rewrite app_nil_r.
  - rewrite IH, summary_step_alt, concat_dict_append.
    by rewrite <- Permutation_middle.
Qed.

(** X5. [get_inventory_summary] sorts the lines into their categories: no
    category appears twice; the entry of a category is the list of the
    lines of exactly that category (the text compared as it is, letter
    case included) in store order, and a category without lines has no
    entry, so no entry is empty; taken together the entries hold every
    line of the store exactly once. *)
Theorem inventory_summary_groups (items : list FridgeItem.t) :
  NoDup (get_inventory_summary items).*1 /\
  (forall c,
     dict_get (get_inventory_summary items) c =
       match List.filter (in_category c) items with
       | [] => None
       | l => Some l
       end) /\
  (forall c, c ∈ (get_inventory_summary items).*1 <->
             exists it, it ∈ items /\ category it = c) /\
  concat (get_inventory_summary items).*2 ≡ₚ items.
Proof.
  assert (Hget : forall c,
     dict_get (get_inventory_summary items) c =
       match List.filter (in_category c) items with
       | [] => None
       | l => Some l
       end).
  { intros c. unfold get_inventory_summary. rewrite summary_fold_get. simpl.
    by destruct (List.filter (in_category c) items). }
  split; [|split; [exact Hget|split]].
  - apply summary_fold_keys. apply NoDup_nil_2.
  - intros c. split.
    + intros Hin.
      destruct (dict_get (get_inventory_summary items) c) as [l|] eqn:E.
      * rewrite Hget in E.
        destruct (List.filter (in_category c) items) as [|it l'] eqn:Ef; [done|].
        assert (Hit : In it (List.filter (in_category c) items))
          by (rewrite Ef; by left).
        apply List.filter_In in Hit as [Hit Hc].
        exists it. split; [by apply list_elem_of_In|].
        by apply String.eqb_eq.
      * by apply dict_get_None_keys in E.
    + intros (it & Hit & Hc).
      destruct (decide (c ∈ (get_inventory_summary items).*1)) as [|Hn]; [done|].
      apply dict_get_None_keys in Hn. rewrite Hget in Hn.
      assert (Hin : In it (List.filter (in_category c) items)).
      { apply List.filter_In. split; [by apply list_elem_of_In|].
        by apply String.eqb_eq. }
      by destruct (List.filter (in_category c) items).
  - unfold get_inventory_summary. by rewrite summary_fold_concat.
Qed.

End SummaryFacts.

(** ** The daily check *)

Module DailyCheckFacts.
Import FridgeItem FridgeInventory GroceryConcierge.

(** X6. [daily_check] gives one or two recommendations, never none and never
    three: the note on expiring lines when some line expires within three
    days, then the note on low stock when some line holds at most 2, and
    the all-clear note exactly when neither list has a line, in which case
    it stands alone.  The two lists are sub-lists of the store and
    [total_items] counts the store.  The day three days from now is one
    Python can hold. *)
Theorem daily_check_recommendations (self : GroceryConcierge.t) (now : Datetime.t) :
  Datetime.valid now ->
  Datetime.representable (cutoff_day now 3) ->
  let r := daily_check self now in
  (1 <= length (recommendations r) <= 2)%nat /\
  (all_clear ∈ recommendations r <->
   expiring_soon r = [] /\ low_stock r = []) /\
  (expiring_soon r = [] -> low_stock r = [] ->
   recommendations r = [all_clear]) /\
  (expiring_soon r <> [] -> low_stock r <> [] ->
   recommendations r =
     [("Use " ++ str_of_int (Z.of_nat (length (expiring_soon r)))
         ++ " expiring items in today's meals")%string;
      ("Consider restocking " ++ str_of_int (Z.of_nat (length (low_stock r)))
         ++ " low-stock items")%string]) /\
  sublist (expiring_soon r) (fridge self) /\
  sublist (low_stock r) (fridge self) /\
  total_items r = Z.of_nat (length (fridge self)).
Proof.
  intros _ _.
  assert (Hsub : forall (f : FridgeItem.t -> bool) l, sublist (List.filter f l) l).
  { intros f l. induction l as [|x l IH]; simpl; [constructor|].
    destruct (f x); by constructor. }
  pose proof (Hsub (fun item =>
                String.leb (expiry_date item) (cutoff_date now 3))
              (fridge self)) as Hs1.
  pose proof (Hsub (fun item => quantity item <=? 2) (fridge self)) as Hs2.
  fold (get_expiring_soon now (fridge self) 3) in Hs1.
  fold (get_low_stock (fridge self) 2) in Hs2.
  unfold daily_check, count. cbv zeta. simpl.
  destruct (get_expiring_soon now (fridge self) 3) as [|e es];
    destruct (get_low_stock (fridge self) 2) as [|l ls]; simpl.
  all: repeat split; try done; try lia.
  all: try (intros _; by apply list_elem_of_singleton).
  all: try (intros [? ?]; discriminate).
  all: match goal with
       | Hin : _ ∈ _ |- _ =>
           exfalso;
           repeat (apply elem_of_cons in Hin as [Hin|Hin]; [discriminate Hin|]);
           by apply elem_of_nil in Hin
       end.
Qed.

Lemma daily_check_recommendations_witness :
  let self := init default_items None in
  let now := Datetime.mk (Datetime.mkDate 2025 7 20) 9 30 0 0 in
  Datetime.valid now /\
  Datetime.representable (cutoff_day now 3) /\
  expiring_soon (daily_check self now) <> [] /\
  low_stock (daily_check self now) <> [] /\
  recommendations (daily_check self now) =
    ["Use 4 expiring items in today's meals";
     "Consider restocking 6 low-stock items"]%string.
Proof.
  intros self now.
  assert (Hnow : Datetime.valid now) by (vm_compute; intuition discriminate).
  assert (Hrep : Datetime.representable (cutoff_day now 3))
    by (vm_compute; intuition discriminate).
  assert (He : expiring_soon (daily_check self now) <> [])
    by (vm_compute; discriminate).
  assert (Hl : low_stock (daily_check self now) <> [])
    by (vm_compute; discriminate).
  split; [exact Hnow|]. split; [exact Hrep|].
  split; [exact He|]. split; [exact Hl|].
  destruct (daily_check_recommendations self now Hnow Hrep)
    as (_ & _ & _ & H & _).
  rewrite (H He Hl). vm_compute. reflexivity.
Defined.

End DailyCheckFacts.

(** ** Parsing what [strftime] and [isoformat] print *)

Module IsoFacts.
Import Datetime.

Lemma app_assoc_s (a b c : string) : ((a ++ b) ++ c = a ++ (b ++ c))%string.
Proof.
  induction a as [|x a IH]; [done|].
  change (String x ((a ++ b) ++ c) = String x (a ++ (b ++ c)))%string.
  by f_equal.
Qed.

Lemma append_empty (s : string) : (s ++ "")%string = s.
Proof.
  induction s as [|c s IH]; [done|].
  change (String c (s ++ "") = String c s)%string. by f_equal.
Qed.

Lemma digit_value_digit n : digit_value (digit n) = Some (n mod 10).
Proof.
  unfold digit_value, digit.
  pose proof (Z.mod_pos_bound n 10 ltac:(lia)) as Hb.
  rewrite N_ascii_embedding by lia.
  replace ((48 <=? 48 + Z.to_N (n mod 10))%N) with true
    by (symmetry; apply N.leb_le; lia).
  replace ((48 + Z.to_N (n mod 10) <=? 57)%N) with true
    by (symmetry; apply N.leb_le; lia).
  simpl. f_equal. lia.
Qed.

Lemma take_digits_app a b acc s :
  take_digits (a + b) acc s =
    match take_digits a acc s with
    | Some (acc', s') => take_digits b acc' s'
    | None => None
    end.
Proof.
  revert acc s. induction a as [|a IH]; intros acc s; simpl; [done|].
  destruct s as [|c s]; [done|]. destruct (digit_value c); [apply IH | done].
Qed.

(** Reading back a zero-padded field. *)
Lemma take_digits_pad w n acc rest :
  0 <= n < 10 ^ Z.of_nat w ->
  take_digits w acc (pad w n ++ rest) = Some (acc * 10 ^ Z.of_nat w + n, rest).
Proof.
  revert n acc rest. induction w as [|w IH]; intros n acc rest Hn.
  - simpl in *. f_equal. f_equal. lia.
  - rewrite Nat2Z.inj_succ, Z.pow_succ_r in * by lia.
    replace (S w) with (w + 1)%nat by lia.
    rewrite take_digits_app.
    replace (w + 1)%nat with (S w) by lia. simpl pad.
    rewrite app_assoc_s, IH.
    + simpl. rewrite digit_value_digit. f_equal. f_equal.
      pose proof (Z.div_mod n 10 ltac:(lia)). lia.
    + split; [apply Z.div_pos; lia | apply Z.div_lt_upper_bound; lia].
Qed.

Lemma take2 n rest :
  0 <= n < 100 -> take_digits 2 0 (pad 2 n ++ rest) = Some (n, rest).
Proof. intros H. rewrite take_digits_pad by (simpl; lia). f_equal. Qed.

Lemma take4 n rest :
  0 <= n < 10000 -> take_digits 4 0 (pad 4 n ++ rest) = Some (n, rest).
Proof. intros H. rewrite take_digits_pad by (simpl; lia). f_equal. Qed.

Lemma take6 n rest :
  0 <= n < 1000000 -> take_digits 6 0 (pad 6 n ++ rest) = Some (n, rest).
Proof. intros H. rewrite take_digits_pad by (simpl; lia). f_equal. Qed.

Lemma cons_app c (s : string) : (String c "" ++ s)%string = String c s.
Proof. done. Qed.

Lemma expect_cons c s : expect c (String c s) = Some s.
Proof. unfold expect. by rewrite Ascii.eqb_refl. Qed.

#[local] Arguments take_digits : simpl never.
#[local] Arguments pad : simpl never.
#[local] Arguments in_calendar : simpl never.

Lemma in_calendar_valid d h mi sec :
  representable d -> 0 <= h < 24 -> 0 <= mi < 60 -> 0 <= sec < 60 ->
  in_calendar (year d) (month d) (day d) h mi sec = true.
Proof.
  unfold representable, valid_date, in_calendar. intros Hd Hh Hm Hs.
  repeat (apply andb_true_intro; split);
    try (apply Z.leb_le; lia); try (apply Z.ltb_lt; lia).
Qed.

(** The date part of a text, then whatever follows it. *)
Lemma fromisoformat_date d rest :
  representable d ->
  fromisoformat (isoformat_date d ++ rest) =
    match
      match rest with
      | EmptyString => Some (0, 0, 0, 0)
      | String _ s6 => parse_time s6
      end
    with
    | Some (h, mi, sec, us) =>
        if in_calendar (year d) (month d) (day d) h mi sec
        then Some (mk d h mi sec us) else None
    | None => None
    end.
Proof.
  intros Hd. pose proof (DatetimeFacts.representable_widths d Hd)
    as (Hy & Hm & Hday).
  unfold fromisoformat, isoformat_date.
  rewrite !app_assoc_s, !cons_app. rewrite take4 by done. simpl.
  rewrite ?expect_cons. simpl. rewrite take2 by done. simpl.
  rewrite ?expect_cons. simpl. rewrite take2 by done. simpl.
  destruct d as [y m dd]. simpl.
  destruct (match rest with
            | EmptyString => Some (0, 0, 0, 0)
            | String _ s6 => parse_time s6
            end) as [[[[h mi] sec] us]|]; done.
Qed.

Lemma parse_time_hm h mi :
  0 <= h < 24 -> 0 <= mi < 60 ->
  parse_time (pad 2 h ++ ":" ++ pad 2 mi) = Some (h, mi, 0, 0).
Proof.
  intros Hh Hm. unfold parse_time. rewrite cons_app, take2 by lia. simpl.
  rewrite ?expect_cons. simpl.
  rewrite <- (append_empty (pad 2 mi)). rewrite take2 by lia. done.
Qed.

Lemma parse_time_full h mi sec us :
  0 <= h < 24 -> 0 <= mi < 60 -> 0 <= sec < 60 -> 0 <= us < 1000000 ->
  parse_time
    (pad 2 h ++ ":" ++ pad 2 mi ++ ":" ++ pad 2 sec
       ++ (if us =? 0 then "" else "." ++ pad 6 us))
    = Some (h, mi, sec, us).
Proof.
  intros Hh Hm Hs Hus. unfold parse_time. rewrite !cons_app, take2 by lia.
  simpl. rewrite ?expect_cons. simpl. rewrite take2 by lia. simpl.
  rewrite ?expect_cons. simpl. rewrite take2 by lia. simpl.
  destruct (Z.eqb_spec us 0) as [->|Hne]; [done|].
  rewrite ?cons_app. simpl. rewrite ?expect_cons. simpl.
  rewrite <- (append_empty (pad 6 us)). rewrite take6 by lia. done.
Qed.

(** [fromisoformat] reads back what [strftime("%Y-%m-%d %H:%M")] printed
    for a year of four digits, seconds and microseconds gone. *)
Lemma fromisoformat_strftime_minutes dt :
  valid dt -> 1000 <= year (on dt) ->
  fromisoformat (strftime_minutes dt)
    = Some (mk (on dt) (hour dt) (minute dt) 0 0).
Proof.
  intros (Hd & Hh & Hm & Hs & Hus) Hy. unfold strftime_minutes, strftime_hm.
  rewrite DatetimeFacts.strftime_date_iso
    by (by apply DatetimeFacts.four_digit_printable).
  rewrite fromisoformat_date by done. rewrite cons_app.
  rewrite parse_time_hm by done.
  by rewrite in_calendar_valid by (done || lia).
Qed.

(** [fromisoformat(dt.isoformat()) == dt] *)
Lemma fromisoformat_isoformat dt :
  valid dt -> fromisoformat (isoformat dt) = Some dt.
Proof.
  intros (Hd & Hh & Hm & Hs & Hus). unfold isoformat, strftime_hm.
  rewrite fromisoformat_date by done. rewrite cons_app.
  rewrite !app_assoc_s. rewrite parse_time_full by done.
  rewrite in_calendar_valid by done. by destruct dt.
Qed.

End IsoFacts.

(** ** Delivery reminders *)

Module DeliveryFacts.
Import Datetime CalendarManager.

Lemma digit_not_Z n : Ascii.eqb (digit n) "Z" = false.
Proof.
  apply Ascii.eqb_neq. intros H. apply (f_equal N_of_ascii) in H.
  unfold digit in H.
  pose proof (Z.mod_pos_bound n 10 ltac:(lia)) as Hb.
  rewrite N_ascii_embedding in H by lia. simpl in H. lia.
Qed.

Lemma replace_Z_app (a b : string) :
  replace_Z (a ++ b) = (replace_Z a ++ replace_Z b)%string.
Proof.
  induction a as [|c a IH]; [done|].
  change (replace_Z (String c (a ++ b))
          = (replace_Z (String c a) ++ replace_Z b)%string).
  cbn [replace_Z]. destruct (Ascii.eqb c "Z").
  - by rewrite IH, IsoFacts.app_assoc_s.
  - rewrite IH. done.
Qed.

Lemma replace_Z_pad w n : replace_Z (pad w n) = pad w n.
Proof.
  revert n. induction w as [|w IH]; intros n; [done|].
  change (pad (S w) n)
    with (pad w (n / 10) ++ String (digit n) EmptyString)%string.
  rewrite replace_Z_app, IH. cbn [replace_Z].
  by rewrite digit_not_Z.
Qed.

Lemma replace_Z_isoformat_date d :
  replace_Z (isoformat_date d) = isoformat_date d.
Proof.
  unfold isoformat_date. by rewrite !replace_Z_app, !replace_Z_pad.
Qed.

Lemma replace_Z_strftime_date d :
  four_digit d -> replace_Z (strftime_date d) = strftime_date d.
Proof.
  intros Hd. rewrite DatetimeFacts.strftime_date_iso
    by (by apply DatetimeFacts.four_digit_printable).
  apply replace_Z_isoformat_date.
Qed.

Lemma replace_Z_strftime_minutes dt :
  four_digit (on dt) -> replace_Z (strftime_minutes dt) = strftime_minutes dt.
Proof.
  intros Hd. unfold strftime_minutes, strftime_hm.
  by rewrite !replace_Z_app, replace_Z_strftime_date, !replace_Z_pad.
Qed.

(** Adding a time that is not negative does not move the date back. *)
Lemma add_timedelta_later dt seconds :
  valid dt -> 0 <= seconds ->
  year (on dt) <= year (on (add_timedelta dt 0 seconds)).
Proof.
  intros (_ & Hh & Hm & Hs & _) Hsec. unfold add_timedelta. cbn [on].
  apply DatetimeFacts.date_le_year.
  replace (on dt) with (add_days (on dt) 0) at 1 by done.
  apply DatetimeFacts.add_days_mono.
  apply Z.add_nonneg_nonneg; [lia|]. apply Z.div_pos; lia.
Qed.

(** The time of day stays in range under [+ timedelta]. *)
Lemma valid_add_timedelta dt days seconds :
  valid dt -> representable (on (add_timedelta dt days seconds)) ->
  valid (add_timedelta dt days seconds).
Proof.
  intros (_ & Hh & Hm & Hs & Hus) Hrep. split; [done|].
  unfold add_timedelta. cbn [hour minute second microsecond].
  set (s := (hour dt * 3600 + minute dt * 60 + second dt + seconds) mod 86400).
  assert (0 <= s < 86400) by (apply Z.mod_pos_bound; lia).
  pose proof (Z.mod_pos_bound s 3600 ltac:(lia)).
  pose proof (Z.mod_pos_bound s 60 ltac:(lia)).
  repeat split; try done; try lia.
  - apply Z.div_pos; lia.
  - apply Z.div_lt_upper_bound; lia.
  - apply Z.div_pos; lia.
  - apply Z.div_lt_upper_bound; lia.
Qed.

(** A delivery time printed with [%Y-%m-%d %H:%M] in a year of four
    digits is read back. *)
Lemma schedule_printed events order dt :
  valid dt -> 1000 <= year (on dt) ->
  GroceryManager.estimated_delivery order = strftime_minutes dt ->
  exists ev,
    schedule_delivery_reminder events order = (Returned ev, events ++ [ev]) /\
    event_id ev = ("DELIVERY_" ++ GroceryManager.order_id order)%string /\
    type ev = "delivery_reminder" /\
    start_time ev = isoformat (mk (on dt) (hour dt) (minute dt) 0 0) /\
    reminder_time ev =
      Some (isoformat
              (add_timedelta (mk (on dt) (hour dt) (minute dt) 0 0) 0 (- 1800))).
Proof.
  intros Hv Hy Hd. unfold schedule_delivery_reminder.
  rewrite Hd, replace_Z_strftime_minutes by (split; [apply Hv | done]).
  rewrite IsoFacts.fromisoformat_strftime_minutes by done.
  eexists. split; [reflexivity|]. done.
Qed.

(** X7. An order placed without a preferred delivery time (none, or the empty
    text) is due two hours after it is placed; its reminder event is
    scheduled without an exception, is the one event appended to the
    log, starts at the due minute (seconds dropped by the [%H:%M] print)
    and reminds thirty minutes before.  The clock shows a year of four
    digits (1000 or later), where the C library's [%Y] prints what
    [fromisoformat] reads, and the due time is one Python can hold. *)
Theorem default_delivery_reminder (now : Datetime.t)
    (products : list GroceryManager.product)
    (delivery_time : option string) (events : list event) :
  valid now ->
  1000 <= year (on now) ->
  representable (on (add_timedelta now 0 7200)) ->
  List.filter GroceryManager.matched_and_available products <> [] ->
  delivery_time = None \/ delivery_time = Some EmptyString ->
  let due := add_timedelta now 0 7200 in
  let start := mk (on due) (hour due) (minute due) 0 0 in
  exists o ev,
    GroceryManager.create_order now products delivery_time
      = GroceryManager.Order o /\
    GroceryManager.estimated_delivery o = strftime_minutes due /\
    schedule_delivery_reminder events o = (Returned ev, events ++ [ev]) /\
    event_id ev = ("DELIVERY_ORD_" ++ strftime_stamp now)%string /\
    start_time ev = isoformat start /\
    reminder_time ev = Some (isoformat (add_timedelta start 0 (- 1800))).
Proof.
  intros Hnow Hy Hrep Hav Hdt. cbv zeta.
  pose proof (valid_add_timedelta now 0 7200 Hnow Hrep) as Hdue.
  pose proof (add_timedelta_later now 7200 Hnow ltac:(lia)) as Hlater.
  unfold GroceryManager.create_order.
  destruct (List.filter GroceryManager.matched_and_available products)
    as [|p l] eqn:E; [done|].
  eexists.
  edestruct (schedule_printed events) as (ev & Hev & Hid & _ & Hst & Hrem);
    [exact Hdue | |
     | exists ev; split; [reflexivity|];
       split; [|split; [exact Hev|split; [exact Hid|by split]]]];
    [lia | |]; by destruct Hdt as [-> | ->].
Qed.

Lemma default_delivery_reminder_witness :
  let now := Datetime.mk (Datetime.mkDate 2025 12 31) 22 45 59 123456 in
  let products :=
    GroceryManager.search_products GroceryManager.store_catalog
      MealPlanner.mock_grocery_list in
  exists o ev,
    GroceryManager.create_order now products None = GroceryManager.Order o /\
    GroceryManager.estimated_delivery o = "2026-01-01 00:45"%string /\
    schedule_delivery_reminder [] o = (Returned ev, [ev]) /\
    event_id ev = "DELIVERY_ORD_20251231_224559"%string /\
    start_time ev = "2026-01-01T00:45:00"%string /\
    reminder_time ev = Some "2026-01-01T00:15:00"%string.
Proof.
  intros now products.
  assert (Hnow : valid now) by (vm_compute; intuition discriminate).
  assert (Hy : 1000 <= year (on now)) by (vm_compute; discriminate).
  assert (Hrep : representable (on (add_timedelta now 0 7200)))
    by (vm_compute; intuition discriminate).
  assert (Hav : List.filter GroceryManager.matched_and_available products <> [])
    by (vm_compute; discriminate).
  exact (default_delivery_reminder now products None [] Hnow Hy Hrep Hav
           (or_introl eq_refl)).
Defined.

(** The delivery time [plan_and_order] asks for, tomorrow at 16:00, is one
    the reminder can read when the year has four digits: the event starts
    at 16:00:00 of that day and reminds at 15:30:00. *)
Lemma schedule_preferred events order d :
  four_digit d ->
  GroceryManager.estimated_delivery order = (strftime_date d ++ " 16:00")%string ->
  exists ev,
    schedule_delivery_reminder events order = (Returned ev, events ++ [ev]) /\
    type ev = "delivery_reminder" /\
    start_time ev = (isoformat_date d ++ "T16:00:00")%string /\
    reminder_time ev = Some (isoformat_date d ++ "T15:30:00")%string.
Proof.
  intros Hd He. unfold schedule_delivery_reminder.
  rewrite He, replace_Z_app, replace_Z_strftime_date by done.
  rewrite DatetimeFacts.strftime_date_iso
    by (by apply DatetimeFacts.four_digit_printable).
  change (replace_Z " 16:00") with " 16:00"%string.
  rewrite IsoFacts.fromisoformat_date by apply Hd.
  change (parse_time "16:00") with (Some (16, 0, 0, 0)). cbv beta iota.
  rewrite IsoFacts.in_calendar_valid by (apply Hd || lia).
  eexists. split; [reflexivity|]. split; [reflexivity|].
  split; vm_compute; reflexivity.
Qed.

End DeliveryFacts.

(** ** The event log under the scheduling calls *)

Module EventLogFacts.
Import Datetime CalendarManager.

(** The loop appends to both lists the same events, one for each day up
    to the first key that does not parse. *)
Lemma meal_prep_loop_effects base days scheduled log :
  exists done_ rest added,
    days = done_ ++ rest /\
    Forall2 (fun kv ev =>
               exists n, day_number kv.1 = Returned n /\
                         ev = meal_prep_event base kv.1 n kv.2)
            done_ added /\
    (meal_prep_loop base days scheduled log).2 = log ++ added /\
    match (meal_prep_loop base days scheduled log).1 with
    | Returned evs => rest = [] /\ evs = scheduled ++ added
    | Raised e =>
        exists bad rest', rest = bad :: rest' /\ day_number bad.1 = Raised e
    end.
Proof.
  revert scheduled log.
  induction days as [|[k m] days IH]; intros scheduled log.
  - exists [], [], []. simpl. rewrite !app_nil_r. repeat split; constructor.
  - simpl. destruct (day_number k) as [n|e] eqn:Ek.
    + destruct (IH (scheduled ++ [meal_prep_event base k n m])
                   (log ++ [meal_prep_event base k n m]))
        as (done_ & rest & added & -> & Hall & Hlog & Hout).
      exists ((k, m) :: done_), rest, (meal_prep_event base k n m :: added).
      split; [done|]. split; [constructor; [by exists n | done]|].
      split; [by rewrite Hlog, <- app_assoc|].
      destruct (meal_prep_loop _ _ _ _).1 as [evs|e]; [|done].
      destruct Hout as [-> ->]. by rewrite <- app_assoc.
    + exists [], ((k, m) :: days), []. simpl. rewrite app_nil_r.
      split; [done|]. split; [constructor|]. split; [done|].
      by exists (k, m), days.
Qed.



(** X9. The event log only grows: each scheduling call, and the whole
    workflow, leaves the events that were in the log where they were,
    whether it returns or raises; the events a returning call hands back
    are the ones it appended. *)
Theorem event_log_append_only :
  (forall events order,
     match schedule_delivery_reminder events order with
     | (Returned ev, events') => events' = events ++ [ev]
     | (Raised _, events') => events' = events
     end) /\
  (forall now events plan,
     match schedule_meal_prep_reminders now events plan with
     | (Returned evs, events') => events' = events ++ evs
     | (Raised _, events') => events `prefix_of` events'
     end) /\
  (forall self now response days auto_order,
     match GroceryConcierge.plan_and_order self now response days auto_order with
     | (Returned r, events') =>
         events' = GroceryConcierge.events self
                     ++ GroceryConcierge.calendar_events r
     | (Raised _, events') => GroceryConcierge.events self `prefix_of` events'
     end).
Proof.
  assert (Hdel : forall events order,
     match schedule_delivery_reminder events order with
     | (Returned ev, events') => events' = events ++ [ev]
     | (Raised _, events') => events' = events
     end).
  { intros events order. unfold schedule_delivery_reminder.
    by destruct (fromisoformat _). }
  assert (Hmeal : forall now events plan,
     match schedule_meal_prep_reminders now events plan with
     | (Returned evs, events') => events' = events ++ evs
     | (Raised _, events') => events `prefix_of` events'
     end).
  { intros now events plan. unfold schedule_meal_prep_reminders.
    destruct (meal_prep_loop_effects (replace_time now 18)
                (default [] (MealPlan.meal_plan plan)) [] events)
      as (done_ & rest & added & Hd & Hall & Hlog & Hout).
    destruct (meal_prep_loop _ _ _ _) as [[evs|e] events']; simpl in *.
    - destruct Hout as [_ ->]. done.
    - rewrite Hlog. by exists added. }
  split; [exact Hdel|]. split; [exact Hmeal|].
  intros self now response days auto_order.
  unfold GroceryConcierge.plan_and_order.
  destruct auto_order; [|by rewrite app_nil_r].
  destruct (List.filter GroceryManager.matched _) as [|p l];
    [by rewrite app_nil_r|].
  destruct (GroceryManager.create_order _ _ _) as [msg|ord];
    [by rewrite app_nil_r|].
  unfold GroceryConcierge.schedule_events.
  pose proof (Hdel (GroceryConcierge.events self) ord) as H1.
  destruct (schedule_delivery_reminder _ ord) as [[ev|e] events1];
    [|by rewrite H1].
  pose proof (Hmeal now events1
    (MealPlanner.generate_meal_plan (GroceryConcierge.api_key self) response
       (GroceryConcierge.fridge self) days)) as H2.
  destruct (schedule_meal_prep_reminders _ _ _) as [[evs|e] events2].
  - simpl. rewrite H2, H1. by rewrite <- app_assoc.
  - rewrite H1 in H2. destruct H2 as [k ->].
    exists ([ev] ++ k). by rewrite <- app_assoc.
Qed.

End EventLogFacts.

(** ** Upcoming events *)

Module UpcomingFacts.
Import Datetime CalendarManager.

Section Sorting.
Context {A : Type} (key : A -> string).

Local Notation "'key_le'" :=
  (fun a b : A => String.leb (key a) (key b) = true).

Lemma ltb_false_leb (x y : string) :
  String.ltb x y = false -> String.leb y x = true.
Proof.
  unfold String.ltb, String.leb. rewrite (String.compare_antisym x y).
  by destruct (String.compare y x).
Qed.

Lemma ltb_leb (x y : string) : String.ltb x y = true -> String.leb x y = true.
Proof. unfold String.ltb, String.leb. by destruct (String.compare x y). Qed.

Lemma ltb_leb_trans (x y z : string) :
  String.ltb x y = true -> String.leb y z = true -> String.ltb x z = true.
Proof.
  unfold String.ltb, String.leb.
  destruct (String.compare x y) eqn:Hxy; try done. intros _.
  destruct (String.compare y z) eqn:Hyz; try done; intros _.
  - apply String.compare_eq_iff in Hyz as <-. by rewrite Hxy.
  - by rewrite (StringOrder.compare_lt_trans x y z).
Qed.

Lemma ltb_irrefl (x : string) : String.ltb x x = false.
Proof. unfold String.ltb. by rewrite StringOrder.compare_refl. Qed.

Lemma insert_by_perm x l : insert_by key x l ≡ₚ x :: l.
Proof.
  induction l as [|y l IH]; simpl; [done|].
  destruct (String.ltb (key x) (key y)); [done|].
  rewrite IH. apply Permutation_swap.
Qed.

Lemma insert_by_sorted x l :
  StronglySorted key_le l -> StronglySorted key_le (insert_by key x l).
Proof.
  induction 1 as [|y l Hs IH Hall]; simpl; [repeat constructor|].
  destruct (String.ltb (key x) (key y)) eqn:E.
  - constructor; [by constructor|]. constructor; [by apply ltb_leb|].
    eapply Forall_impl; [exact Hall|]. intros z Hz. simpl in *.
    eapply StringOrder.leb_trans; [by apply ltb_leb | exact Hz].
  - constructor; [exact IH|].
    rewrite (insert_by_perm x l). constructor; [|done].
    by apply ltb_false_leb.
Qed.

(** An element goes behind the elements of its own key. *)
Lemma insert_by_stable k x l :
  StronglySorted key_le l ->
  List.filter (fun a => String.eqb (key a) k) (insert_by key x l)
    = List.filter (fun a => String.eqb (key a) k) (l ++ [x]).
Proof.
  induction 1 as [|y l Hs IH Hall]; [done|].
  cbn [insert_by]. destruct (String.ltb (key x) (key y)) eqn:E.
  - destruct (String.eqb_spec (key x) k) as [Hk|Hk].
    + assert (Hnone : List.filter (fun a => String.eqb (key a) k) (y :: l) = []).
      { assert (Hall' : Forall (fun z => String.eqb (key z) k = false) (y :: l)).
        { constructor.
          - apply String.eqb_neq. intros Hy. rewrite Hk, Hy in E.
            by rewrite ltb_irrefl in E.
          - eapply Forall_impl; [exact Hall|]. intros z Hz. simpl in Hz.
            apply String.eqb_neq. intros Hzk.
            pose proof (ltb_leb_trans _ _ _ E Hz) as Hlt.
            rewrite Hk, Hzk in Hlt. by rewrite ltb_irrefl in Hlt. }
        clear -Hall'. induction Hall' as [|z l' Hz _ IH']; simpl; [done|].
        by rewrite Hz. }
      rewrite (List.filter_app _ (y :: l) [x]), Hnone.
      change (List.filter (fun a => String.eqb (key a) k) (x :: y :: l))
        with (if String.eqb (key x) k
              then x :: List.filter (fun a => String.eqb (key a) k) (y :: l)
              else List.filter (fun a => String.eqb (key a) k) (y :: l)).
      rewrite Hnone. done.
    + rewrite (List.filter_app _ (y :: l) [x]).
      change (List.filter (fun a => String.eqb (key a) k) (x :: y :: l))
        with (if String.eqb (key x) k
              then x :: List.filter (fun a => String.eqb (key a) k) (y :: l)
              else List.filter (fun a => String.eqb (key a) k) (y :: l)).
      simpl. apply String.eqb_neq in Hk. rewrite Hk. by rewrite app_nil_r.
  - simpl. by rewrite IH.
Qed.

Lemma sorted_by_fold l acc :
  StronglySorted key_le acc ->
  StronglySorted key_le (fold_left (fun acc x => insert_by key x acc) l acc) /\
  fold_left (fun acc x => insert_by key x acc) l acc ≡ₚ acc ++ l /\
  forall k,
    List.filter (fun a => String.eqb (key a) k) (fold_left (fun acc x => insert_by key x acc) l acc)
      = List.filter (fun a => String.eqb (key a) k) (acc ++ l).
Proof.
  revert acc. induction l as [|x l IH]; intros acc Hs; simpl.
  - by rewrite app_nil_r.
  - destruct (IH (insert_by key x acc) (insert_by_sorted x acc Hs))
      as (H1 & H2 & H3).
    split; [done|]. split.
    + rewrite H2, insert_by_perm. by rewrite <- Permutation_middle.
    + intros k. rewrite H3, !List.filter_app, insert_by_stable by done.
      rewrite List.filter_app, <- app_assoc. f_equal.
      change (x :: l) with ([x] ++ l). by rewrite List.filter_app.
Qed.

Lemma sorted_by_spec l :
  StronglySorted key_le (sorted_by key l) /\
  sorted_by key l ≡ₚ l /\
  forall k, List.filter (fun a => String.eqb (key a) k) (sorted_by key l)
              = List.filter (fun a => String.eqb (key a) k) l.
Proof. apply (sorted_by_fold l []). constructor. Qed.

End Sorting.

(** The comprehension of [get_upcoming_events] on a log whose starts all
    parse. *)
Lemma upcoming_filter cutoff events :
  Forall (fun ev => is_Some (fromisoformat (start_time ev))) events ->
  upcoming cutoff events =
    Returned (List.filter
                (fun ev => match fromisoformat (start_time ev) with
                           | Some start => leb start cutoff
                           | None => false
                           end) events).
Proof.
  induction 1 as [|ev events [start Hs] _ IH]; simpl; [done|].
  by rewrite Hs, IH.
Qed.

(** X10. [get_upcoming_events] on a log whose start times all parse returns,
    without an exception, the events that start no later than [days]
    days from now: each of them once, in ascending order of the start
    text, events with the same start text in the order of the log.  The
    day [days] days from now is one Python can hold. *)
Theorem upcoming_events_sorted (now : Datetime.t) (events : list event)
    (days : Z) :
  valid now ->
  representable (add_days (on now) days) ->
  Forall (fun ev => is_Some (fromisoformat (start_time ev))) events ->
  let due := fun ev => match fromisoformat (start_time ev) with
                       | Some start => leb start (add_timedelta now days 0)
                       | None => false
                       end in
  exists kept,
    get_upcoming_events now events days = Returned kept /\
    kept ≡ₚ List.filter due events /\
    StronglySorted
      (fun a b => String.leb (start_time a) (start_time b) = true) kept /\
    forall s,
      List.filter (fun ev => String.eqb (start_time ev) s) kept
        = List.filter (fun ev => String.eqb (start_time ev) s)
            (List.filter due events).
Proof.
  intros _ _ Hall due. unfold get_upcoming_events.
  rewrite upcoming_filter by done. fold due.
  destruct (sorted_by_spec start_time (List.filter due events))
    as (H1 & H2 & H3).
  eexists. split; [reflexivity|]. done.
Qed.

Lemma upcoming_events_sorted_witness :
  let now := Datetime.mk (Datetime.mkDate 2025 7 20) 9 30 15 0 in
  let ev := fun id start =>
    mkEvent id "Meal Prep" "" start None (Some 60) "meal_prep" "scheduled" in
  let events := [ev "a" "2025-07-21T18:00:00"; ev "b" "2025-08-30T18:00:00";
                 ev "c" "2025-07-20T18:00:00"; ev "d" "2025-07-21T18:00:00"]%string in
  valid now /\
  Forall (fun ev => is_Some (fromisoformat (start_time ev))) events /\
  exists kept,
    get_upcoming_events now events 7 = Returned kept /\
    kept ≡ₚ [ev "a" "2025-07-21T18:00:00"; ev "c" "2025-07-20T18:00:00";
             ev "d" "2025-07-21T18:00:00"]%string /\
    StronglySorted
      (fun a b => String.leb (start_time a) (start_time b) = true) kept /\
    forall s,
      List.filter (fun ev => String.eqb (start_time ev) s) kept
        = List.filter (fun ev => String.eqb (start_time ev) s)
            [ev "a" "2025-07-21T18:00:00"; ev "c" "2025-07-20T18:00:00";
             ev "d" "2025-07-21T18:00:00"]%string.
Proof.
  intros now ev events.
  assert (Hnow : valid now) by (vm_compute; intuition discriminate).
  assert (Hrep : representable (add_days (on now) 7))
    by (vm_compute; intuition discriminate).
  assert (H : Forall (fun ev => is_Some (fromisoformat (start_time ev))) events)
    by (repeat constructor; vm_compute; eexists; reflexivity).
  split; [exact Hnow|]. split; [exact H|].
  exact (upcoming_events_sorted now events 7 Hnow Hrep H).
Defined.

End UpcomingFacts.

(** ** The workflow on the fallback plan *)

Module WorkflowFacts.
Import Datetime GroceryManager GroceryConcierge.

(** Without a usable key, or when the external generator failed, the plan
    is the fallback plan. *)
Lemma generate_meal_plan_fallback self response days :
  has_key self = false \/ response = None ->
  plan_of self response days
    = MealPlanner._generate_mock_meal_plan (fridge self) days.
Proof.
  unfold plan_of, MealPlanner.generate_meal_plan, has_key.
  intros [H | ->].
  - destruct (api_key self) as [key|]; [|done].
    by destruct (String.eqb key "").
  - destruct (api_key self) as [key|]; [|done].
    by destruct (String.eqb key "").
Qed.

Lemma append_nonempty (a b : string) :
  b <> EmptyString -> String.eqb (a ++ b) "" = false.
Proof.
  intros Hb. apply String.eqb_neq. destruct a; [done|]. discriminate.
Qed.

Lemma create_order_fields now products delivery_time :
  List.filter matched_and_available products <> [] ->
  exists o,
    create_order now products delivery_time = Order o /\
    items o = List.filter matched_and_available products /\
    estimated_delivery o =
      match delivery_time with
      | Some s => if String.eqb s "" then
                    strftime_minutes (add_timedelta now 0 7200)
                  else s
      | None => strftime_minutes (add_timedelta now 0 7200)
      end.
Proof.
  unfold create_order. intros H.
  destruct (List.filter matched_and_available products) as [|p l] eqn:E; [done|].
  eexists. split; [reflexivity|]. done.
Qed.

Lemma staples_matched :
  List.filter matched
    (search_products GroceryManager.store_catalog MealPlanner.mock_grocery_list)
  = search_products GroceryManager.store_catalog MealPlanner.mock_grocery_list.
Proof. vm_compute. reflexivity. Qed.

Lemma staples_nonempty :
  search_products GroceryManager.store_catalog MealPlanner.mock_grocery_list
    <> [].
Proof. vm_compute. discriminate. Qed.

(** The run of the workflow on the fallback plan. *)
Lemma fallback_run (self : t) (now : Datetime.t)
    (response : option MealPlan.t) (days : Z) :
  store_catalog self = GroceryManager.store_catalog ->
  has_key self = false \/ response = None ->
  valid now ->
  1000 <= year (on now) ->
  representable (add_days (on now) (Z.max 1 (days - 1))) ->
  let staples :=
    search_products GroceryManager.store_catalog MealPlanner.mock_grocery_list in
  let meal_events :=
    map (fun day => CalendarManager.day_event now (day, MealPlanner.mock_meals))
      (py_range 1 (days + 1)) in
  exists o delivery_event,
    plan_and_order self now response days true
      = (Returned
           (mkResult (MealPlanner._generate_mock_meal_plan (fridge self) days)
              staples (estimate_of staples) (Some (Order o))
              (delivery_event :: meal_events)),
         events self ++ delivery_event :: meal_events) /\
    items o = staples /\
    estimated_delivery o =
      (strftime_date (add_days (on now) 1) ++ " 16:00")%string /\
    CalendarManager.type delivery_event = "delivery_reminder" /\
    CalendarManager.start_time delivery_event
      = (isoformat_date (add_days (on now) 1) ++ "T16:00:00")%string /\
    CalendarManager.reminder_time delivery_event
      = Some (isoformat_date (add_days (on now) 1) ++ "T15:30:00")%string.
Proof.
  intros Hcat Hfall Hnow Hy1000 Hfar. cbv zeta.
  assert (Hrep : four_digit (add_days (on now) 1)).
  { destruct Hnow as [[Hv Hy] _]. destruct Hfar as [_ Hyn].
    pose proof (DatetimeFacts.date_le_year _ _
                  (DatetimeFacts.add_days_mono (on now) 0 1 ltac:(lia))).
    pose proof (DatetimeFacts.date_le_year _ _
                  (DatetimeFacts.add_days_mono (on now) 1
                     (Z.max 1 (days - 1)) ltac:(lia))).
    change (add_days (on now) 0) with (on now) in *.
    split; [split; [by apply DatetimeFacts.valid_add_days | lia] | lia]. }
  assert (Hres : resolved self response days
                 = search_products GroceryManager.store_catalog
                     MealPlanner.mock_grocery_list).
  { unfold resolved. by rewrite generate_meal_plan_fallback, Hcat. }
  rewrite GroceryConciergeFacts.plan_and_order_active
    by (rewrite Hres, staples_matched; apply staples_nonempty).
  cbv zeta. rewrite Hres, staples_matched.
  rewrite DatetimeFacts.add_timedelta_days by done.
  destruct (create_order_fields now
              (search_products GroceryManager.store_catalog
                 MealPlanner.mock_grocery_list)
              (Some (strftime_date (add_days (on now) 1) ++ " 16:00")%string))
    as (o & -> & Hitems & Hest).
  { rewrite GroceryManagerFacts.filter_matched_available
      by apply GroceryManagerFacts.store_catalog_available.
    rewrite staples_matched. apply staples_nonempty. }
  rewrite append_nonempty in Hest by done.
  rewrite GroceryManagerFacts.filter_matched_available in Hitems
    by apply GroceryManagerFacts.store_catalog_available.
  rewrite staples_matched in Hitems.
  unfold schedule_events.
  destruct (DeliveryFacts.schedule_preferred (events self) o
              (add_days (on now) 1) Hrep Hest)
    as (dev & -> & Hty & Hst & Hrem).
  unfold CalendarManager.schedule_meal_prep_reminders.
  rewrite generate_meal_plan_fallback by done.
  cbn [MealPlanner._generate_mock_meal_plan MealPlan.meal_plan default].
  rewrite MealPlannerFacts.mock_days.
  replace (map (fun day => (MealPlanner.day_key day, MealPlanner.mock_meals))
             (py_range 1 (days + 1)))
    with (map CalendarManager.day_entry
            (map (fun day => (day, MealPlanner.mock_meals))
               (py_range 1 (days + 1))))
    by (by rewrite map_map).
  unfold id. rewrite CalendarManagerFacts.meal_prep_loop_days, map_map.
  exists o, dev. split.
  { f_equal. by rewrite <- app_assoc. }
  done.
Qed.

(** X11. The workflow with [auto_order] on the fallback plan (no key, or the
    external generator failed) and the installed catalog: the four
    staples are ordered for tomorrow 16:00, and the call returns with one
    delivery reminder (16:00:00, reminding 15:30:00) followed by one
    meal preparation reminder per planned day; these events, and no
    others, are appended to the calendar log.  The clock shows a year of
    four digits (1000 or later), where the C library's [%Y] prints what
    [fromisoformat] reads; tomorrow and the last planned day are days
    Python can hold. *)
Theorem auto_order_fallback (self : t) (now : Datetime.t)
    (response : option MealPlan.t) (days : Z) :
  store_catalog self = GroceryManager.store_catalog ->
  has_key self = false \/ response = None ->
  valid now ->
  1000 <= year (on now) ->
  representable (add_days (on now) (Z.max 1 (days - 1))) ->
  let tomorrow := strftime_date (add_days (on now) 1) in
  exists r o delivery_event,
    plan_and_order self now response days true
      = (Returned r, events self ++ calendar_events r) /\
    order r = Some (Order o) /\
    items o = search_products GroceryManager.store_catalog
                MealPlanner.mock_grocery_list /\
    estimated_delivery o = (tomorrow ++ " 16:00")%string /\
    calendar_events r =
      delivery_event ::
        map (fun day => CalendarManager.day_event now (day, MealPlanner.mock_meals))
            (py_range 1 (days + 1)) /\
    CalendarManager.type delivery_event = "delivery_reminder" /\
    CalendarManager.start_time delivery_event = (tomorrow ++ "T16:00:00")%string /\
    CalendarManager.reminder_time delivery_event
      = Some (tomorrow ++ "T15:30:00")%string /\
    length (calendar_events r) = S (Z.to_nat days).
Proof.
  intros Hcat Hfall Hnow Hy1000 Hfar. cbv zeta.
  destruct (fallback_run self now response days Hcat Hfall Hnow Hy1000 Hfar)
    as (o & dev & Hrun & Hitems & Hest & Hty & Hst & Hrem).
  assert (Hiso : strftime_date (add_days (on now) 1)
                 = isoformat_date (add_days (on now) 1)).
  { apply DatetimeFacts.strftime_date_iso. split; [|split].
    - pose proof (DatetimeFacts.date_le_year _ _
                    (DatetimeFacts.add_days_mono (on now) 0 1 ltac:(lia))).
      pose proof (DatetimeFacts.date_le_year _ _
                    (DatetimeFacts.add_days_mono (on now) 1
                       (Z.max 1 (days - 1)) ltac:(lia))).
      change (add_days (on now) 0) with (on now) in *.
      destruct Hfar as [_ Hy]. unfold MAXYEAR in Hy. lia.
    - pose proof (DatetimeFacts.valid_add_days (on now) 1
                    (proj1 (proj1 Hnow))) as [Hm _]. lia.
    - pose proof (DatetimeFacts.valid_add_days (on now) 1
                    (proj1 (proj1 Hnow))) as [_ Hd].
      pose proof (DatetimeFacts.days_in_month_bounds
                    (year (add_days (on now) 1)) (month (add_days (on now) 1))).
      lia. }
  eexists _, o, dev. split; [exact Hrun|]. cbn [order calendar_events].
  rewrite Hiso in Hest |- *. repeat (split; [done|]).
  cbn [length]. rewrite length_map, PyFacts.py_range_length.
  f_equal. f_equal. lia.
Qed.

Lemma auto_order_fallback_witness :
  let self := init FridgeInventory.default_items (Some EmptyString) in
  let now := Datetime.mk (Datetime.mkDate 2024 2 28) 23 59 59 999999 in
  exists r o delivery_event,
    plan_and_order self now None 2 true
      = (Returned r, events self ++ calendar_events r) /\
    order r = Some (Order o) /\
    items o = search_products GroceryManager.store_catalog
                MealPlanner.mock_grocery_list /\
    estimated_delivery o = "2024-02-29 16:00"%string /\
    calendar_events r =
      delivery_event ::
        map (fun day => CalendarManager.day_event now (day, MealPlanner.mock_meals))
            (py_range 1 (2 + 1)) /\
    CalendarManager.type delivery_event = "delivery_reminder" /\
    CalendarManager.start_time delivery_event = "2024-02-29T16:00:00"%string /\
    CalendarManager.reminder_time delivery_event
      = Some "2024-02-29T15:30:00"%string /\
    length (calendar_events r) = 3%nat.
Proof.
  intros self now.
  assert (Hnow : valid now) by (vm_compute; intuition discriminate).
  assert (Hy : 1000 <= year (on now)) by (vm_compute; discriminate).
  assert (Hrep : representable (add_days (on now) (Z.max 1 (2 - 1))))
    by (vm_compute; intuition discriminate).
  exact (auto_order_fallback self now None 2 eq_refl (or_introl eq_refl)
           Hnow Hy Hrep).
Defined.

End WorkflowFacts.

(** ** What the workflow schedules is what the calendar reports *)

Module StatusFacts.
Import Datetime CalendarManager.

Lemma date_lt_iff a b :
  date_compare a b = Lt <->
  year a < year b \/
  (year a = year b /\
   (month a < month b \/ (month a = month b /\ day a < day b))).
Proof.
  unfold date_compare.
  destruct (Z.compare_spec (year a) (year b));
    destruct (Z.compare_spec (month a) (month b));
    destruct (Z.compare_spec (day a) (day b)); split; (done || lia).
Qed.

Lemma date_lt_next_day d : valid_date d -> date_compare d (next_day d) = Lt.
Proof.
  intros [Hm Hd]. apply date_lt_iff. unfold next_day.
  destruct (day d <? days_in_month (year d) (month d)); simpl; [lia|].
  destruct (month d <? 12) eqn:E; simpl; [apply Z.ltb_lt in E|]; lia.
Qed.

Lemma date_lt_le_trans a b c :
  date_compare a b = Lt -> date_le b c -> date_compare a c = Lt.
Proof. rewrite !date_lt_iff, DatetimeFacts.date_le_iff. lia. Qed.

Lemma add_days_succ d n :
  0 <= n -> add_days d (n + 1) = next_day (add_days d n).
Proof.
  intros Hn. unfold add_days.
  rewrite !(proj2 (Z.leb_le _ _)) by lia.
  rewrite Z2Nat.inj_add by lia. rewrite Nat.add_comm. done.
Qed.

Lemma add_days_lt d a b :
  valid_date d -> 0 <= a < b ->
  date_compare (add_days d a) (add_days d b) = Lt.
Proof.
  intros Hd Hab.
  apply (date_lt_le_trans _ (add_days d (a + 1))).
  - rewrite add_days_succ by lia. apply date_lt_next_day.
    by apply DatetimeFacts.valid_add_days.
  - apply DatetimeFacts.add_days_mono. lia.
Qed.

(** The days between today and a representable later day are
    representable. *)
Lemma representable_between d j n :
  representable d -> representable (add_days d n) -> 0 <= j <= n ->
  representable (add_days d j).
Proof.
  intros [Hv Hy] [_ Hyn] Hj. split; [by apply DatetimeFacts.valid_add_days|].
  pose proof (DatetimeFacts.date_le_year _ _ (DatetimeFacts.add_days_mono d 0 j ltac:(lia))).
  pose proof (DatetimeFacts.date_le_year _ _ (DatetimeFacts.add_days_mono d j n ltac:(lia))).
  change (add_days d 0) with d in *. lia.
Qed.

Lemma leb_earlier_day a b :
  date_compare (on a) (on b) = Lt -> Datetime.leb a b = true.
Proof. unfold Datetime.leb, Datetime.compare. by intros ->. Qed.

(** An event that starts at a whole second of one of the next [n] days
    is read back and is due within [n] days. *)
Lemma due_within now j n h mi sec :
  valid now -> representable (add_days (on now) n) -> 0 <= j < n ->
  0 <= h < 24 -> 0 <= mi < 60 -> 0 <= sec < 60 ->
  let start := Datetime.mk (add_days (on now) j) h mi sec 0 in
  fromisoformat (isoformat start) = Some start /\
  Datetime.leb start (add_timedelta now n 0) = true.
Proof.
  intros Hnow Hrep Hj Hh Hmi Hsec start. split.
  - apply IsoFacts.fromisoformat_isoformat. split; [|done].
    apply (representable_between _ j n); [apply Hnow | done | lia].
  - apply leb_earlier_day. rewrite DatetimeFacts.add_timedelta_days by done.
    apply add_days_lt; [apply Hnow | done].
Qed.

Lemma upcoming_all cutoff events :
  Forall (fun ev => exists start,
            fromisoformat (start_time ev) = Some start /\
            Datetime.leb start cutoff = true) events ->
  upcoming cutoff events = Returned events.
Proof.
  induction 1 as [|ev events (start & Hs & Hle) _ IH]; simpl; [done|].
  by rewrite Hs, IH, Hle.
Qed.

(** X12. After the workflow has ordered on the fallback plan for up to a week,
    on a calendar that was empty, every event it scheduled is upcoming:
    [get_upcoming_events] (7 days) returns them all, and the system
    status, which does not raise, counts one delivery reminder and one
    reminder per planned day.  The clock shows a year of four digits and
    the day a week from now is one Python can hold. *)
Theorem scheduled_week_is_upcoming (self : GroceryConcierge.t)
    (now : Datetime.t) (response : option MealPlan.t) (days : Z) :
  GroceryConcierge.store_catalog self = GroceryManager.store_catalog ->
  GroceryConcierge.has_key self = false \/ response = None ->
  GroceryConcierge.events self = [] ->
  valid now ->
  1000 <= year (on now) ->
  representable (add_days (on now) 7) ->
  0 <= days <= 7 ->
  exists r log kept st,
    GroceryConcierge.plan_and_order self now response days true
      = (Returned r, log) /\
    log = GroceryConcierge.calendar_events r /\
    get_upcoming_events now log 7 = Returned kept /\
    kept ≡ₚ log /\
    GroceryConcierge.get_system_status
      (GroceryConcierge.mk (GroceryConcierge.fridge self)
         (GroceryConcierge.api_key self)
         (GroceryConcierge.store_catalog self) log) now = Returned st /\
    GroceryConcierge.upcoming_events st = 1 + days /\
    GroceryConcierge.c_meal_planner (GroceryConcierge.components st)
      = (if GroceryConcierge.has_key self then "operational" else "mock_mode").
Proof.
  intros Hcat Hfall Hlog Hnow Hy1000 Hrep Hdays.
  assert (Hrep1 : representable (add_days (on now) (Z.max 1 (days - 1))))
    by (apply (representable_between _ _ 7); [apply Hnow | done | lia]).
  destruct (WorkflowFacts.fallback_run self now response days Hcat Hfall
              Hnow Hy1000 Hrep1)
    as (o & dev & Hrun & _ & _ & _ & Hst & _).
  rewrite Hlog in Hrun. simpl in Hrun.
  set (scheduled :=
         dev :: map (fun day => day_event now (day, MealPlanner.mock_meals))
                  (py_range 1 (days + 1))) in *.
  assert (Hall : Forall (fun ev => exists start,
            fromisoformat (start_time ev) = Some start /\
            Datetime.leb start (add_timedelta now 7 0) = true) scheduled).
  { constructor.
    - rewrite Hst.
      change (isoformat_date (add_days (on now) 1) ++ "T16:00:00")%string
        with (isoformat (Datetime.mk (add_days (on now) 1) 16 0 0 0)).
      eexists. apply (due_within now 1 7 16 0 0); (done || lia).
    - apply Forall_forall. intros ev Hin.
      apply (list_elem_of_fmap (fun day => day_event now (day, MealPlanner.mock_meals)))
        in Hin as (day & -> & Hday).
      apply PyFacts.py_range_elem in Hday.
      unfold day_event, meal_prep_event. cbn [start_time fst snd].
      rewrite CalendarManagerFacts.anchor_offset.
      eexists. apply (due_within now (day - 1) 7 18 0 0); (done || lia). }
  assert (Hlen : length scheduled = S (Z.to_nat days)).
  { unfold scheduled. cbn [length].
    rewrite length_map, PyFacts.py_range_length. f_equal. f_equal. lia. }
  assert (Hup : get_upcoming_events now scheduled 7
                = Returned (sorted_by start_time scheduled)).
  { unfold get_upcoming_events. by rewrite upcoming_all. }
  eexists _, scheduled, (sorted_by start_time scheduled).
  unfold GroceryConcierge.get_system_status.
  cbn [GroceryConcierge.events GroceryConcierge.fridge].
  rewrite Hup. eexists. split; [exact Hrun|]. split; [done|].
  split; [done|].
  split; [apply (UpcomingFacts.sorted_by_spec start_time)|].
  split; [reflexivity|]. split; [|done].
  cbn [GroceryConcierge.upcoming_events]. unfold GroceryConcierge.count.
  rewrite (Permutation_length
             (proj1 (proj2 (UpcomingFacts.sorted_by_spec start_time
                              scheduled)))).
  rewrite Hlen. lia.
Qed.

Lemma scheduled_week_is_upcoming_witness :
  let self := GroceryConcierge.init FridgeInventory.default_items None in
  let now := Datetime.mk (Datetime.mkDate 2025 12 28) 9 30 15 0 in
  exists r log kept st,
    GroceryConcierge.plan_and_order self now None 7 true
      = (Returned r, log) /\
    log = GroceryConcierge.calendar_events r /\
    get_upcoming_events now log 7 = Returned kept /\
    kept ≡ₚ log /\
    GroceryConcierge.get_system_status
      (GroceryConcierge.mk FridgeInventory.default_items None
         GroceryManager.store_catalog log) now = Returned st /\
    GroceryConcierge.upcoming_events st = 1 + 7 /\
    GroceryConcierge.c_meal_planner (GroceryConcierge.components st)
      = "mock_mode"%string.
Proof.
  intros self now.
  assert (Hnow : valid now) by (vm_compute; intuition discriminate).
  assert (Hrep : representable (add_days (on now) 7))
    by (vm_compute; intuition discriminate).
  assert (Hy : 1000 <= year (on now)) by (vm_compute; discriminate).
  exact (scheduled_week_is_upcoming self now None 7 eq_refl
           (or_introl eq_refl) eq_refl Hnow Hy Hrep ltac:(lia)).
Defined.

End StatusFacts.

(** ** Catalog keys, and the status report *)

Module SystemFacts.
Import Datetime GroceryManager.

(** X13. The catalog is read under the lower-cased name of an item, so a key
    that is not in lower case is never found: the search results are the
    same without it.  Items whose names differ only in letter case find
    the same entry.  The result for an item does not depend on the items
    around it. *)
Theorem search_products_keys (catalog : gmap string catalog_entry) :
  (forall k grocery_list,
     lower k <> k ->
     search_products (delete k catalog) grocery_list
       = search_products catalog grocery_list) /\
  (forall a b,
     lower (GroceryItem.name a) = lower (GroceryItem.name b) ->
     matched (search_product catalog a) = matched (search_product catalog b) /\
     (GroceryItem.quantity a = GroceryItem.quantity b ->
      line_total (search_product catalog a)
        = line_total (search_product catalog b))) /\
  (forall l1 l2,
     search_products catalog (l1 ++ l2)
       = search_products catalog l1 ++ search_products catalog l2).
Proof.
  split; [|split].
  - intros k grocery_list Hk. rewrite !GroceryManagerFacts.search_products_map.
    apply map_ext. intros item. unfold search_product.
    rewrite lookup_delete_ne; [done|].
    intros ->. apply Hk. apply FridgeInventoryMore.lower_idempotent.
  - intros a b Hab. unfold search_product, matched, line_total. rewrite Hab.
    destruct (catalog !! lower (GroceryItem.name b)); simpl; [|done].
    split; [done|]. by intros ->.
  - intros l1 l2. rewrite !GroceryManagerFacts.search_products_map.
    apply map_app.
Qed.

Lemma search_products_keys_witness :
  let catalog :=
    <["Milk" := mkEntry (PyFloat.lit 1 2) "gallon" true "X"]> store_catalog in
  let request :=
    [GroceryItem.mk "Milk" 2 "gallon" "dairy" (PyFloat.lit 399 2) None] in
  lower "Milk" <> "Milk"%string /\
  search_products (delete "Milk" catalog) request
    = search_products catalog request.
Proof.
  intros catalog request.
  assert (Hk : lower "Milk" <> "Milk"%string) by (vm_compute; discriminate).
  split; [exact Hk|].
  exact (proj1 (search_products_keys catalog) "Milk"%string request Hk).
Defined.

Lemma filter_length_le {A : Type} (f : A -> bool) (l : list A) :
  (length (List.filter f l) <= length l)%nat.
Proof.
  induction l as [|x l IH]; simpl; [done|]. destruct (f x); simpl; lia.
Qed.

(** X14. The status report on a calendar whose start times all parse: the call
    returns; its counts are those of the inventory queries with their
    default windows, the same lists [daily_check] reports, and never more
    than the number of lines; its categories are the categories of the
    lines, each once; its count of upcoming events is at most the length
    of the log; the planner is reported in mock mode exactly when the
    fallback plan is what [generate_meal_plan] returns whatever the
    external generator answered.  The day seven days from now is one
    Python can hold. *)
Theorem system_status_consistent (self : GroceryConcierge.t) (now : Datetime.t) :
  valid now ->
  representable (add_days (on now) 7) ->
  Forall (fun ev => is_Some (fromisoformat (CalendarManager.start_time ev)))
    (GroceryConcierge.events self) ->
  exists st,
    GroceryConcierge.get_system_status self now = Returned st /\
    let fs := GroceryConcierge.fridge_status st in
    let total := Z.of_nat (length (GroceryConcierge.fridge self)) in
    GroceryConcierge.fs_total_items fs = total /\
    GroceryConcierge.fs_total_items fs
      = GroceryConcierge.total_items (GroceryConcierge.daily_check self now) /\
    GroceryConcierge.fs_expiring_soon fs
      = Z.of_nat (length (GroceryConcierge.expiring_soon
                            (GroceryConcierge.daily_check self now))) /\
    GroceryConcierge.fs_low_stock fs
      = Z.of_nat (length (GroceryConcierge.low_stock
                            (GroceryConcierge.daily_check self now))) /\
    0 <= GroceryConcierge.fs_expiring_soon fs <= total /\
    0 <= GroceryConcierge.fs_low_stock fs <= total /\
    NoDup (GroceryConcierge.categories fs) /\
    (forall c, c ∈ GroceryConcierge.categories fs <->
               exists it, it ∈ GroceryConcierge.fridge self /\
                          FridgeItem.category it = c) /\
    0 <= GroceryConcierge.upcoming_events st
      <= Z.of_nat (length (GroceryConcierge.events self)) /\
    GroceryConcierge.system_time st = isoformat now /\
    (GroceryConcierge.c_meal_planner (GroceryConcierge.components st)
       = "mock_mode"%string <->
     forall response days,
       GroceryConcierge.plan_of self response days
         = MealPlanner._generate_mock_meal_plan
             (GroceryConcierge.fridge self) days).
Proof.
  intros _ _ Hall. unfold GroceryConcierge.get_system_status.
  unfold CalendarManager.get_upcoming_events.
  rewrite UpcomingFacts.upcoming_filter by done.
  eexists. split; [reflexivity|]. cbv zeta.
  cbn [GroceryConcierge.fridge_status GroceryConcierge.fs_total_items
       GroceryConcierge.fs_expiring_soon GroceryConcierge.fs_low_stock
       GroceryConcierge.categories GroceryConcierge.upcoming_events
       GroceryConcierge.system_time GroceryConcierge.components
       GroceryConcierge.c_meal_planner].
  unfold GroceryConcierge.count.
  split; [done|]. split; [done|]. split; [done|]. split; [done|].
  split.
  { pose proof (filter_length_le
      (fun item => String.leb (FridgeItem.expiry_date item)
                     (FridgeInventory.cutoff_date now 3))
      (GroceryConcierge.fridge self)).
    unfold FridgeInventory.get_expiring_soon. lia. }
  split.
  { pose proof (filter_length_le
      (fun item => FridgeItem.quantity item <=? 2)
      (GroceryConcierge.fridge self)).
    unfold FridgeInventory.get_low_stock. lia. }
  split; [apply SummaryFacts.summary_fold_keys; apply NoDup_nil_2|].
  split.
  { intros c. split.
    - intros Hin.
      destruct (dict_get (FridgeInventory.get_inventory_summary
                            (GroceryConcierge.fridge self)) c) as [l|] eqn:E;
        [|by apply SummaryFacts.dict_get_None_keys in E].
      unfold FridgeInventory.get_inventory_summary in E.
      rewrite SummaryFacts.summary_fold_get in E. simpl in E.
      destruct (List.filter (FridgeInventory.in_category c)
                  (GroceryConcierge.fridge self)) as [|it l'] eqn:Ef; [done|].
      assert (Hit : In it (List.filter (FridgeInventory.in_category c)
                             (GroceryConcierge.fridge self)))
        by (rewrite Ef; by left).
      apply List.filter_In in Hit as [Hit Hc].
      exists it. split; [by apply list_elem_of_In | by apply String.eqb_eq].
    - intros (it & Hit & Hc).
      destruct (decide (c ∈ (FridgeInventory.get_inventory_summary
                               (GroceryConcierge.fridge self)).*1))
        as [|Hn]; [done|].
      apply SummaryFacts.dict_get_None_keys in Hn.
      unfold FridgeInventory.get_inventory_summary in Hn.
      rewrite SummaryFacts.summary_fold_get in Hn. simpl in Hn.
      assert (Hin : In it (List.filter (FridgeInventory.in_category c)
                             (GroceryConcierge.fridge self))).
      { apply List.filter_In. split; [by apply list_elem_of_In|].
        by apply String.eqb_eq. }
      by destruct (List.filter (FridgeInventory.in_category c)
                     (GroceryConcierge.fridge self)). }
  split.
  { rewrite (Permutation_length
               (proj1 (proj2 (UpcomingFacts.sorted_by_spec
                                CalendarManager.start_time _)))).
    pose proof (filter_length_le
      (fun ev => match fromisoformat (CalendarManager.start_time ev) with
                 | Some start => Datetime.leb start (add_timedelta now 7 0)
                 | None => false
                 end) (GroceryConcierge.events self)). lia. }
  split; [done|].
  split.
  - intros Hmock response days.
    apply WorkflowFacts.generate_meal_plan_fallback. left.
    by destruct (GroceryConcierge.has_key self).
  - intros Hplan. destruct (GroceryConcierge.has_key self) eqn:Ek; [|done].
    exfalso.
    specialize (Hplan (Some (MealPlan.mk None None None)) 0).
    unfold GroceryConcierge.plan_of, MealPlanner.generate_meal_plan,
      GroceryConcierge.has_key in *.
    destruct (GroceryConcierge.api_key self) as [key|]; [|done].
    destruct (String.eqb key ""); [done|]. discriminate Hplan.
Qed.

Lemma system_status_consistent_witness :
  let self := GroceryConcierge.init FridgeInventory.default_items None in
  let now := Datetime.mk (Datetime.mkDate 2025 7 20) 9 30 15 0 in
  exists st,
    GroceryConcierge.get_system_status self now = Returned st /\
    GroceryConcierge.fs_total_items (GroceryConcierge.fridge_status st) = 10 /\
    GroceryConcierge.fs_expiring_soon (GroceryConcierge.fridge_status st) = 4 /\
    GroceryConcierge.fs_low_stock (GroceryConcierge.fridge_status st) = 6 /\
    GroceryConcierge.categories (GroceryConcierge.fridge_status st)
      = ["dairy"; "meat"; "vegetable"; "grain"]%string /\
    GroceryConcierge.upcoming_events st = 0.
Proof.
  intros self now.
  assert (Hnow : valid now) by (vm_compute; intuition discriminate).
  assert (Hrep : representable (add_days (on now) 7))
    by (vm_compute; intuition discriminate).
  destruct (system_status_consistent self now Hnow Hrep (Forall_nil_2 _))
    as (st & Hst & _).
  exists st. split; [exact Hst|].
  assert (E : Returned st = GroceryConcierge.get_system_status self now)
    by done.
  vm_compute in E. injection E as ->. repeat split; reflexivity.
Defined.

End SystemFacts.
